(** * Agent operating system: protocol and concurrency core

    A shallow embedding of [src/utils/protocols.py] (with the data models of
    [src/utils/models.py], the exception classes of [src/core/exceptions.py]
    and the metric calls of [src/core/framework.py]) and the properties of
    the task manager, the skill router, the outbound protocol client and the
    tool-connection manager.

    Conventions of the embedding.
    - Python objects are immutable Rocq values; an object that is shared by
      reference and mutated (the task store, an [asyncio.Queue]) lives in an
      explicit state and is addressed by key.
    - An [async def] is a state transformer that either returns or raises.
      The activities are run one at a time: a call runs to completion before
      the next one starts, so every lock is free at a call boundary and
      [async with lock] never waits.  A lock table only records which lock
      objects exist.
    - Calling an [async def] builds a coroutine object; its body runs only
      when the coroutine is awaited ([await_]).  A call whose coroutine is
      dropped ([unawaited]) runs nothing.
    - Constructors of the pydantic models are record constructions; logging
      has no effect on the state and is left out.
    - What the outside world decides (the clock, a fresh uuid, what a remote
      peer answers, what a skill handler does) is an argument. *)

From Stdlib Require Import ZArith Ascii String.
From Stdlib Require SpecFloat.
From stdpp Require Import gmap strings list.

Open Scope string_scope.
Open Scope Z_scope.
Open Scope list_scope.

(** ** Python values *)

(** [bool(s)] of a [str]. *)
Definition truthy_str (s : string) : bool :=
  match s with EmptyString => false | _ => true end.

(** [bool(o)] of an [Optional[str]]. *)
Definition truthy_ostr (o : option string) : bool :=
  match o with Some s => truthy_str s | None => false end.

(** [bool(l)] of a list. *)
Definition truthy_list {A} (l : list A) : bool :=
  match l with [] => false | _ => true end.

(** [l[start:]] with Python's treatment of a negative or too large start. *)
Definition py_slice_from {A} (start : Z) (l : list A) : list A :=
  let len := Z.of_nat (length l) in
  let lo := if start <? 0 then Z.max (len + start) 0 else Z.min start len in
  drop (Z.to_nat lo) l.

(** [s.startswith((p1, p2))]. *)
Definition startswith_any (ps : list string) (s : string) : bool :=
  existsb (fun p => String.prefix p s) ps.

(** [s.rstrip('/')]. *)
Fixpoint rstrip_slash (s : string) : string :=
  match s with
  | EmptyString => EmptyString
  | String c r =>
      match rstrip_slash r with
      | EmptyString => if Ascii.eqb c "/"%char then EmptyString else String c EmptyString
      | r' => String c r'
      end
  end.

(** ** Exceptions ([core/exceptions.py]) *)

Inductive ExcClass :=
| A2AError_ (code : Z)
| APIAException_
| ActionFailedError_
| ConfigurationError_
| ConnectionError_
| Exception_ (name : string).

#[global] Instance ExcClass_eq_dec : EqDecision ExcClass.
Proof. solve_decision. Defined.

(** An exception object: its class and [str(e)]; [ExcFrom] also carries
    [e.__cause__], set by [raise ... from cause].  Only instances of
    [Exception] are modelled (no [CancelledError], no [KeyboardInterrupt]). *)
Inductive PyExc :=
| Exc (cls : ExcClass) (text : string)
| ExcFrom (cls : ExcClass) (text : string) (cause : PyExc).

Definition exc_class (e : PyExc) : ExcClass :=
  match e with Exc c _ | ExcFrom c _ _ => c end.
Definition exc_str (e : PyExc) : string :=
  match e with Exc _ t | ExcFrom _ t _ => t end.
Definition exc_cause (e : PyExc) : option PyExc :=
  match e with Exc _ _ => None | ExcFrom _ _ c => Some c end.

(** [A2AError(message, code=...)]; the default code is -32000. *)
Definition A2AError (message : string) (code : Z) : PyExc :=
  Exc (A2AError_ code) message.

(** [e.code] of an [A2AError]. *)
Definition exc_code (e : PyExc) : option Z :=
  match exc_class e with A2AError_ c => Some c | _ => None end.

(** ** Coroutines over a state *)

Inductive Outcome (A : Type) :=
| Return (a : A)
| Raise (e : PyExc).
Arguments Return {A} a.
Arguments Raise {A} e.

Definition Async (S A : Type) : Type := S → Outcome A * S.

#[global] Instance async_ret {S} : MRet (Async S) :=
  λ A a s, (Return a, s).

#[global] Instance async_bind {S} : MBind (Async S) :=
  λ A B f c s,
    match c s with
    | (Return a, s') => f a s'
    | (Raise e, s') => (Raise e, s')
    end.

#[global] Instance async_fmap {S} : FMap (Async S) :=
  λ A B f c s,
    match c s with
    | (Return a, s') => (Return (f a), s')
    | (Raise e, s') => (Raise e, s')
    end.

Definition raise {S A} (e : PyExc) : Async S A := λ s, (Raise e, s).
Definition get_state {S} : Async S S := λ s, (Return s, s).
Definition modify {S} (f : S → S) : Async S unit := λ s, (Return tt, f s).

(** [await c]: the coroutine runs here. *)
Definition await_ {S A} (c : Async S A) : Async S A := c.

(** [c] as an expression statement, with no [await]: the coroutine object is
    built and dropped, its body never runs. *)
Definition unawaited {S A} (c : Async S A) : Async S unit := mret tt.

(** [try: body  except Exception as e: handler(e)]. *)
Definition try_except {S A} (body : Async S A) (handler : PyExc → Async S A)
  : Async S A :=
  λ s, match body s with
       | (Return a, s') => (Return a, s')
       | (Raise e, s') => handler e s'
       end.

(** [try: body  finally: final].  An exception of [body] is raised again
    after [final], unless [final] raises itself. *)
Definition try_finally {S A} (body : Async S A) (final : Async S unit)
  : Async S A :=
  λ s, match body s with
       | (r, s') =>
           match final s' with
           | (Return _, s'') => (r, s'')
           | (Raise e, s'') => (Raise e, s'')
           end
       end.

Definition when {S} (b : bool) (c : Async S unit) : Async S unit :=
  if b then c else mret tt.

(** ** Data models ([utils/models.py]) *)

(** [Dict[str, Any]]: the values the core reads are strings. *)
Abbreviation Dict := (gmap string string).

Record A2AFile := {
  file_name : option string;
  file_mimeType : option string;
  file_bytes : option string;
  file_uri : option string }.

Inductive A2APart :=
| A2ATextPart (text : string)
| A2AFilePart (file : A2AFile)
| A2ADataPart (data : Dict).

Inductive Role := user | agent.

Record A2AMessage := {
  msg_role : Role;
  msg_parts : list A2APart;
  msg_metadata : option Dict }.

Record A2AArtifact := {
  art_name : option string;
  art_description : option string;
  art_parts : list A2APart;
  art_index : Z;
  art_append : option bool;
  art_lastChunk : option bool }.

Inductive TaskStateName :=
| submitted | working | input_required | completed | canceled | failed
| unknown.

#[global] Instance TaskStateName_eq_dec : EqDecision TaskStateName.
Proof. solve_decision. Defined.

Definition state_name (s : TaskStateName) : string :=
  match s with
  | submitted => "submitted" | working => "working"
  | input_required => "input-required" | completed => "completed"
  | canceled => "canceled" | failed => "failed" | unknown => "unknown"
  end.

(** [s in [s1, ..., sn]]. *)
Definition state_in (s : TaskStateName) (l : list TaskStateName) : bool :=
  bool_decide (s ∈ l).

Record A2ATaskState := {
  state : TaskStateName;
  message : option A2AMessage;
  timestamp : Z }.

Record A2ATask := {
  id : string;
  sessionId : option string;
  status : A2ATaskState;
  history : list A2AMessage;
  artifacts : list A2AArtifact;
  metadata : option Dict }.

Record A2ATaskSendParams := {
  p_id : string;
  p_sessionId : option string;
  p_message : A2AMessage;
  p_metadata : option Dict }.

Record A2ATaskStatusUpdateEventResult := {
  ev_id : string;
  ev_status : A2ATaskState;
  final : bool }.

Record A2ATaskArtifactUpdateEventResult := {
  aev_id : string;
  aev_artifact : A2AArtifact }.

(** What travels on an update queue: the two event models, and the
    [A2AError] object the manager puts for a task it refuses. *)
Inductive QueueItem :=
| StatusUpdate (ev : A2ATaskStatusUpdateEventResult)
| ArtifactUpdate (ev : A2ATaskArtifactUpdateEventResult)
| QueuedError (e : PyExc).

(** [task.model_copy(deep=True)]: a value shares nothing with the store. *)
Definition model_copy_deep (task : A2ATask) : A2ATask := task.

(** Attribute assignments on a task object. *)
Definition set_status (st : A2ATaskState) (t : A2ATask) : A2ATask :=
  {| id := id t; sessionId := sessionId t; status := st;
     history := history t; artifacts := artifacts t; metadata := metadata t |}.
Definition set_history (h : list A2AMessage) (t : A2ATask) : A2ATask :=
  {| id := id t; sessionId := sessionId t; status := status t;
     history := h; artifacts := artifacts t; metadata := metadata t |}.
Definition set_artifacts (a : list A2AArtifact) (t : A2ATask) : A2ATask :=
  {| id := id t; sessionId := sessionId t; status := status t;
     history := history t; artifacts := a; metadata := metadata t |}.
Definition set_sessionId (sid : option string) (t : A2ATask) : A2ATask :=
  {| id := id t; sessionId := sid; status := status t;
     history := history t; artifacts := artifacts t; metadata := metadata t |}.
Definition set_timestamp (now : Z) (st : A2ATaskState) : A2ATaskState :=
  {| state := state st; message := message st; timestamp := now |}.

(** [str(m)] of an optional message, as the f-strings of the dead-letter
    reasons print it: [None], or pydantic's field listing, here abridged
    (the parts to their text, the [metadata] fields left out). *)
Definition str_part (p : A2APart) : string :=
  match p with
  | A2ATextPart t => "A2ATextPart(type='text', text='" +:+ t +:+ "')"
  | A2AFilePart _ => "A2AFilePart(type='file')"
  | A2ADataPart _ => "A2ADataPart(type='data')"
  end.

Definition str_message (m : option A2AMessage) : string :=
  match m with
  | None => "None"
  | Some m =>
      "role='" +:+ (match msg_role m with user => "user" | agent => "agent" end)
      +:+ "' parts=[" +:+ String.concat ", " (map str_part (msg_parts m)) +:+ "]"
  end.

(** ** Task context and skill handlers *)

(** [A2ATaskContext]: the task snapshot and a reference to the update queue,
    [None] outside a stream. *)
Record A2ATaskContext := {
  task : A2ATask;
  _update_queue : option nat }.

Definition task_id (ctx : A2ATaskContext) : string := id (task ctx).

(** [A2ATaskResult]: [final_status] and [artifacts]. *)
Record A2ATaskResult := {
  final_status : A2ATaskState;
  artifacts_of : list A2AArtifact }.

(** The two effectful calls a handler can make on its context. *)
Inductive ContextCall :=
| call_update_status (st : TaskStateName) (message_text : option string)
    (final_flag : bool)
| call_yield_artifact (artifact : A2AArtifact).

(** One run of a handler on a context: the context calls it makes, in
    order, and how it ends. *)
Record HandlerRun := {
  context_calls : list ContextCall;
  ending : PyExc + A2ATaskResult }.

(** A Python callable offered as a handler: whether
    [asyncio.iscoroutinefunction] holds of it, and what a call does. *)
Record Callable := {
  iscoroutinefunction : bool;
  call : A2ATaskContext → HandlerRun }.

(** ** Skill router ([A2ATaskRouter]) *)

Record A2ATaskRouter := {
  _handlers : gmap string Callable;
  _default_handler : option Callable }.

Definition A2ATaskRouter_init : A2ATaskRouter :=
  {| _handlers := ∅; _default_handler := None |}.

Definition register_handler (skill_id : string) (handler : Callable)
  : Async A2ATaskRouter unit :=
  if negb (iscoroutinefunction handler) then mret tt
  else modify (λ r, {| _handlers := <[skill_id := handler]> (_handlers r);
                       _default_handler := _default_handler r |}).

Definition register_default_handler (handler : Callable)
  : Async A2ATaskRouter unit :=
  if negb (iscoroutinefunction handler) then mret tt
  else modify (λ r, {| _handlers := _handlers r;
                       _default_handler := Some handler |}).

Definition get_handler (skill_id : option string)
  : Async A2ATaskRouter (option Callable) :=
  r ← get_state;
  match skill_id with
  | Some s =>
      if truthy_str s && bool_decide (s ∈ dom (_handlers r))
      then mret (_handlers r !! s)
      else mret (_default_handler r)
  | None => mret (_default_handler r)
  end.

(** ** Task manager ([A2ATaskManager]) *)

Record A2ATaskManager := {
  _tasks : gmap string A2ATask;
  _task_locks : gset string;
  kb : gmap (string * string) Z;
  router : A2ATaskRouter;
  a2a_dlq : list (string * string * string) }.

(** The manager together with the [asyncio.Queue] objects its callers hand
    to it, by reference. *)
Record World := {
  self : A2ATaskManager;
  queues : gmap nat (list QueueItem) }.

Definition A2ATaskManager_init (task_router : A2ATaskRouter) : A2ATaskManager :=
  {| _tasks := ∅; _task_locks := ∅; kb := ∅; router := task_router;
     a2a_dlq := [] |}.

Definition with_tasks (f : gmap string A2ATask → gmap string A2ATask)
    (m : A2ATaskManager) : A2ATaskManager :=
  {| _tasks := f (_tasks m); _task_locks := _task_locks m; kb := kb m;
     router := router m; a2a_dlq := a2a_dlq m |}.
Definition with_task_locks (f : gset string → gset string)
    (m : A2ATaskManager) : A2ATaskManager :=
  {| _tasks := _tasks m; _task_locks := f (_task_locks m); kb := kb m;
     router := router m; a2a_dlq := a2a_dlq m |}.
Definition with_kb (f : gmap (string * string) Z → gmap (string * string) Z)
    (m : A2ATaskManager) : A2ATaskManager :=
  {| _tasks := _tasks m; _task_locks := _task_locks m; kb := f (kb m);
     router := router m; a2a_dlq := a2a_dlq m |}.
Definition with_router (f : A2ATaskRouter → A2ATaskRouter)
    (m : A2ATaskManager) : A2ATaskManager :=
  {| _tasks := _tasks m; _task_locks := _task_locks m; kb := kb m;
     router := f (router m); a2a_dlq := a2a_dlq m |}.
Definition with_dlq
    (f : list (string * string * string) → list (string * string * string))
    (m : A2ATaskManager) : A2ATaskManager :=
  {| _tasks := _tasks m; _task_locks := _task_locks m; kb := kb m;
     router := router m; a2a_dlq := f (a2a_dlq m) |}.

Definition modify_self (f : A2ATaskManager → A2ATaskManager) : Async World unit :=
  modify (λ w, {| self := f (self w); queues := queues w |}).

(** A router coroutine run on the manager's router. *)
Definition on_router {A} (c : Async A2ATaskRouter A) : Async World A :=
  λ w, match c (router (self w)) with
       | (r, rt) => (r, {| self := with_router (λ _, rt) (self w);
                           queues := queues w |})
       end.

(** [await queue.put(item)] on an unbounded [asyncio.Queue]. *)
Definition queue_put (q : nat) (item : QueueItem) : Async World unit :=
  modify (λ w, {| self := self w;
                  queues := <[q := default [] (queues w !! q) ++ [item]]> (queues w) |}).

(** [kb.get_metric(category, name, default)] and
    [kb.update_metric(category, name, value)] on the metric table. *)
Definition get_metric (category name : string) (default_ : Z) : Async World Z :=
  w ← get_state; mret (default default_ (kb (self w) !! (category, name))).
Definition update_metric (category name : string) (value : Z) : Async World unit :=
  modify_self (with_kb <[(category, name) := value]>).

(** [A2ATaskContext.update_status]. *)
Definition update_status (ctx : A2ATaskContext) (now : Z) (st : TaskStateName)
    (message_text : option string) (final_flag : bool) : Async World unit :=
  match _update_queue ctx with
  | None => mret tt
  | Some q =>
      let status_message :=
        match message_text with
        | Some t =>
            if truthy_str t
            then Some {| msg_role := agent; msg_parts := [A2ATextPart t];
                         msg_metadata := None |}
            else None
        | None => None
        end in
      let status_ :=
        {| state := st; message := status_message; timestamp := now |} in
      queue_put q (StatusUpdate {| ev_id := task_id ctx; ev_status := status_;
                                   final := final_flag |})
  end.

(** [A2ATaskContext.yield_artifact]. *)
Definition yield_artifact (ctx : A2ATaskContext) (artifact : A2AArtifact)
  : Async World unit :=
  match _update_queue ctx with
  | None => mret tt
  | Some q =>
      queue_put q (ArtifactUpdate {| aev_id := task_id ctx;
                                     aev_artifact := artifact |})
  end.

Fixpoint run_context_calls (ctx : A2ATaskContext) (now : Z)
    (cs : list ContextCall) : Async World unit :=
  match cs with
  | [] => mret tt
  | call_update_status st text fin :: cs' =>
      _ ← await_ (update_status ctx now st text fin);
      run_context_calls ctx now cs'
  | call_yield_artifact a :: cs' =>
      _ ← await_ (yield_artifact ctx a);
      run_context_calls ctx now cs'
  end.

(** [await handler(context)]. *)
Definition call_handler (handler : Callable) (ctx : A2ATaskContext) (now : Z)
  : Async World A2ATaskResult :=
  let run := call handler ctx in
  _ ← run_context_calls ctx now (context_calls run);
  match ending run with
  | inl e => raise e
  | inr result => mret result
  end.

(** [_get_task_lock]: the lock of a task, created on first use. *)
Definition _get_task_lock (task_id : string) : Async World unit :=
  modify_self (λ m,
    if bool_decide (task_id ∈ _task_locks m) then m
    else with_task_locks (λ l, {[task_id]} ∪ l) m).

(** [_update_task_state]: an [async def]; its effect when it is awaited. *)
Definition _update_task_state (task_id : string) (now : Z)
    (status_ : option A2ATaskState) (history_append : option A2AMessage)
    (artifacts_ : option (list A2AArtifact)) (replace_artifacts : bool)
  : Async World unit :=
  w ← get_state;
  match _tasks (self w) !! task_id with
  | None => mret tt
  | Some t =>
      let t1 := match status_ with
                | Some st => set_status (set_timestamp now st) t
                | None => t
                end in
      let t2 := match history_append with
                | Some m => set_history (history t1 ++ [m]) t1
                | None => t1
                end in
      let t3 := if bool_decide (is_Some artifacts_) || replace_artifacts
                then set_artifacts (default [] artifacts_) t2
                else t2 in
      modify_self (with_tasks <[task_id := t3]>)
  end.

(** [_add_to_dlq].  The class body defines it twice; the second definition
    (a plain append) replaces the first. *)
Definition _add_to_dlq (task_id method reason : string) : Async World unit :=
  modify_self (with_dlq (λ q, q ++ [(task_id, method, reason)])).

(** [f"{x}"] of an [Optional[str]]. *)
Definition str_ostr (o : option string) : string := default "None" o.

(** [_get_handler_for_task].  The metadata values of the embedding are
    strings, so the [skill_id] read here is a string or absent; a
    [skill_id] of another JSON type is outside the embedding. *)
Definition _get_handler_for_task (params : A2ATaskSendParams)
  : Async World Callable :=
  let skill_id :=
    match msg_metadata (p_message params) with
    | Some md => if bool_decide (md = ∅) then None else md !! "skill_id"
    | None => None
    end in
  handler ← await_ (on_router (get_handler skill_id));
  match handler with
  | None =>
      _ ← await_ (_add_to_dlq (p_id params) "tasks/send"
            ("No suitable handler found (Skill ID: " +:+ str_ostr skill_id +:+ ")"));
      raise (A2AError ("No suitable agent handler found for skill '"
                       +:+ str_ostr skill_id +:+ "'") (-32601))
  | Some h => mret h
  end.

(** The checks [_validate_task_params] makes on one part; the [isinstance]
    tests hold by typing. *)
Definition validate_part (part : A2APart) : option PyExc :=
  match part with
  | A2AFilePart f =>
      if negb (truthy_ostr (file_bytes f)) && negb (truthy_ostr (file_uri f))
      then Some (A2AError "File part must have either bytes or URI" (-32602))
      else if truthy_ostr (file_uri f)
              && negb (startswith_any ["http://"; "https://"]
                         (default "" (file_uri f)))
      then Some (A2AError
                   "Invalid URI format: must start with http:// or https://"
                   (-32602))
      else None
  | A2ATextPart t =>
      if negb (truthy_str t)
      then Some (A2AError "Text part must contain non-empty text" (-32602))
      else None
  | A2ADataPart d =>
      if bool_decide (d = ∅)
      then Some (A2AError "Data part must contain non-empty dictionary" (-32602))
      else None
  end.

(** [for part in parts]: the first failing check raises. *)
Fixpoint validate_parts (ps : list A2APart) : option PyExc :=
  match ps with
  | [] => None
  | part :: ps' =>
      match validate_part part with
      | Some e => Some e
      | None => validate_parts ps'
      end
  end.

(** [_validate_task_params]. *)
Definition _validate_task_params (params : A2ATaskSendParams)
  : Async World unit :=
  if negb (truthy_list (msg_parts (p_message params)))
  then raise (A2AError "Task message must contain at least one part" (-32602))
  else match validate_parts (msg_parts (p_message params)) with
       | Some e => raise e
       | None => mret tt
       end.

(** The states in which a stored task accepts another message. *)
Definition reusable_states : list TaskStateName :=
  [input_required; completed; working; submitted; canceled].

(** [params.sessionId or str(uuid.uuid4())]. *)
Definition session_id_of (params : A2ATaskSendParams) (uuid4 : string) : string :=
  match p_sessionId params with
  | Some s => if truthy_str s then s else uuid4
  | None => uuid4
  end.

(** The part of [handle_task_send] and [handle_task_send_subscribe] that
    takes a stored task up again: three attribute assignments on the stored
    object, then the call of [_update_task_state] that is not awaited. *)
Definition reuse_task (now : Z) (session_id : string)
    (params : A2ATaskSendParams) (t : A2ATask) : Async World A2ATask :=
  let t' := set_status {| state := working; message := None; timestamp := now |}
              (set_sessionId (Some session_id)
                 (set_history (history t ++ [p_message params]) t)) in
  _ ← modify_self (with_tasks <[p_id params := t']>);
  _ ← unawaited (_update_task_state (p_id params) now (Some (status t')) None
                   None false);
  mret t'.

(** The part that creates the record of a new task. *)
Definition create_task (now : Z) (session_id : string)
    (params : A2ATaskSendParams) : Async World A2ATask :=
  let t := {| id := p_id params; sessionId := Some session_id;
              status := {| state := working; message := None; timestamp := now |};
              history := [p_message params]; artifacts := [];
              metadata := p_metadata params |} in
  _ ← modify_self (with_tasks <[p_id params := t]>);
  n ← await_ (get_metric "a2a_tasks" "received" 0);
  _ ← await_ (update_metric "a2a_tasks" "received" (n + 1));
  mret t.

(** [self._tasks[task_id]]. *)
Definition tasks_getitem (task_id : string) : Async World A2ATask :=
  w ← get_state;
  match _tasks (self w) !! task_id with
  | Some t => mret t
  | None => raise (Exc (Exception_ "KeyError") task_id)
  end.

(** The [try] block of [handle_task_send]: the handler runs outside the
    lock, its result is committed under the lock. *)
Definition send_try (handler : Callable) (task_id : string)
    (task_copy : A2ATask) (now : Z) : Async World unit :=
  let context := {| task := task_copy; _update_queue := None |} in
  result ← await_ (call_handler handler context now);
  _ ← await_ (_get_task_lock task_id);
  _ ← unawaited (_update_task_state task_id now (Some (final_status result))
                   None (Some (artifacts_of result)) true);
  match state (final_status result) with
  | completed =>
      n ← await_ (get_metric "a2a_tasks" "completed" 0);
      await_ (update_metric "a2a_tasks" "completed" (n + 1))
  | failed =>
      n ← await_ (get_metric "a2a_tasks" "failed" 0);
      _ ← await_ (update_metric "a2a_tasks" "failed" (n + 1));
      await_ (_add_to_dlq task_id "tasks/send"
                ("Handler failed: "
                 +:+ str_message (message (final_status result))))
  | _ => mret tt
  end.

(** The [except Exception as e] clause of [handle_task_send]. *)
Definition send_except (task_id : string) (now : Z) (e : PyExc)
  : Async World unit :=
  let error_message :=
    {| msg_role := agent;
       msg_parts := [A2ATextPart ("Internal error: " +:+ exc_str e)];
       msg_metadata := None |} in
  let failed_status :=
    {| state := failed; message := Some error_message; timestamp := now |} in
  _ ← await_ (_get_task_lock task_id);
  _ ← unawaited (_update_task_state task_id now (Some failed_status)
                   None None true);
  n ← await_ (get_metric "a2a_tasks" "failed" 0);
  _ ← await_ (update_metric "a2a_tasks" "failed" (n + 1));
  await_ (_add_to_dlq task_id "tasks/send"
            ("Handler exception: " +:+ exc_str e)).

(** [handle_task_send]. *)
Definition handle_task_send (now : Z) (uuid4 : string)
    (params : A2ATaskSendParams) : Async World A2ATask :=
  _ ← await_ (_validate_task_params params);
  let task_id := p_id params in
  let session_id := session_id_of params uuid4 in
  handler ← await_ (_get_handler_for_task params);
  _ ← await_ (_get_task_lock task_id);
  w ← get_state;
  t ← match _tasks (self w) !! task_id with
      | Some t =>
          if negb (state_in (state (status t)) reusable_states)
          then raise (A2AError ("Task " +:+ task_id +:+ " in invalid state "
                                +:+ state_name (state (status t))) (-32004))
          else reuse_task now session_id params t
      | None => create_task now session_id params
      end;
  let task_copy := model_copy_deep t in
  _ ← try_except (send_try handler task_id task_copy now)
        (send_except task_id now);
  _ ← await_ (_get_task_lock task_id);
  t' ← tasks_getitem task_id;
  mret (model_copy_deep t').

(** [handle_task_get]. *)
Definition handle_task_get (task_id : string) (history_length : Z)
  : Async World A2ATask :=
  _ ← await_ (_get_task_lock task_id);
  w ← get_state;
  match _tasks (self w) !! task_id with
  | None => raise (A2AError ("Task " +:+ task_id +:+ " not found") (-32001))
  | Some t =>
      let task_copy := model_copy_deep t in
      if (0 <=? history_length) && truthy_list (history task_copy)
      then mret (set_history (py_slice_from (- history_length)
                                (history task_copy)) task_copy)
      else if history_length =? 0
      then mret (set_history [] task_copy)
      else mret task_copy
  end.

(** [handle_task_cancel]. *)
Definition handle_task_cancel (now : Z) (task_id : string)
  : Async World A2ATask :=
  _ ← await_ (_get_task_lock task_id);
  w ← get_state;
  match _tasks (self w) !! task_id with
  | None => raise (A2AError ("Task " +:+ task_id +:+ " not found") (-32001))
  | Some t =>
      _ ← (if state_in (state (status t)) [completed; failed; canceled]
           then mret tt
           else
             let canceled_status :=
               {| state := canceled; message := None; timestamp := now |} in
             _ ← unawaited (_update_task_state task_id now
                              (Some canceled_status) None None true);
             n ← await_ (get_metric "a2a_tasks" "canceled" 0);
             await_ (update_metric "a2a_tasks" "canceled" (n + 1)));
      t' ← tasks_getitem task_id;
      mret (model_copy_deep t')
  end.

(** [message.parts[0].text]: an [IndexError] on an empty list, an
    [AttributeError] on a part that has no text. *)
Definition first_part_text (m : A2AMessage) : PyExc + string :=
  match msg_parts m with
  | [] => inl (Exc (Exception_ "IndexError") "list index out of range")
  | A2ATextPart t :: _ => inr t
  | A2AFilePart _ :: _ =>
      inl (Exc (Exception_ "AttributeError")
             "'A2AFilePart' object has no attribute 'text'")
  | A2ADataPart _ :: _ =>
      inl (Exc (Exception_ "AttributeError")
             "'A2ADataPart' object has no attribute 'text'")
  end.

(** The local variables [final_status] and [final_artifacts] of
    [handle_task_send_subscribe]. *)
Definition Locals : Type := option A2ATaskState * option (list A2AArtifact).

(** The [except Exception as e] clause of [handle_task_send_subscribe];
    [final_artifacts] is what the [try] block had assigned when it raised. *)
Definition subscribe_except (task_id : string) (context : A2ATaskContext)
    (now : Z) (final_artifacts : option (list A2AArtifact)) (e : PyExc)
  : Async World Locals :=
  let error_text := "Internal error: " +:+ exc_str e in
  let error_message :=
    {| msg_role := agent; msg_parts := [A2ATextPart error_text];
       msg_metadata := None |} in
  let final_status_ :=
    {| state := failed; message := Some error_message; timestamp := now |} in
  _ ← try_except
        (await_ (update_status context now (state final_status_)
                   (Some error_text) true))
        (λ q_err, mret tt);
  _ ← await_ (_add_to_dlq task_id "tasks/sendSubscribe"
                ("Handler exception: " +:+ exc_str e));
  mret (Some final_status_, final_artifacts).

(** The [try] block with its [except] clause.  The block is cut where the
    two locals are assigned: an exception before that point leaves
    [final_artifacts] at [None], one after it keeps the handler's list. *)
Definition subscribe_try (handler : Callable) (task_id : string)
    (context : A2ATaskContext) (now : Z) : Async World Locals :=
  r ← try_except
        (_ ← await_ (update_status context now working
                       (Some "Task submitted for processing...") false);
         result ← await_ (call_handler handler context now);
         mret (inl result))
        (λ e, inr <$> subscribe_except task_id context now None e);
  match r with
  | inr locals => mret locals
  | inl result =>
      let final_status_ := final_status result in
      let final_artifacts := artifacts_of result in
      try_except
        (message_text ←
           match message final_status_ with
           | Some m =>
               match first_part_text m with
               | inl e => raise e
               | inr t => mret (Some t)
               end
           | None => mret None
           end;
         _ ← await_ (update_status context now (state final_status_)
                       message_text true);
         mret (Some final_status_, Some final_artifacts))
        (subscribe_except task_id context now (Some final_artifacts))
  end.

(** The [finally] clause. *)
Definition subscribe_finally (task_id : string) (now : Z) (locals : Locals)
  : Async World unit :=
  match locals.1 with
  | None => mret tt
  | Some final_status_ =>
      _ ← unawaited (_update_task_state task_id now (Some final_status_) None
                       locals.2 true);
      let metric_category :=
        if bool_decide (state final_status_ = completed)
        then "completed" else "failed" in
      _ ← when (bool_decide (metric_category = "failed"))
            (await_ (_add_to_dlq task_id "tasks/sendSubscribe"
                       ("Stream handler failed: "
                        +:+ str_message (message final_status_))));
      n ← await_ (get_metric "a2a_tasks" metric_category 0);
      await_ (update_metric "a2a_tasks" metric_category (n + 1))
  end.

(** [handle_task_send_subscribe]. *)
Definition handle_task_send_subscribe (now : Z) (uuid4 : string)
    (params : A2ATaskSendParams) (update_queue : nat) : Async World unit :=
  _ ← await_ (_validate_task_params params);
  let task_id := p_id params in
  let session_id := session_id_of params uuid4 in
  handler ← await_ (_get_handler_for_task params);
  _ ← await_ (_get_task_lock task_id);
  w ← get_state;
  accepted ←
    match _tasks (self w) !! task_id with
    | Some t =>
        if negb (state_in (state (status t)) reusable_states)
        then
          _ ← await_ (queue_put update_queue
                        (QueuedError
                           (A2AError ("Task in invalid state "
                                      +:+ state_name (state (status t)))
                              (-32004))));
          mret None
        else Some <$> reuse_task now session_id params t
    | None => Some <$> create_task now session_id params
    end;
  match accepted with
  | None => mret tt
  | Some t =>
      let task_copy := model_copy_deep t in
      let context := {| task := task_copy;
                        _update_queue := Some update_queue |} in
      locals ← subscribe_try handler task_id context now;
      subscribe_finally task_id now locals
  end.



(** The items of queue [q]. *)
Definition queue_items (w : World) (q : nat) : list QueueItem :=
  default [] (queues w !! q).

(** Read accessors of [A2ATaskContext]. *)
Definition incoming_message (ctx : A2ATaskContext) : option A2AMessage :=
  last (history (task ctx)).

Definition get_text_parts (ctx : A2ATaskContext) : list string :=
  match incoming_message ctx with
  | Some msg =>
      omap (λ part, match part with A2ATextPart t => Some t | _ => None end)
        (msg_parts msg)
  | None => []
  end.

(** ** Tool-connection manager ([MCPClientManager]) *)

Record MCPServerConfig := {
  name : string;
  connection_type : string;
  command : option string;
  args : option (list string);
  env : option Dict;
  host : option string;
  port : option Z }.

(** An [asyncio.Task] running [_connect]: still running, or finished with
    the session it returned or the exception it raised. *)
Inductive ConnectTask :=
| Pending
| Done (result : Outcome nat).

Definition task_done (t : ConnectTask) : bool :=
  match t with Done _ => true | Pending => false end.

(** Sessions and transport contexts are objects of the MCP library, named
    here by a number. *)
Record MCPClientManager := {
  config : list MCPServerConfig;
  _sessions : gmap string nat;
  _contexts : gmap string nat;
  _locks : gset string;
  _connection_tasks : gmap string ConnectTask }.

Definition MCPClientManager_init (cfg : list MCPServerConfig) : MCPClientManager :=
  {| config := cfg; _sessions := ∅; _contexts := ∅; _locks := ∅;
     _connection_tasks := ∅ |}.

Inductive PyValue :=
| PyNone
| PyStr (s : string)
| PyDict (d : Dict).

(** What the tool processes and the MCP library do. *)
Record MCPEnv := {
  USE_MOCK : bool;
  (** entering the transport context and initialising the session: the
      context and the session, or the exception of the failing step *)
  open_session : MCPServerConfig → PyExc + (nat * nat);
  (** [context.__aexit__(None, None, None)] *)
  context_aexit : nat → option PyExc;
  (** [session.close()] *)
  session_close : nat → option PyExc;
  (** [session.call_tool(tool_name, params)] *)
  session_call_tool : nat → string → Dict → PyExc + PyValue;
  (** [session.list_tools()] *)
  session_list_tools : nat → PyExc + PyValue;
  (** the result of a connection attempt another caller has in flight *)
  inflight_result : string → Outcome nat }.

Definition with_sessions (f : gmap string nat → gmap string nat)
    (m : MCPClientManager) : MCPClientManager :=
  {| config := config m; _sessions := f (_sessions m);
     _contexts := _contexts m; _locks := _locks m;
     _connection_tasks := _connection_tasks m |}.
Definition with_contexts (f : gmap string nat → gmap string nat)
    (m : MCPClientManager) : MCPClientManager :=
  {| config := config m; _sessions := _sessions m;
     _contexts := f (_contexts m); _locks := _locks m;
     _connection_tasks := _connection_tasks m |}.
Definition with_locks (f : gset string → gset string)
    (m : MCPClientManager) : MCPClientManager :=
  {| config := config m; _sessions := _sessions m;
     _contexts := _contexts m; _locks := f (_locks m);
     _connection_tasks := _connection_tasks m |}.
Definition with_connection_tasks
    (f : gmap string ConnectTask → gmap string ConnectTask)
    (m : MCPClientManager) : MCPClientManager :=
  {| config := config m; _sessions := _sessions m;
     _contexts := _contexts m; _locks := _locks m;
     _connection_tasks := f (_connection_tasks m) |}.

(** [if server_name not in self._locks: self._locks[server_name] = Lock()]. *)
Definition ensure_lock (server_name : string) : Async MCPClientManager unit :=
  modify (λ m, if bool_decide (server_name ∈ _locks m) then m
               else with_locks (λ l, {[server_name]} ∪ l) m).

(** [next((c for c in self.config if c.name == server_name), None)]. *)
Definition find_config (cfg : list MCPServerConfig) (server_name : string)
  : option MCPServerConfig :=
  List.find (λ c, bool_decide (name c = server_name)) cfg.

(** The [try] block of [_connect] up to the session object. *)
Definition connect_transport (world : MCPEnv) (server_name : string)
    (server_conf : MCPServerConfig) : Async MCPClientManager (nat * nat) :=
  let opened :=
    match open_session world server_conf with
    | inl e => raise e
    | inr cs => mret cs
    end in
  if bool_decide (connection_type server_conf = "stdio") then opened
  else if bool_decide (connection_type server_conf = "tcp") then
    if USE_MOCK world then opened
    else if negb (truthy_ostr (host server_conf))
            || negb (bool_decide (is_Some (port server_conf)
                                  ∧ port server_conf ≠ Some 0))
    then raise (Exc ConfigurationError_
                  ("TCP connection requires host and port for " +:+ server_name))
    else opened
  else raise (Exc ConfigurationError_
                ("Unsupported MCP connection type: "
                 +:+ connection_type server_conf)).

(** [_connect]. *)
Definition _connect (world : MCPEnv) (server_name : string)
  : Async MCPClientManager nat :=
  _ ← ensure_lock server_name;
  m ← get_state;
  match _sessions m !! server_name with
  | Some session => mret session
  | None =>
      match find_config (config m) server_name with
      | None =>
          raise (Exc ConfigurationError_
                   ("MCP server config not found: " +:+ server_name))
      | Some server_conf =>
          try_except
            (cs ← connect_transport world server_name server_conf;
             _ ← modify (with_sessions <[server_name := cs.2]>);
             _ ← modify (with_contexts <[server_name := cs.1]>);
             _ ← modify (with_connection_tasks (delete server_name));
             mret cs.2)
            (λ e,
             _ ← modify (with_connection_tasks (delete server_name));
             _ ← modify (with_sessions (delete server_name));
             _ ← modify (with_contexts (delete server_name));
             raise (ExcFrom ConnectionError_
                      ("MCP connection failed for " +:+ server_name) e))
      end
  end.

(** [raise ConnectionError(...) from e] around the result of the awaited
    connection task. *)
Definition wrap_session (server_name : string) (r : Outcome nat)
  : Async MCPClientManager nat :=
  match r with
  | Return session => mret session
  | Raise e =>
      raise (ExcFrom ConnectionError_
               ("Failed to get MCP session for " +:+ server_name) e)
  end.

(** [asyncio.create_task(self._connect(server_name))], stored under the
    server name, then awaited.  The task is in the table before it runs;
    [_connect] may delete that entry, and an entry that is still there when
    the task ends holds the finished task. *)
Definition run_connect_task (world : MCPEnv) (server_name : string)
  : Async MCPClientManager nat :=
  λ m,
    let m1 := with_connection_tasks <[server_name := Pending]> m in
    let '(r, m2) := _connect world server_name m1 in
    let m3 :=
      if bool_decide (server_name ∈ dom (_connection_tasks m2))
      then with_connection_tasks <[server_name := Done r]> m2
      else m2 in
    wrap_session server_name r m3.

(** [get_session]. *)
Definition get_session (world : MCPEnv) (server_name : string)
  : Async MCPClientManager nat :=
  m ← get_state;
  match _sessions m !! server_name with
  | Some session => mret session
  | None =>
      _ ← ensure_lock server_name;
      m ← get_state;
      match _connection_tasks m !! server_name with
      | Some Pending =>
          wrap_session server_name (inflight_result world server_name)
      | _ => run_connect_task world server_name
      end
  end.

(** [result.get("content") if isinstance(result, dict) else result]. *)
Definition dict_get_or_self (key : string) (result : PyValue) : PyValue :=
  match result with
  | PyDict d => match d !! key with Some v => PyStr v | None => PyNone end
  | other => other
  end.

(** [call_tool]. *)
Definition call_tool (world : MCPEnv) (server_name tool_name : string)
    (params : Dict) : Async MCPClientManager PyValue :=
  try_except
    (session ← await_ (get_session world server_name);
     match session_call_tool world session tool_name params with
     | inl e => raise e
     | inr result => mret (dict_get_or_self "content" result)
     end)
    (λ e, raise (ExcFrom ActionFailedError_
                   ("MCP tool call " +:+ server_name +:+ "." +:+ tool_name
                    +:+ " failed") e)).

(** [close_all], one server at a time; the teardown of a server that
    raises is given up and the loop goes on. *)
Definition close_one (world : MCPEnv) (server_name : string)
    (m : MCPClientManager) : MCPClientManager :=
  let closed :=
    match _sessions m !! server_name with
    | Some session =>
        match session_close world session with
        | Some _ => None
        | None => Some (with_sessions (delete server_name) m)
        end
    | None => Some m
    end in
  match closed with
  | None => m
  | Some m1 =>
      match _contexts m1 !! server_name with
      | Some context =>
          match context_aexit world context with
          | Some _ => m1
          | None => with_contexts (delete server_name) m1
          end
      | None => m1
      end
  end.

Definition close_all (world : MCPEnv) : Async MCPClientManager unit :=
  _ ← modify (with_connection_tasks (λ _, ∅));
  modify (λ m, foldr (close_one world) m (elements (dom (_sessions m)))).

(** ** Outbound protocol client ([A2AClientManager]) *)

Record A2AJsonRpcErrorData := {
  err_code : Z;
  err_message : string }.

(** A line of the event stream, by the branch of the read loop it takes. *)
Inductive SSELine :=
| line_other                  (* does not start with "data:" *)
| line_empty_data             (* nothing after "data:" *)
| line_bad_json               (* [json.loads] raises [JSONDecodeError] *)
| line_error (error_obj : A2AJsonRpcErrorData)
                              (* an "error" member *)
| line_status (ev : A2ATaskStatusUpdateEventResult)
                              (* a result with "status" and "final" *)
| line_artifact (ev : A2ATaskArtifactUpdateEventResult)
                              (* a result with "artifact" *)
| line_malformed_result       (* a result whose model constructor raises *)
| line_unknown_result         (* a result of neither shape *)
| line_no_member              (* neither "error" nor "result" *)
| line_processing_error (e : PyExc).
                              (* any other exception raised on the line *)

(** The response of the streaming POST: the lines of its body and, when the
    request or the transfer fails, the exception.  The client is built with
    the response hook [_log_response], which reads the whole body
    ([await response.aread()]) before [http_client.stream] hands the
    response over: a failure is raised there, before any line is looked at,
    and so is the exception of [raise_for_status]. *)
Record StreamResponse := {
  lines : list SSELine;
  broken : option PyExc }.

Inductive RpcParams :=
| params_send (p : A2ATaskSendParams)
| params_get (task_id : string) (historyLength : Z)
| params_cancel (task_id : string).

(** What [stream_callback] is called with. *)
Inductive CallbackArg :=
| cb_status (ev : A2ATaskStatusUpdateEventResult)
| cb_artifact (ev : A2ATaskArtifactUpdateEventResult)
| cb_exception (e : PyExc).

(** A callback: the exception a call raises, if any. *)
Definition Callback : Type := CallbackArg → option PyExc.

(** What the client does to the outside, in order. *)
Inductive ClientAction :=
| act_rpc (target_url method : string) (params : RpcParams)
| act_stream (target_url : string) (params : A2ATaskSendParams)
| act_callback (arg : CallbackArg).

(** The remote side. *)
Record Peer := {
  (** [discover_agent(url)]: whether the card advertises streaming *)
  discover_agent : string → PyExc + bool;
  (** [_send_json_rpc(url, method, params)] and the construction of the
      [A2ATask] from its result *)
  send_json_rpc : string → string → RpcParams → PyExc + A2ATask;
  (** the response of the streaming POST *)
  http_stream : string → A2ATaskSendParams → StreamResponse }.

Abbreviation Client := (Async (list ClientAction)).

Definition log_action (a : ClientAction) : Client unit :=
  modify (λ tr, tr ++ [a]).

Definition of_sum {S A} (r : PyExc + A) : Async S A :=
  match r with inl e => raise e | inr a => mret a end.

(** [isinstance(e, httpx.RequestError)]: the class and its subclasses in
    [httpx]. *)
Definition request_error_classes : list string :=
  ["httpx.RequestError"; "httpx.TransportError"; "httpx.TimeoutException";
   "httpx.ConnectTimeout"; "httpx.ReadTimeout"; "httpx.WriteTimeout";
   "httpx.PoolTimeout"; "httpx.NetworkError"; "httpx.ConnectError";
   "httpx.ReadError"; "httpx.WriteError"; "httpx.CloseError";
   "httpx.ProtocolError"; "httpx.LocalProtocolError";
   "httpx.RemoteProtocolError"; "httpx.ProxyError";
   "httpx.UnsupportedProtocol"; "httpx.DecodingError";
   "httpx.TooManyRedirects"].

Definition is_request_error (e : PyExc) : bool :=
  bool_decide (exc_class e ∈ Exception_ <$> request_error_classes).

(** The normalisation of a target URL. *)
Definition normalize_url (target_agent_url : string) : string :=
  let target_url := rstrip_slash target_agent_url in
  if startswith_any ["http://"; "https://"] target_url then target_url
  else "http://" +:+ target_url.

(** [get_task]. *)
Definition get_task (peer : Peer) (target_agent_url task_id : string)
    (history_length : Z) : Client A2ATask :=
  let target_url := normalize_url target_agent_url in
  let params := params_get task_id history_length in
  _ ← log_action (act_rpc target_url "tasks/get" params);
  of_sum (send_json_rpc peer target_url "tasks/get" params).

(** [await stream_callback(arg)]. *)
Definition call_callback (cb : Callback) (arg : CallbackArg) : Client unit :=
  _ ← log_action (act_callback arg);
  match cb arg with
  | Some e => raise e
  | None => mret tt
  end.

(** The locals [last_known_task_state] and [stream_exc]. *)
Record StreamLocals := {
  last_known_task_state : option A2ATaskState;
  stream_exc : option PyExc }.

(** The clause [except Exception as e] of the read loop: record the
    exception, tell the callback, leave the loop. *)
Definition on_processing_error (cb : Callback) (loc : StreamLocals)
    (e : PyExc) : Client StreamLocals :=
  _ ← call_callback cb (cb_exception e);
  mret {| last_known_task_state := last_known_task_state loc;
          stream_exc := Some e |}.

(** The read loop [async for line in response.aiter_lines()], over the
    lines of a body that has been read. *)
Fixpoint read_lines (cb : Callback) (ls : list SSELine)
    (loc : StreamLocals) : Client StreamLocals :=
  match ls with
  | [] => mret loc
  | line :: rest =>
      match line with
      | line_other | line_empty_data | line_bad_json | line_malformed_result
      | line_unknown_result | line_no_member =>
          read_lines cb rest loc
      | line_error error_obj =>
          let exc := A2AError (err_message error_obj) (err_code error_obj) in
          let loc' := {| last_known_task_state := last_known_task_state loc;
                         stream_exc := Some exc |} in
          try_except
            (_ ← call_callback cb (cb_exception exc); mret loc')
            (on_processing_error cb loc')
      | line_status ev =>
          let loc' := {| last_known_task_state := Some (ev_status ev);
                         stream_exc := stream_exc loc |} in
          r ← try_except
                (_ ← call_callback cb (cb_status ev); mret (inl tt))
                (λ e, inr <$> on_processing_error cb loc' e);
          match r with
          | inr stopped => mret stopped
          | inl _ => if final ev then mret loc' else read_lines cb rest loc'
          end
      | line_artifact ev =>
          r ← try_except
                (_ ← call_callback cb (cb_artifact ev); mret (inl tt))
                (λ e, inr <$> on_processing_error cb loc e);
          match r with
          | inr stopped => mret stopped
          | inl _ => read_lines cb rest loc
          end
      | line_processing_error e => on_processing_error cb loc e
      end
  end.

(** The two outer [except] clauses of the streaming branch. *)
Definition wrap_stream_failure (target_url : string) (e : PyExc) : PyExc :=
  if is_request_error e
  then ExcFrom ConnectionError_
         ("Network error during A2A stream request to " +:+ target_url) e
  else ExcFrom APIAException_
         ("Error during A2A stream request to " +:+ target_url) e.

(** The streaming branch of [send_task] up to the end of its [try]. *)
Definition consume_stream (peer : Peer) (cb : Callback) (target_url : string)
    (params : A2ATaskSendParams) : Client StreamLocals :=
  let response := http_stream peer target_url params in
  let start := {| last_known_task_state := None; stream_exc := None |} in
  try_except
    (_ ← log_action (act_stream target_url params);
     match broken response with
     | Some e => raise e
     | None => read_lines cb (lines response) start
     end)
    (λ e, raise (wrap_stream_failure target_url e)).

(** The end of the streaming branch of [send_task], after the stream. *)
Definition after_stream (peer : Peer) (target_agent_url : string)
    (params : A2ATaskSendParams) (loc : StreamLocals) : Client A2ATask :=
  match stream_exc loc, last_known_task_state loc with
  | Some e, _ =>
      raise (ExcFrom APIAException_ "A2A stream ended with error" e)
  | None, Some st =>
      mret {| id := p_id params; sessionId := p_sessionId params;
              status := st; history := []; artifacts := [];
              metadata := None |}
  | None, None =>
      try_except
        (await_ (get_task peer target_agent_url (p_id params) 0))
        (λ fetch_exc,
         raise (ExcFrom APIAException_
                  ("Stream incomplete and failed to fetch final status for task "
                   +:+ p_id params) fetch_exc))
  end.

(** [send_task]. *)
Definition send_task (peer : Peer) (target_agent_url : string)
    (params : A2ATaskSendParams) (stream_callback : option Callback)
  : Client A2ATask :=
  let target_url := normalize_url target_agent_url in
  streaming ← of_sum (discover_agent peer target_url);
  let use_streaming : option Callback :=
    match stream_callback with
    | Some cb => if streaming : bool then Some cb else None
    | None => None
    end in
  match use_streaming with
  | None =>
      _ ← log_action (act_rpc target_url "tasks/send" (params_send params));
      of_sum (send_json_rpc peer target_url "tasks/send" (params_send params))
  | Some cb =>
      loc ← consume_stream peer cb target_url params;
      after_stream peer target_agent_url params loc
  end.

(** * More of the protocol core *)

(** ** Task context: the other accessors *)

(** [get_file_parts]. *)
Definition get_file_parts (ctx : A2ATaskContext) : list A2AFile :=
  match incoming_message ctx with
  | Some msg =>
      omap (λ part, match part with A2AFilePart f => Some f | _ => None end)
        (msg_parts msg)
  | None => []
  end.

(** [get_data_parts]. *)
Definition get_data_parts (ctx : A2ATaskContext) : list Dict :=
  match incoming_message ctx with
  | Some msg =>
      omap (λ part, match part with A2ADataPart d => Some d | _ => None end)
        (msg_parts msg)
  | None => []
  end.

(** [context.metadata]. *)
Definition context_metadata (ctx : A2ATaskContext) : option Dict :=
  match incoming_message ctx with
  | Some msg => msg_metadata msg
  | None => None
  end.

(** The alphabet of the rough base64 check of [process_file_part]. *)
Definition base64_alphabet : string :=
  "ABCDEFGHIJKLMNOPQRSTUVWXYZabcdefghijklmnopqrstuvwxyz0123456789+/=".

(** [c in s] for a character. *)
Fixpoint char_in (c : ascii) (s : string) : bool :=
  match s with
  | EmptyString => false
  | String c' s' => Ascii.eqb c c' || char_in c s'
  end.

(** [all(c in alphabet for c in s)]. *)
Fixpoint all_chars_in (alphabet s : string) : bool :=
  match s with
  | EmptyString => true
  | String c s' => char_in c alphabet && all_chars_in alphabet s'
  end.

(** [raise ValueError(...)]. *)
Definition ValueError (text : string) : PyExc := Exc (Exception_ "ValueError") text.

(** [process_file_part(file_part, max_size_bytes)].  [b64decode] is
    [base64.b64decode]: the decoded bytes, or the exception it raises;
    [str_int] prints an integer.  [file_part] is the [file] of the part; the
    [isinstance] tests hold by typing. *)
Definition process_file_part (b64decode : string → PyExc + list Z)
    (str_int : Z → string) (file_part : A2AFile) (max_size_bytes : Z)
  : PyExc + list Z :=
  let name_ := str_ostr (file_name file_part) in
  if truthy_ostr (file_bytes file_part) then
    let bytes_ := default "" (file_bytes file_part) in
    let body : PyExc + list Z :=
      if negb (Nat.eqb (String.length bytes_ `mod` 4) 0)
         || negb (all_chars_in base64_alphabet bytes_)
      then inl (ValueError
                  "Invalid base64 format: contains invalid characters or incorrect padding")
      else
        match b64decode bytes_ with
        | inl e => inl e
        | inr file_bytes_ =>
            if (max_size_bytes <? Z.of_nat (length file_bytes_))%Z
            then inl (ValueError
                        ("File size (" +:+ str_int (Z.of_nat (length file_bytes_))
                         +:+ " bytes) exceeds maximum allowed size ("
                         +:+ str_int max_size_bytes +:+ " bytes)"))
            else inr file_bytes_
        end in
    match body with
    | inr file_bytes_ => inr file_bytes_
    | inl e =>
        inl (ExcFrom (Exception_ "ValueError")
               ("Invalid base64 data for file " +:+ name_ +:+ ": " +:+ exc_str e) e)
    end
  else if truthy_ostr (file_uri file_part) then
    let uri := default "" (file_uri file_part) in
    if negb (startswith_any ["http://"; "https://"] uri)
    then inl (ValueError
                ("URI must start with http:// or https://, got: " +:+ uri))
    else inl (Exc (Exception_ "NotImplementedError")
                "Secure URI fetching for file parts is not implemented.")
  else inl (ValueError "File part has neither bytes nor URI.").

(** ** Task manager: the retention sweep *)

(** The manager with the table of streaming queues that [main.py] fills and
    the sweep empties.  A queue of this table holds update items and the
    [None] with which the sweep signals the end of the stream.  Timestamps
    count microseconds, the resolution of [datetime]. *)
Record Retention := {
  base : A2ATaskManager;
  _streaming_queues : gmap string nat;
  stream_heap : gmap nat (list (option QueueItem));
  _task_max_age_seconds : Z }.

Definition Retention_init (m : A2ATaskManager) : Retention :=
  {| base := m; _streaming_queues := ∅; stream_heap := ∅;
     _task_max_age_seconds := 86400 |}.

Definition with_base (f : A2ATaskManager → A2ATaskManager) (s : Retention)
  : Retention :=
  {| base := f (base s); _streaming_queues := _streaming_queues s;
     stream_heap := stream_heap s;
     _task_max_age_seconds := _task_max_age_seconds s |}.

(** A coroutine of the manager that uses no queue, run on the manager of
    the sweep. *)
Definition on_base {A} (c : Async World A) : Async Retention A :=
  λ s, match c {| self := base s; queues := ∅ |} with
       | (r, w) => (r, with_base (λ _, self w) s)
       end.

(** [queue.put_nowait(None)] and [del self._streaming_queues[task_id]]. *)
Definition close_stream (task_id : string) : Async Retention unit :=
  modify (λ s,
    match _streaming_queues s !! task_id with
    | Some q =>
        {| base := base s;
           _streaming_queues := delete task_id (_streaming_queues s);
           stream_heap :=
             <[q := default [] (stream_heap s !! q) ++ [None]]> (stream_heap s);
           _task_max_age_seconds := _task_max_age_seconds s |}
    | None => s
    end).

(** [_remove_task]. *)
Definition _remove_task (task_id : string) : Async Retention unit :=
  _ ← await_ (on_base (_get_task_lock task_id));
  _ ← modify (with_base (with_tasks (delete task_id)));
  _ ← close_stream task_id;
  modify (with_base (with_task_locks (λ l, l ∖ {[task_id]}))).

Definition terminal (st : TaskStateName) : bool :=
  state_in st [completed; failed; canceled].

(** [timedelta.total_seconds()] of a difference of [microseconds]: the
    true division [microseconds / 10**6] of two integers, which Python
    rounds to the nearest [float] (IEEE binary64, ties to even). *)
Definition total_seconds (microseconds : Z) : SpecFloat.spec_float :=
  let us_per_second := SpecFloat.S754_finite false 1000000 0 in
  match microseconds with
  | Z0 => SpecFloat.S754_zero false
  | Zpos m =>
      SpecFloat.SFdiv 53 1024 (SpecFloat.S754_finite false m 0) us_per_second
  | Zneg m =>
      SpecFloat.SFdiv 53 1024 (SpecFloat.S754_finite true m 0) us_per_second
  end.

(** [x > n] for a [float] and an [int]: Python compares the two values
    exactly, without converting the integer. *)
Definition float_gt_int (x : SpecFloat.spec_float) (n : Z) : bool :=
  match x with
  | SpecFloat.S754_zero _ => n <? 0
  | SpecFloat.S754_infinity s => negb s
  | SpecFloat.S754_nan => false
  | SpecFloat.S754_finite s m e =>
      let v := if s then Z.neg m else Z.pos m in
      if 0 <=? e then n <? v * 2 ^ e else n * 2 ^ (- e) <? v
  end.

(** [(now - timestamp).total_seconds() > self._task_max_age_seconds]. *)
Definition older_than (max_age_seconds now timestamp_ : Z) : bool :=
  float_gt_int (total_seconds (now - timestamp_)) max_age_seconds.

(** The test of the first pass of [_cleanup_old_tasks] on one task. *)
Definition expired (max_age_seconds now : Z) (t : A2ATask) : bool :=
  terminal (state (status t))
  && older_than max_age_seconds now (timestamp (status t)).

(** The first pass: the ids to remove. *)
Definition tasks_to_remove (now : Z) (s : Retention) : list string :=
  (filter (λ it, expired (_task_max_age_seconds s) now it.2 = true)
     (map_to_list (_tasks (base s)))).*1.

(** The second pass: [for task_id in tasks_to_remove: _remove_task]. *)
Fixpoint remove_tasks (ids : list string) : Async Retention unit :=
  match ids with
  | [] => mret tt
  | task_id :: rest =>
      _ ← try_except (await_ (_remove_task task_id)) (λ e, mret tt);
      remove_tasks rest
  end.

(** [_cleanup_old_tasks], at time [now]. *)
Definition _cleanup_old_tasks (now : Z) : Async Retention unit :=
  s ← get_state;
  remove_tasks (tasks_to_remove now s).

(** * Vocabulary of the properties *)

(** The world once the lock of [task_id] exists. *)
Definition lock_added (task_id : string) (w : World) : World :=
  {| self := with_task_locks (λ l, {[task_id]} ∪ l) (self w);
     queues := queues w |}.

(** The last [n] elements of a list. *)
Definition last_n {A} (n : nat) (l : list A) : list A :=
  drop (length l - n) l.

(** The messages [_validate_task_params] refuses. *)
Definition refused_part (part : A2APart) : Prop :=
  match part with
  | A2ATextPart t => t = ""
  | A2ADataPart d => d = ∅
  | A2AFilePart f =>
      truthy_ostr (file_bytes f) = false ∧ truthy_ostr (file_uri f) = false
  end.

Definition refused_message (m : A2AMessage) : Prop :=
  msg_parts m = [] ∨ ∃ part, part ∈ msg_parts m ∧ refused_part part.

(** The world with [items] appended to queue [q]. *)
Definition put_all (q : nat) (items : list QueueItem) (w : World) : World :=
  {| self := self w; queues := <[q := queue_items w q ++ items]> (queues w) |}.

(** The event [update_status] puts. *)
Definition status_event (ctx : A2ATaskContext) (now : Z) (st : TaskStateName)
    (message_text : option string) (final_flag : bool) : QueueItem :=
  StatusUpdate
    {| ev_id := task_id ctx;
       ev_status :=
         {| state := st;
            message :=
              match message_text with
              | Some t =>
                  if truthy_str t
                  then Some {| msg_role := agent; msg_parts := [A2ATextPart t];
                               msg_metadata := None |}
                  else None
              | None => None
              end;
            timestamp := now |};
       final := final_flag |}.

Definition item_of_call (ctx : A2ATaskContext) (now : Z) (c : ContextCall)
  : QueueItem :=
  match c with
  | call_update_status st text fin => status_event ctx now st text fin
  | call_yield_artifact a =>
      ArtifactUpdate {| aev_id := task_id ctx; aev_artifact := a |}
  end.

(** Whether the store takes a message for the task of [params]: the task is
    new, or stored in one of the states that can be taken up again. *)
Definition accepts (w : World) (params : A2ATaskSendParams) : bool :=
  match _tasks (self w) !! p_id params with
  | Some t => state_in (state (status t)) reusable_states
  | None => true
  end.



(** ** Example data *)

Definition text_artifact (texts : list string) : A2AArtifact :=
  {| art_name := Some "echo"; art_description := None;
     art_parts := map A2ATextPart texts; art_index := 0;
     art_append := Some false; art_lastChunk := None |}.

Definition completed_result (texts : list string) : A2ATaskResult :=
  {| final_status := {| state := completed; message := None; timestamp := 7 |};
     artifacts_of := [text_artifact texts] |}.

(** A handler that returns [completed] with an artifact echoing the text
    of the incoming message. *)
Definition echo : Callable :=
  {| iscoroutinefunction := true;
     call := λ ctx, {| context_calls := [];
                       ending := inr (completed_result (get_text_parts ctx)) |} |}.

(** A handler that raises. *)
Definition boom : Callable :=
  {| iscoroutinefunction := true;
     call := λ ctx, {| context_calls := [];
                       ending := inl (Exc (Exception_ "RuntimeError") "boom") |} |}.

(** A handler that announces the end itself, with [final=True], and then
    returns. *)
Definition eager : Callable :=
  {| iscoroutinefunction := true;
     call := λ ctx, {| context_calls := [call_update_status completed (Some "done") true];
                       ending := inr (completed_result (get_text_parts ctx)) |} |}.

(** A callable that is not a coroutine function. *)
Definition plain : Callable :=
  {| iscoroutinefunction := false; call := call echo |}.

Definition ask (skill_id : string) : A2ATaskSendParams :=
  {| p_id := "t1"; p_sessionId := None;
     p_message := {| msg_role := user; msg_parts := [A2ATextPart "ping"];
                     msg_metadata := Some {[ "skill_id" := skill_id ]} |};
     p_metadata := None |}.

Definition example_router : A2ATaskRouter :=
  (register_handler "eager" eager
     (register_handler "boom" boom
        (register_handler "echo" echo A2ATaskRouter_init).2).2).2.

Definition fresh_world : World :=
  {| self := A2ATaskManager_init example_router; queues := {[ 0%nat := [] ]} |}.

(** The record of task "t1" once a send at time 5 has stored it. *)
Definition t1_working (skill_id : string) : A2ATask :=
  {| id := "t1"; sessionId := Some "u-1";
     status := {| state := working; message := None; timestamp := 5 |};
     history := [p_message (ask skill_id)]; artifacts := [];
     metadata := None |}.

(** A world whose store holds "t1" in state [failed]. *)
Definition world_with_failed : World :=
  {| self := with_tasks
               <["t1" := set_status {| state := failed; message := None;
                                       timestamp := 3 |} (t1_working "echo")]>
               (A2ATaskManager_init example_router);
     queues := {[ 0%nat := [] ]} |}.

(** The dead-letter entries one run of a handler inside [handle_task_send]
    leaves. *)
Definition dlq_entries_of_send (task_id : string) (run : HandlerRun)
  : list (string * string * string) :=
  match ending run with
  | inl e => [(task_id, "tasks/send", "Handler exception: " +:+ exc_str e)]
  | inr result =>
      match state (final_status result) with
      | failed =>
          [(task_id, "tasks/send",
            "Handler failed: " +:+ str_message (message (final_status result)))]
      | _ => []
      end
  end.

(** The record [handle_task_send] stores before it calls the handler. *)
Definition stored_by_send (now : Z) (uuid4 : string)
    (params : A2ATaskSendParams) (w : World) : A2ATask :=
  let working_ := {| state := working; message := None; timestamp := now |} in
  match _tasks (self w) !! p_id params with
  | Some t =>
      set_status working_
        (set_sessionId (Some (session_id_of params uuid4))
           (set_history (history t ++ [p_message params]) t))
  | None =>
      {| id := p_id params; sessionId := Some (session_id_of params uuid4);
         status := working_; history := [p_message params]; artifacts := [];
         metadata := p_metadata params |}
  end.

(** ** Router vocabulary *)

(** A sequence of [register_handler] calls. *)
Definition register_all (regs : list (string * Callable)) (r : A2ATaskRouter)
  : A2ATaskRouter :=
  foldl (λ r reg, (register_handler reg.1 reg.2 r).2) r regs.

(** The last handler of the sequence registered for [s] that is a
    coroutine function. *)
Definition last_valid (s : string) (regs : list (string * Callable))
  : option Callable :=
  snd <$> last (filter (λ reg, reg.1 = s ∧ iscoroutinefunction reg.2 = true) regs).

(** ** Tool-connection vocabulary *)

(** The managers a program can build: the initial one and what the public
    operations make of it ([list_tools] changes the manager only through
    [get_session]). *)
Inductive reachable : MCPClientManager → Prop :=
| reach_init cfg : reachable (MCPClientManager_init cfg)
| reach_get_session world server_name m :
    reachable m → reachable (get_session world server_name m).2
| reach_call_tool world server_name tool_name params m :
    reachable m → reachable (call_tool world server_name tool_name params m).2
| reach_close_all world m :
    reachable m → reachable (close_all world m).2.

(** Sessions and contexts exist for configured servers only, and no
    connection task is left running between calls. *)
Definition mcp_wf (m : MCPClientManager) : Prop :=
  (∀ s, is_Some (_sessions m !! s) → is_Some (find_config (config m) s))
  ∧ (∀ s, is_Some (_contexts m !! s) → is_Some (find_config (config m) s))
  ∧ (∀ s, _connection_tasks m !! s ≠ Some Pending).

(** ** Client vocabulary *)

(** A line that neither ends the read loop nor fails: no error, no final
    status, and a callback that returns. *)
Definition calm (cb : Callback) (line : SSELine) : Prop :=
  match line with
  | line_status ev => final ev = false ∧ cb (cb_status ev) = None
  | line_artifact ev => cb (cb_artifact ev) = None
  | line_error _ | line_processing_error _ => False
  | _ => True
  end.

(** The status of the last status event among the lines. *)
Definition last_status (ls : list SSELine) : option A2ATaskState :=
  last (omap (λ line, match line with
                      | line_status ev => Some (ev_status ev)
                      | _ => None
                      end) ls).

(** The calls of the callback the events of the lines cause. *)
Definition callbacks (ls : list SSELine) : list ClientAction :=
  omap (λ line, match line with
                | line_status ev => Some (act_callback (cb_status ev))
                | line_artifact ev => Some (act_callback (cb_artifact ev))
                | _ => None
                end) ls.


(** The task [send_task] builds from a status it has seen. *)
Definition task_of_status (params : A2ATaskSendParams) (st : A2ATaskState)
  : A2ATask :=
  {| id := p_id params; sessionId := p_sessionId params; status := st;
     history := []; artifacts := []; metadata := None |}.


(** Example: a peer that streams one [working] event, not final, and then
    closes the stream; asked with [tasks/get], it reports the task
    [completed]. *)
Definition working_event : A2ATaskStatusUpdateEventResult :=
  {| ev_id := "t1";
     ev_status := {| state := working; message := None; timestamp := 5 |};
     final := false |}.

Definition completed_task : A2ATask :=
  {| id := "t1"; sessionId := Some "u-1";
     status := {| state := completed; message := None; timestamp := 8 |};
     history := []; artifacts := [text_artifact ["ping"]]; metadata := None |}.


(** A peer whose stream carries no status event. *)
Definition mute_peer : Peer :=
  {| discover_agent := λ _, inr true;
     send_json_rpc := λ _ _ _, inr completed_task;
     http_stream := λ _ _, {| lines := [line_other; line_bad_json];
                              broken := None |} |}.

Definition listening : Callback := λ _, None.

(** * Vocabulary of the further properties *)

(** ** Task manager *)

(** [kb.update_metric("a2a_tasks", name, kb.get_metric("a2a_tasks", name, 0) + 1)]
    on the metric table. *)
Definition bump (name : string) (k : gmap (string * string) Z)
  : gmap (string * string) Z :=
  <[("a2a_tasks", name) := default 0 (k !! ("a2a_tasks", name)) + 1]> k.

(** The counters after the run of a handler inside [handle_task_send]. *)
Definition kb_after_run (run : HandlerRun) (k : gmap (string * string) Z)
  : gmap (string * string) Z :=
  match ending run with
  | inl _ => bump "failed" k
  | inr result =>
      match state (final_status result) with
      | completed => bump "completed" k
      | failed => bump "failed" k
      | _ => k
      end
  end.

(** The counters after an accepted send: [received] counts new tasks. *)
Definition kb_after_send (w : World) (params : A2ATaskSendParams)
    (run : HandlerRun) : gmap (string * string) Z :=
  kb_after_run run
    (match _tasks (self w) !! p_id params with
     | Some _ => kb (self w)
     | None => bump "received" (kb (self w))
     end).

(** The skill id [_get_handler_for_task] reads from the message. *)
Definition skill_id_of (params : A2ATaskSendParams) : option string :=
  match msg_metadata (p_message params) with
  | Some md => if bool_decide (md = ∅) then None else md !! "skill_id"
  | None => None
  end.

(** The world after a routing failure for [params]. *)
Definition routing_failed (params : A2ATaskSendParams) (w : World) : World :=
  {| self := with_dlq (λ q, q ++ [(p_id params, "tasks/send",
                "No suitable handler found (Skill ID: "
                +:+ str_ostr (skill_id_of params) +:+ ")")]) (self w);
     queues := queues w |}.

(** What every stored task looks like. *)
Definition store_invariant (m : A2ATaskManager) : Prop :=
  ∀ task_id t, _tasks m !! task_id = Some t →
    id t = task_id
    ∧ status t = {| state := working; message := None;
                    timestamp := timestamp (status t) |}
    ∧ artifacts t = []
    ∧ history t ≠ []
    ∧ is_Some (sessionId t)
    ∧ task_id ∈ _task_locks m.

(** The worlds a program can build: a manager fresh from [__init__] and
    what the operations of the manager and of its router make of it; the
    queues belong to the callers, who can do to them what they want. *)
Inductive world_reachable : World → Prop :=
| wr_init task_router qs :
    world_reachable {| self := A2ATaskManager_init task_router; queues := qs |}
| wr_send now uuid4 params w :
    world_reachable w →
    world_reachable (handle_task_send now uuid4 params w).2
| wr_subscribe now uuid4 params q w :
    world_reachable w →
    world_reachable (handle_task_send_subscribe now uuid4 params q w).2
| wr_get task_id n w :
    world_reachable w → world_reachable (handle_task_get task_id n w).2
| wr_cancel now task_id w :
    world_reachable w → world_reachable (handle_task_cancel now task_id w).2
| wr_register skill_id handler w :
    world_reachable w →
    world_reachable (on_router (register_handler skill_id handler) w).2
| wr_register_default handler w :
    world_reachable w →
    world_reachable (on_router (register_default_handler handler) w).2
| wr_queues qs w :
    world_reachable w → world_reachable {| self := self w; queues := qs |}.

(** The world after the [try] of [handle_task_send] with its [except],
    for the run [run] of the handler on task [task_id]. *)
Definition after_handler (task_id : string) (run : HandlerRun) (w : World)
  : World :=
  {| self :=
       {| _tasks := _tasks (self w);
          _task_locks := {[task_id]} ∪ _task_locks (self w);
          kb := kb_after_run run (kb (self w));
          router := router (self w);
          a2a_dlq := a2a_dlq (self w) ++ dlq_entries_of_send task_id run |};
     queues := queues w |}.

(** The world after an accepted send that ran [handler]. *)
Definition after_send (now : Z) (uuid4 : string) (params : A2ATaskSendParams)
    (handler : Callable) (w : World) : World :=
  let t := stored_by_send now uuid4 params w in
  let run := call handler {| task := t; _update_queue := None |} in
  {| self :=
       {| _tasks := <[p_id params := t]> (_tasks (self w));
          _task_locks := {[p_id params]} ∪ _task_locks (self w);
          kb := kb_after_send w params run;
          router := router (self w);
          a2a_dlq := a2a_dlq (self w) ++ dlq_entries_of_send (p_id params) run |};
     queues := queues w |}.

(** The status the [except] clause of a streamed send builds. *)
Definition failed_status_of (now : Z) (e : PyExc) : A2ATaskState :=
  {| state := failed;
     message := Some {| msg_role := agent;
                        msg_parts := [A2ATextPart ("Internal error: " +:+ exc_str e)];
                        msg_metadata := None |};
     timestamp := now |}.

(** How the [try] of a streamed send ends for a run of the handler: with
    the handler's final status and the text of its message, or with the
    exception that takes it to the [except] clause (raised by the handler,
    or by the reading of the text of a message whose first part has none). *)
Definition stream_verdict (run : HandlerRun)
  : PyExc + (A2ATaskState * option string) :=
  match ending run with
  | inl e => inl e
  | inr result =>
      match message (final_status result) with
      | Some m =>
          match first_part_text m with
          | inl e => inl e
          | inr t => inr (final_status result, Some t)
          end
      | None => inr (final_status result, None)
      end
  end.

(** The final status a streamed send ends with. *)
Definition stream_final_status (now : Z) (run : HandlerRun) : A2ATaskState :=
  match stream_verdict run with
  | inl e => failed_status_of now e
  | inr (st, _) => st
  end.

(** The final event a streamed send puts. *)
Definition stream_final_event (ctx : A2ATaskContext) (now : Z)
    (run : HandlerRun) : QueueItem :=
  match stream_verdict run with
  | inl e => status_event ctx now failed (Some ("Internal error: " +:+ exc_str e)) true
  | inr (st, text) => status_event ctx now (state st) text true
  end.

(** The dead-letter entries a streamed send leaves. *)
Definition dlq_entries_of_stream (task_id : string) (now : Z)
    (run : HandlerRun) : list (string * string * string) :=
  let st := stream_final_status now run in
  match stream_verdict run with
  | inl e => [(task_id, "tasks/sendSubscribe", "Handler exception: " +:+ exc_str e)]
  | inr _ => []
  end
  ++ (if bool_decide (state st = completed) then []
      else [(task_id, "tasks/sendSubscribe",
             "Stream handler failed: " +:+ str_message (message st))]).

(** The manager after an accepted streamed send that ran [handler]. *)
Definition manager_after_stream (now : Z) (uuid4 : string)
    (params : A2ATaskSendParams) (q : nat) (handler : Callable) (w : World)
  : A2ATaskManager :=
  let t := stored_by_send now uuid4 params w in
  let run := call handler {| task := t; _update_queue := Some q |} in
  let k := match _tasks (self w) !! p_id params with
           | Some _ => kb (self w)
           | None => bump "received" (kb (self w))
           end in
  {| _tasks := <[p_id params := t]> (_tasks (self w));
     _task_locks := {[p_id params]} ∪ _task_locks (self w);
     kb := bump (if bool_decide (state (stream_final_status now run) = completed)
                 then "completed" else "failed") k;
     router := router (self w);
     a2a_dlq := a2a_dlq (self w) ++ dlq_entries_of_stream (p_id params) now run |}.

(** The items an accepted streamed send puts on its queue. *)
Definition stream_items (now : Z) (uuid4 : string)
    (params : A2ATaskSendParams) (q : nat) (handler : Callable) (w : World)
  : list QueueItem :=
  let ctx := {| task := stored_by_send now uuid4 params w;
                _update_queue := Some q |} in
  status_event ctx now working (Some "Task submitted for processing...") false
  :: map (item_of_call ctx now) (context_calls (call handler ctx))
  ++ [stream_final_event ctx now (call handler ctx)].

(** The queues of [w'] are those of [w] with [items] appended to [q]. *)
Definition queue_grown (q : nat) (items : list QueueItem) (w w' : World)
  : Prop :=
  queue_items w' q = queue_items w q ++ items
  ∧ ∀ q', q' ≠ q → queue_items w' q' = queue_items w q'.


(** The value of a counter of the category "a2a_tasks", 0 when unset. *)
Definition counter (name : string) (m : A2ATaskManager) : Z :=
  default 0 (kb m !! ("a2a_tasks", name)).

(** How the run of a handler ends. *)
Definition ended_completed (run : HandlerRun) : bool :=
  match ending run with
  | inr result => bool_decide (state (final_status result) = completed)
  | inl _ => false
  end.

Definition ended_failed (run : HandlerRun) : bool :=
  match ending run with
  | inr result => bool_decide (state (final_status result) = failed)
  | inl _ => true
  end.

(** A handler that asks for more input. *)
Definition asking : Callable :=
  {| iscoroutinefunction := true;
     call := λ ctx,
       {| context_calls := [call_update_status working (Some "thinking") false];
          ending := inr {| final_status := {| state := input_required;
                                              message := None; timestamp := 7 |};
                           artifacts_of := [] |} |} |}.

(** A handler that returns [completed] with a status message whose first
    part is a data part. *)
Definition reporting : Callable :=
  {| iscoroutinefunction := true;
     call := λ ctx,
       {| context_calls := [];
          ending := inr {| final_status :=
                             {| state := completed;
                                message := Some {| msg_role := agent;
                                                   msg_parts := [A2ADataPart {[ "k" := "v" ]};
                                                                 A2ATextPart "done"];
                                                   msg_metadata := None |};
                                timestamp := 7 |};
                           artifacts_of := [] |} |} |}.

Definition wide_router : A2ATaskRouter :=
  (register_handler "reporting" reporting
     (register_handler "asking" asking example_router).2).2.

Definition wide_world : World :=
  {| self := A2ATaskManager_init wide_router; queues := {[ 0%nat := [] ]} |}.

(** ** Task context *)

(** A context whose incoming message has parts of the three kinds. *)
Definition mixed_context : A2ATaskContext :=
  {| task :=
       {| id := "t9"; sessionId := None;
          status := {| state := working; message := None; timestamp := 1 |};
          history :=
            [p_message (ask "echo");
             {| msg_role := user;
                msg_parts :=
                  [A2ADataPart {[ "k" := "v" ]}; A2ATextPart "a";
                   A2AFilePart {| file_name := Some "f"; file_mimeType := None;
                                  file_bytes := None;
                                  file_uri := Some "https://x/f" |};
                   A2ATextPart "b"];
                msg_metadata := None |}];
          artifacts := []; metadata := None |};
     _update_queue := None |}.

(** A file with inline bytes, and a stand-in for [base64.b64decode] that
    knows it. *)
Definition abc_file : A2AFile :=
  {| file_name := Some "abc.txt"; file_mimeType := Some "text/plain";
     file_bytes := Some "QUJD"; file_uri := None |}.

Definition toy_b64decode (s : string) : PyExc + list Z :=
  if bool_decide (s = "QUJD") then inr [65; 66; 67]
  else inl (Exc (Exception_ "binascii.Error") "Incorrect padding").

Definition toy_str_int (n : Z) : string := "n".

(** ** Tool-connection manager vocabulary *)

(** The outcome of opening the transport of a configured server: the
    context and the session, or the exception.  It reads the configuration
    entry and the environment only, not the tables. *)
Definition transport_result (world : MCPEnv) (server_name : string)
    (conf : MCPServerConfig) : Outcome (nat * nat) :=
  (connect_transport world server_name conf (MCPClientManager_init [])).1.

Definition config_not_found (server_name : string) : PyExc :=
  Exc ConfigurationError_ ("MCP server config not found: " +:+ server_name).
Definition connection_failed (server_name : string) (e : PyExc) : PyExc :=
  ExcFrom ConnectionError_ ("MCP connection failed for " +:+ server_name) e.
Definition session_failed (server_name : string) (e : PyExc) : PyExc :=
  ExcFrom ConnectionError_ ("Failed to get MCP session for " +:+ server_name) e.

(** What [get_session] returns and leaves for a server that has no session
    and no attempt in flight. *)
Definition after_connect (world : MCPEnv) (s : string) (m : MCPClientManager)
  : Outcome nat * MCPClientManager :=
  match find_config (config m) s with
  | None =>
      (Raise (session_failed s (config_not_found s)),
       {| config := config m; _sessions := _sessions m;
          _contexts := _contexts m; _locks := {[s]} ∪ _locks m;
          _connection_tasks :=
            <[s := Done (Raise (config_not_found s))]> (_connection_tasks m) |})
  | Some conf =>
      match transport_result world s conf with
      | Return cs =>
          (Return cs.2,
           {| config := config m; _sessions := <[s := cs.2]> (_sessions m);
              _contexts := <[s := cs.1]> (_contexts m);
              _locks := {[s]} ∪ _locks m;
              _connection_tasks := delete s (_connection_tasks m) |})
      | Raise e =>
          (Raise (session_failed s (connection_failed s e)),
           {| config := config m; _sessions := delete s (_sessions m);
              _contexts := delete s (_contexts m);
              _locks := {[s]} ∪ _locks m;
              _connection_tasks := delete s (_connection_tasks m) |})
      end
  end.

(** The session entry of a server after [close_all], from its entry
    before: it goes when [close()] returns. *)
Definition closed_session (world : MCPEnv) (session : option nat) : option nat :=
  match session with
  | Some sess =>
      match session_close world sess with
      | Some _ => Some sess
      | None => None
      end
  | None => None
  end.

(** The context entry of a server after [close_all], from its session and
    context entries before: it goes when the session closed and
    [__aexit__] returns. *)
Definition closed_context (world : MCPEnv) (session context : option nat)
  : option nat :=
  match session with
  | Some sess =>
      match session_close world sess with
      | Some _ => context
      | None =>
          match context with
          | Some c =>
              match context_aexit world c with
              | Some _ => Some c
              | None => None
              end
          | None => None
          end
      end
  | None => context
  end.

(** Example: a local server over stdio and a remote one over TCP with no
    host. *)
Definition memory_conf : MCPServerConfig :=
  {| name := "memory"; connection_type := "stdio";
     command := Some "mcp-memory"; args := None; env := None;
     host := None; port := None |}.

Definition remote_conf : MCPServerConfig :=
  {| name := "remote"; connection_type := "tcp";
     command := None; args := None; env := None;
     host := None; port := Some 9000 |}.

Definition two_servers : MCPClientManager :=
  MCPClientManager_init [memory_conf; remote_conf].

(** An environment in which every transport opens and the tool [add]
    answers, and one in which no transport opens. *)
Definition good_world : MCPEnv :=
  {| USE_MOCK := false;
     open_session := λ _, inr (1%nat, 2%nat);
     context_aexit := λ _, None;
     session_close := λ _, None;
     session_call_tool := λ _ tool _,
       if bool_decide (tool = "add") then inr (PyDict {[ "content" := "3" ]})
       else inl (Exc (Exception_ "RuntimeError") "unknown tool");
     session_list_tools := λ _, inr PyNone;
     inflight_result := λ _, Return 0%nat |}.

Definition down_world : MCPEnv :=
  {| USE_MOCK := false;
     open_session := λ _, inl (Exc (Exception_ "OSError") "spawn failed");
     context_aexit := λ _, None;
     session_close := λ _, Some (Exc (Exception_ "OSError") "broken pipe");
     session_call_tool := λ _ _ _, inr PyNone;
     session_list_tools := λ _, inr PyNone;
     inflight_result := λ _, Return 0%nat |}.

(** ** Client vocabulary, continued *)


(** The status the read loop holds after a run of calm lines. *)
Definition status_after (ls : list SSELine) (loc : StreamLocals) : StreamLocals :=
  {| last_known_task_state :=
       match last_status ls with
       | Some st => Some st
       | None => last_known_task_state loc
       end;
     stream_exc := stream_exc loc |}.

Definition completed_event : A2ATaskStatusUpdateEventResult :=
  {| ev_id := "t1";
     ev_status := {| state := completed; message := None; timestamp := 6 |};
     final := true |}.

Definition quota_error : A2AJsonRpcErrorData :=
  {| err_code := -32000; err_message := "quota exceeded" |}.

(** A peer whose stream goes on after the final event. *)
Definition chatty_peer : Peer :=
  {| discover_agent := λ _, inr true;
     send_json_rpc := λ _ _ _, inr completed_task;
     http_stream := λ _ _,
       {| lines := [line_status working_event; line_status completed_event;
                    line_error quota_error; line_status working_event];
          broken := None |} |}.


(** A peer whose connection drops while the body is read, after one event
    and a final event have been sent. *)
Definition flaky_peer : Peer :=
  {| discover_agent := λ _, inr true;
     send_json_rpc := λ _ _ _, inr completed_task;
     http_stream := λ _ _,
       {| lines := [line_status working_event; line_status completed_event];
          broken := Some (Exc (Exception_ "httpx.ReadError") "reset") |} |}.

(** * Properties *)

Ltac async_unfold :=
  unfold when, modify_self, mbind, async_bind, mret, async_ret, fmap,
    async_fmap, await_, unawaited, try_except, raise, get_state, modify.

Lemma bind_run {S A B} (c : Async S A) (f : A → Async S B) s a s' :
  c s = (Return a, s') → (c ≫= f) s = f a s'.
Proof. intros H. unfold mbind, async_bind. by rewrite H. Qed.

Lemma bind_raise {S A B} (c : Async S A) (f : A → Async S B) s e s' :
  c s = (Raise e, s') → (c ≫= f) s = (Raise e, s').
Proof. intros H. unfold mbind, async_bind. by rewrite H. Qed.

Lemma fmap_run {S A B} (c : Async S A) (f : A → B) s a s' :
  c s = (Return a, s') → (f <$> c) s = (Return (f a), s').
Proof. intros H. unfold fmap, async_fmap. by rewrite H. Qed.

Lemma try_except_run {S A} (c : Async S A) h s a s' :
  c s = (Return a, s') → try_except c h s = (Return a, s').
Proof. intros H. unfold try_except. by rewrite H. Qed.

Lemma try_except_raise {S A} (c : Async S A) h s e s' :
  c s = (Raise e, s') → try_except c h s = h e s'.
Proof. intros H. unfold try_except. by rewrite H. Qed.

(** ** Task manager: locks and reads *)

Lemma get_task_lock_run task_id w :
  _get_task_lock task_id w = (Return tt, lock_added task_id w).
Proof.
  unfold _get_task_lock, lock_added. async_unfold. f_equal.
  destruct w as [[ts ls k r d] qs]; simpl.
  case_bool_decide as Hin; [|done].
  unfold with_task_locks; simpl. do 2 f_equal.
  symmetry. apply subseteq_union_1_L. by apply singleton_subseteq_l.
Qed.

Lemma lock_added_tasks task_id w :
  _tasks (self (lock_added task_id w)) = _tasks (self w).
Proof. done. Qed.

Lemma py_slice_from_neg {A} (n : Z) (l : list A) :
  0 < n → py_slice_from (- n) l = last_n (Z.to_nat n) l.
Proof.
  intros Hn. unfold py_slice_from, last_n.
  destruct (Z.ltb_spec (- n) 0) as [_|?]; [|lia].
  f_equal. lia.
Qed.

(** For a positive [n] the read returns the last [n] messages and changes
    nothing but the lock table. *)
Lemma handle_task_get_positive (w : World) (task_id : string) (t : A2ATask)
    (n : Z) :
  _tasks (self w) !! task_id = Some t → 0 < n →
  handle_task_get task_id n w
    = (Return (set_history (last_n (Z.to_nat n) (history t)) t),
       lock_added task_id w).
Proof.
  intros Ht Hn. unfold handle_task_get. async_unfold.
  rewrite get_task_lock_run. simpl. rewrite Ht. unfold model_copy_deep.
  destruct (Z.leb_spec 0 n) as [_|?]; [|lia].
  destruct (Z.eqb_spec n 0) as [?|_]; [lia|].
  destruct (history t) as [|m h] eqn:Hh; simpl.
  - f_equal. destruct t; simpl in *; subst. unfold last_n. by rewrite drop_nil.
  - by rewrite py_slice_from_neg.
Qed.

(** C3: with [history_length = 0] the read returns the stored task with its
    whole history, whatever its length: the slice [history[-0:]] is the
    whole list, and the branch that empties the history is taken only for a
    history that is empty already. *)
Theorem handle_task_get_zero_whole_history (w : World) (task_id : string)
    (t : A2ATask) :
  _tasks (self w) !! task_id = Some t →
  (handle_task_get task_id 0 w).1 = Return t.
Proof.
  intros Ht. unfold handle_task_get. async_unfold.
  rewrite get_task_lock_run. simpl. rewrite Ht. unfold model_copy_deep.
  destruct t as [i s st h a md]; destruct h; reflexivity.
Qed.

Lemma handle_task_get_zero_whole_history_witness :
  (handle_task_get "t1" 0
     (handle_task_send 6 "u-2" (ask "echo")
        (handle_task_send 5 "u-1" (ask "echo") fresh_world).2).2).1
  = Return {| id := "t1"; sessionId := Some "u-2";
              status := {| state := working; message := None; timestamp := 6 |};
              history := [p_message (ask "echo"); p_message (ask "echo")];
              artifacts := []; metadata := None |}.
Proof.
  apply handle_task_get_zero_whole_history. vm_compute. reflexivity.
Defined.

(** C10: on an id that is not in the store, the read and the cancel raise
    "not found" (-32001) and leave the world with a lock entry for that id:
    a world that differs from the one before when the id had no lock. *)
Theorem failing_read_adds_lock (w : World) (task_id : string) (n now : Z) :
  _tasks (self w) !! task_id = None →
  handle_task_get task_id n w
    = (Raise (A2AError ("Task " +:+ task_id +:+ " not found") (-32001)),
       lock_added task_id w)
  ∧ handle_task_cancel now task_id w
    = (Raise (A2AError ("Task " +:+ task_id +:+ " not found") (-32001)),
       lock_added task_id w)
  ∧ task_id ∈ _task_locks (self (lock_added task_id w))
  ∧ (task_id ∉ _task_locks (self w) → lock_added task_id w ≠ w).
Proof.
  intros Ht. unfold handle_task_get, handle_task_cancel.
  async_unfold. rewrite get_task_lock_run. simpl. rewrite Ht.
  repeat split.
  - simpl. apply elem_of_union_l. by apply elem_of_singleton.
  - intros Hn Heq. apply Hn. rewrite <- Heq. simpl.
    apply elem_of_union_l. by apply elem_of_singleton.
Qed.

Lemma failing_read_adds_lock_witness :
  handle_task_get "ghost" 0 fresh_world
    = (Raise (A2AError ("Task " +:+ "ghost" +:+ " not found") (-32001)),
       lock_added "ghost" fresh_world)
  ∧ handle_task_cancel 9 "ghost" fresh_world
    = (Raise (A2AError ("Task " +:+ "ghost" +:+ " not found") (-32001)),
       lock_added "ghost" fresh_world)
  ∧ "ghost" ∈ _task_locks (self (lock_added "ghost" fresh_world))
  ∧ ("ghost" ∉ _task_locks (self fresh_world)
     → lock_added "ghost" fresh_world ≠ fresh_world).
Proof.
  apply (failing_read_adds_lock fresh_world "ghost" 0 9).
  vm_compute. reflexivity.
Defined.

(** ** Task manager: validation *)

Lemma validate_part_code part e :
  validate_part part = Some e → exc_class e = A2AError_ (-32602).
Proof.
  destruct part as [t|f|d]; simpl; repeat case_match; naive_solver.
Qed.

Lemma validate_parts_code ps e :
  validate_parts ps = Some e → exc_class e = A2AError_ (-32602).
Proof.
  induction ps as [|p ps IH]; simpl; [done|].
  destruct (validate_part p) eqn:Hp; [|done].
  intros [= <-]. by eapply validate_part_code.
Qed.

Lemma validate_part_refused part :
  refused_part part → is_Some (validate_part part).
Proof.
  destruct part as [t|f|d]; simpl.
  - intros ->. by eexists.
  - intros [-> ->]. by eexists.
  - intros ->. rewrite bool_decide_eq_true_2; [by eexists|done].
Qed.

Lemma validate_parts_refused ps part :
  part ∈ ps → refused_part part → is_Some (validate_parts ps).
Proof.
  induction ps as [|p ps IH]; [by intros ?%elem_of_nil|].
  intros [->|Hin]%elem_of_cons Hr; simpl.
  - destruct (validate_part_refused _ Hr) as [e ->]. by eexists.
  - destruct (validate_part p); [by eexists|]. by apply IH.
Qed.

Lemma validate_task_params_refused params w :
  refused_message (p_message params) →
  ∃ e, _validate_task_params params w = (Raise e, w)
       ∧ exc_class e = A2AError_ (-32602).
Proof.
  unfold _validate_task_params. intros [Hnil|(part & Hin & Hr)].
  - rewrite Hnil. simpl. by eexists.
  - destruct (msg_parts (p_message params)) as [|p ps] eqn:Hps;
      [by apply elem_of_nil in Hin|].
    simpl truthy_list. cbn match.
    destruct (validate_parts_refused _ _ Hin Hr) as [e He].
    rewrite He. exists e. split; [done|]. by eapply validate_parts_code.
Qed.

(** C7: a send whose message has no part, or has a text part with empty
    text, a data part with an empty map, or a file part with neither bytes
    nor URI, raises an [A2AError] with code -32602 and leaves the whole
    world, the task store included, as it was. *)
Theorem handle_task_send_refused (now : Z) (uuid4 : string)
    (params : A2ATaskSendParams) (w : World) :
  refused_message (p_message params) →
  ∃ e, handle_task_send now uuid4 params w = (Raise e, w)
       ∧ exc_code e = Some (-32602)
       ∧ _tasks (self (handle_task_send now uuid4 params w).2) = _tasks (self w).
Proof.
  intros Hr. destruct (validate_task_params_refused params w Hr) as (e & He & Hc).
  assert (handle_task_send now uuid4 params w = (Raise e, w)) as Hrun.
  { unfold handle_task_send.
    unfold mbind at 1, async_bind at 1, await_ at 1. by rewrite He. }
  exists e. rewrite Hrun. split; [done|]. split; [|done].
  unfold exc_code. by rewrite Hc.
Qed.

Lemma handle_task_send_refused_witness :
  ∃ e, handle_task_send 5 "u-1"
         {| p_id := "t2"; p_sessionId := None;
            p_message := {| msg_role := user; msg_parts := [];
                            msg_metadata := None |};
            p_metadata := None |} fresh_world = (Raise e, fresh_world)
       ∧ exc_code e = Some (-32602)
       ∧ _tasks (self (handle_task_send 5 "u-1"
           {| p_id := "t2"; p_sessionId := None;
              p_message := {| msg_role := user; msg_parts := [];
                              msg_metadata := None |};
              p_metadata := None |} fresh_world).2) = _tasks (self fresh_world).
Proof.
  apply handle_task_send_refused. left. reflexivity.
Defined.

(** ** Task manager: what a send commits *)

Lemma run_context_calls_no_queue ctx now cs w :
  _update_queue ctx = None →
  run_context_calls ctx now cs w = (Return tt, w).
Proof.
  intros Hq. induction cs as [|[st text fin|a] cs IH]; simpl; [done| |].
  - erewrite bind_run; [exact IH|]. unfold await_, update_status. by rewrite Hq.
  - erewrite bind_run; [exact IH|]. unfold await_, yield_artifact. by rewrite Hq.
Qed.

Lemma send_try_except_run handler tid t now w :
  ∃ w', try_except (send_try handler tid t now) (send_except tid now) w
        = (Return tt, w')
        ∧ _tasks (self w') = _tasks (self w)
        ∧ queues w' = queues w
        ∧ a2a_dlq (self w')
          = a2a_dlq (self w)
            ++ dlq_entries_of_send tid
                 (call handler {| task := t; _update_queue := None |}).
Proof.
  unfold dlq_entries_of_send.
  set (ctx := {| task := t; _update_queue := None |}).
  destruct (ending (call handler ctx)) as [e|result] eqn:Hend.
  - erewrite try_except_raise.
    2:{ unfold send_try. fold ctx. erewrite bind_raise; [done|].
        unfold await_, call_handler.
        erewrite bind_run; [|by apply run_context_calls_no_queue].
        by rewrite Hend. }
    unfold send_except, get_metric, update_metric, _add_to_dlq.
    erewrite bind_run; [|apply get_task_lock_run].
    async_unfold. simpl. by eexists.
  - assert (∃ w', send_try handler tid t now w = (Return tt, w')
                  ∧ _tasks (self w') = _tasks (self w)
                  ∧ queues w' = queues w
                  ∧ a2a_dlq (self w')
                    = a2a_dlq (self w)
                      ++ match state (final_status result) with
                         | failed =>
                             [(tid, "tasks/send",
                               "Handler failed: "
                               +:+ str_message (message (final_status result)))]
                         | _ => []
                         end) as (w' & Hrun & Hrest).
    { unfold send_try. fold ctx. erewrite bind_run.
      2:{ unfold await_, call_handler.
          erewrite bind_run; [|by apply run_context_calls_no_queue].
          by rewrite Hend. }
      erewrite bind_run; [|apply get_task_lock_run].
      erewrite bind_run; [|done].
      unfold get_metric, update_metric, _add_to_dlq. async_unfold.
      destruct (state (final_status result)); simpl; eexists;
        (split; [reflexivity|]); simpl; by rewrite ?app_nil_r. }
    exists w'. by erewrite try_except_run.
Qed.

Lemma stored_by_send_status now uuid4 params w :
  status (stored_by_send now uuid4 params w)
  = {| state := working; message := None; timestamp := now |}
  ∧ artifacts (stored_by_send now uuid4 params w)
    = default [] (artifacts <$> _tasks (self w) !! p_id params).
Proof. unfold stored_by_send. by destruct (_tasks (self w) !! p_id params). Qed.

(** Every send that passes validation, finds a handler and is accepted
    returns, whatever its handler does; the record it returns is the one it
    stored before the handler ran, in state [working]; the dead-letter queue
    grows by the entries of the run. *)
Lemma handle_task_send_run now uuid4 params w handler :
  _validate_task_params params w = (Return tt, w) →
  _get_handler_for_task params w = (Return handler, w) →
  accepts w params = true →
  let t := stored_by_send now uuid4 params w in
  ∃ w', handle_task_send now uuid4 params w = (Return t, w')
        ∧ _tasks (self w') = <[p_id params := t]> (_tasks (self w))
        ∧ a2a_dlq (self w')
          = a2a_dlq (self w)
            ++ dlq_entries_of_send (p_id params)
                 (call handler {| task := t; _update_queue := None |}).
Proof.
  intros Hv Hh Ha t. unfold handle_task_send.
  erewrite bind_run; [|exact Hv].
  erewrite bind_run; [|exact Hh].
  erewrite bind_run; [|apply get_task_lock_run].
  erewrite bind_run; [|done].
  rewrite lock_added_tasks.
  assert (∃ w1, match _tasks (self w) !! p_id params with
                | Some t0 =>
                    if negb (state_in (state (status t0)) reusable_states)
                    then raise (A2AError ("Task " +:+ p_id params
                                  +:+ " in invalid state "
                                  +:+ state_name (state (status t0))) (-32004))
                    else reuse_task now (session_id_of params uuid4) params t0
                | None => create_task now (session_id_of params uuid4) params
                end (lock_added (p_id params) w) = (Return t, w1)
                ∧ _tasks (self w1) = <[p_id params := t]> (_tasks (self w))
                ∧ a2a_dlq (self w1) = a2a_dlq (self w)) as (w1 & Hstore & Ht1 & Hd1).
  { unfold t, stored_by_send. unfold accepts in Ha.
    destruct (_tasks (self w) !! p_id params) as [t0|].
    - rewrite Ha. simpl negb. cbn match. unfold reuse_task. async_unfold.
      simpl. by eexists.
    - unfold create_task, get_metric, update_metric. async_unfold. simpl.
      by eexists. }
  erewrite bind_run; [|exact Hstore].
  unfold model_copy_deep.
  destruct (send_try_except_run handler (p_id params) t now w1)
    as (w2 & Htry & Ht2 & _ & Hd2).
  erewrite bind_run; [|exact Htry].
  erewrite bind_run; [|apply get_task_lock_run].
  exists (lock_added (p_id params) w2).
  unfold tasks_getitem. async_unfold. simpl.
  rewrite Ht2, Ht1, lookup_insert_eq. simpl.
  split; [done|]. split; [done|]. by rewrite Hd2, Hd1.
Qed.

(** C1: the scenario of the specification.  The echo handler returns
    [completed] with an artifact that holds "ping", and [handle_task_send]
    returns; the record a following [get] yields is still [working] and has
    no artifact, because the coroutine of [_update_task_state] is never
    awaited. *)
Theorem echo_send_then_get_still_working :
  ending (call echo {| task := t1_working "echo"; _update_queue := None |})
    = inr (completed_result ["ping"])
  ∧ (handle_task_send 5 "u-1" (ask "echo") fresh_world).1
    = Return (t1_working "echo")
  ∧ (handle_task_get "t1" 0
       (handle_task_send 5 "u-1" (ask "echo") fresh_world).2).1
    = Return (t1_working "echo")
  ∧ state (status (t1_working "echo")) = working
  ∧ artifacts (t1_working "echo") = [].
Proof. repeat split; vm_compute; reflexivity. Qed.

(** C4: a handler that raises.  [handle_task_send] returns and the
    dead-letter queue gets one entry for the task, but the stored status
    stays [working] with no message: the commit of the [failed] status is a
    coroutine that is never awaited. *)
Theorem raising_handler_leaves_task_working :
  (handle_task_send 5 "u-1" (ask "boom") fresh_world).1
    = Return (t1_working "boom")
  ∧ _tasks (self (handle_task_send 5 "u-1" (ask "boom") fresh_world).2) !! "t1"
    = Some (t1_working "boom")
  ∧ state (status (t1_working "boom")) = working
  ∧ message (status (t1_working "boom")) = None
  ∧ a2a_dlq (self (handle_task_send 5 "u-1" (ask "boom") fresh_world).2)
    = [("t1", "tasks/send", "Handler exception: boom")].
Proof. repeat split; vm_compute; reflexivity. Qed.

(** ** Task manager: cancel *)

(** C6: a cancel of a stored task returns that task as it is stored and
    leaves the store as it was, whatever the state of the task: for a
    terminal task by the first branch, for any other because the coroutine
    that would set [canceled] and clear the artifacts is never awaited. *)
Theorem handle_task_cancel_keeps_store (now : Z) (w : World)
    (task_id : string) (t : A2ATask) :
  _tasks (self w) !! task_id = Some t →
  ∃ w', handle_task_cancel now task_id w = (Return t, w')
        ∧ _tasks (self w') = _tasks (self w).
Proof.
  intros Ht. unfold handle_task_cancel.
  erewrite bind_run; [|apply get_task_lock_run].
  erewrite bind_run; [|done].
  rewrite lock_added_tasks, Ht.
  destruct (state_in (state (status t)) [completed; failed; canceled]).
  - eexists. unfold tasks_getitem. async_unfold. simpl. by rewrite Ht.
  - eexists. unfold tasks_getitem, get_metric, update_metric. async_unfold.
    simpl. by rewrite Ht.
Qed.

Lemma handle_task_cancel_keeps_store_witness :
  ∃ w', handle_task_cancel 9 "t1"
          (handle_task_send 5 "u-1" (ask "echo") fresh_world).2
        = (Return (t1_working "echo"), w')
        ∧ _tasks (self w')
          = _tasks (self (handle_task_send 5 "u-1" (ask "echo") fresh_world).2).
Proof.
  apply (handle_task_cancel_keeps_store 9
           (handle_task_send 5 "u-1" (ask "echo") fresh_world).2 "t1"
           (t1_working "echo")).
  vm_compute. reflexivity.
Defined.

(** Two cancels in a row of a task that is [working]: both return it
    [working], neither raises. *)
Example cancel_twice_still_working :
  let w1 := (handle_task_send 5 "u-1" (ask "echo") fresh_world).2 in
  let w2 := (handle_task_cancel 9 "t1" w1).2 in
  (handle_task_cancel 9 "t1" w1).1 = Return (t1_working "echo")
  ∧ (handle_task_cancel 10 "t1" w2).1 = Return (t1_working "echo").
Proof. split; vm_compute; reflexivity. Qed.

(** ** Task manager: the final event of a stream *)

Lemma queue_items_put_all q items w :
  queue_items (put_all q items w) q = queue_items w q ++ items.
Proof. unfold queue_items at 1, put_all. simpl. by rewrite lookup_insert_eq. Qed.

Lemma queue_put_run q item w :
  queue_put q item w = (Return tt, put_all q [item] w).
Proof. done. Qed.

Lemma update_status_run ctx q now st text fin w :
  _update_queue ctx = Some q →
  update_status ctx now st text fin w
    = (Return tt, put_all q [status_event ctx now st text fin] w).
Proof. intros Hq. unfold update_status. by rewrite Hq. Qed.

Lemma yield_artifact_run ctx q a w :
  _update_queue ctx = Some q →
  yield_artifact ctx a w
    = (Return tt,
       put_all q [ArtifactUpdate {| aev_id := task_id ctx; aev_artifact := a |}] w).
Proof. intros Hq. unfold yield_artifact. by rewrite Hq. Qed.

Lemma run_context_calls_run ctx q now cs w :
  _update_queue ctx = Some q →
  ∃ w', run_context_calls ctx now cs w = (Return tt, w')
        ∧ self w' = self w
        ∧ queue_items w' q = queue_items w q ++ map (item_of_call ctx now) cs
        ∧ (∀ q', q' ≠ q → queue_items w' q' = queue_items w q').
Proof.
  intros Hq. revert w. induction cs as [|c cs IH]; intros w.
  - exists w. simpl. by rewrite app_nil_r.
  - destruct c as [st text fin|a]; simpl.
    + destruct (IH (put_all q [status_event ctx now st text fin] w))
        as (w' & Hrun & Hs & Hq' & Ho).
      exists w'. erewrite bind_run; [|by apply update_status_run].
      rewrite Hrun. split; [done|]. split; [done|]. split.
      * rewrite Hq', queue_items_put_all. by rewrite <- app_assoc.
      * intros q' Hne. rewrite Ho by done. unfold queue_items, put_all. simpl.
        by rewrite lookup_insert_ne.
    + destruct (IH (put_all q [ArtifactUpdate {| aev_id := task_id ctx; aev_artifact := a |}] w))
        as (w' & Hrun & Hs & Hq' & Ho).
      exists w'. erewrite bind_run; [|by apply yield_artifact_run].
      rewrite Hrun. split; [done|]. split; [done|]. split.
      * rewrite Hq', queue_items_put_all. by rewrite <- app_assoc.
      * intros q' Hne. rewrite Ho by done. unfold queue_items, put_all. simpl.
        by rewrite lookup_insert_ne.
Qed.












(** ** Skill router *)

Lemma register_handler_plain s h r :
  iscoroutinefunction h = false → register_handler s h r = (Return tt, r).
Proof. intros Hh. unfold register_handler. by rewrite Hh. Qed.

Lemma register_handler_lookup s h r s' :
  _handlers (register_handler s h r).2 !! s'
  = if bool_decide (s = s' ∧ iscoroutinefunction h = true) then Some h
    else _handlers r !! s'.
Proof.
  unfold register_handler. destruct (iscoroutinefunction h); simpl.
  - case_bool_decide as Hs.
    + destruct Hs as [-> _]. by rewrite lookup_insert_eq.
    + rewrite lookup_insert_ne; [done|]. intros ->. by apply Hs.
  - rewrite bool_decide_eq_false_2; [done|]. by intros [_ ?].
Qed.

Lemma register_all_snoc regs reg r :
  register_all (regs ++ [reg]) r
  = (register_handler reg.1 reg.2 (register_all regs r)).2.
Proof. unfold register_all. by rewrite foldl_snoc. Qed.

(** The table after a sequence of registrations. *)
Lemma register_all_lookup s regs r :
  _handlers (register_all regs r) !! s
  = match last_valid s regs with
    | Some h => Some h
    | None => _handlers r !! s
    end.
Proof.
  induction regs as [|[s' h] regs IH] using rev_ind; [done|].
  rewrite register_all_snoc, register_handler_lookup. simpl.
  unfold last_valid in *. rewrite filter_app.
  case_bool_decide as Hs.
  - rewrite filter_cons_True by (simpl; naive_solver).
    rewrite filter_nil, last_snoc. done.
  - rewrite filter_cons_False by (simpl; naive_solver).
    rewrite filter_nil, app_nil_r. exact IH.
Qed.

Lemma get_handler_specific s h r :
  s ≠ "" → _handlers r !! s = Some h →
  get_handler (Some s) r = (Return (Some h), r).
Proof.
  intros Hs Hh. unfold get_handler. async_unfold.
  assert (truthy_str s = true) as -> by (by destruct s).
  rewrite bool_decide_eq_true_2; [by rewrite Hh|].
  apply elem_of_dom. by eexists.
Qed.

(** C8: for every skill id [s] (a non-empty string: the ids of
    [A2AAgentSkill] have [min_length=1], and [get_handler] reads an empty
    string as no skill id), after any sequence of registrations (for this
    id and for others, on any router), [get_handler] returns the last
    handler of the sequence registered for the id that is a coroutine
    function: of two such registrations the second is the active one.  A
    callable that is not a coroutine function is rejected when it is
    registered: [register_handler] returns and leaves the router as it is,
    so such a callable is never stored and never reaches a call. *)
Theorem last_valid_registration_wins (s : string)
    (regs : list (string * Callable)) (r : A2ATaskRouter) (h : Callable) :
  s ≠ "" →
  last_valid s regs = Some h →
  get_handler (Some s) (register_all regs r)
  = (Return (Some h), register_all regs r)
  ∧ iscoroutinefunction h = true
  ∧ ∀ s' h' r', iscoroutinefunction h' = false →
                register_handler s' h' r' = (Return tt, r').
Proof.
  intros Hs Hl. split; [|split].
  - apply get_handler_specific; [done|].
    by rewrite register_all_lookup, Hl.
  - unfold last_valid in Hl.
    destruct (last (filter _ regs)) as [reg|] eqn:Hlast; [|done].
    injection Hl as <-.
    apply last_Some_elem_of, list_elem_of_filter in Hlast. tauto.
  - intros s' h' r'. apply register_handler_plain.
Qed.

Lemma last_valid_registration_wins_witness :
  get_handler (Some "echo")
    (register_all [("echo", boom); ("echo", plain); ("other", eager);
                   ("echo", echo); ("echo", plain)] A2ATaskRouter_init)
  = (Return (Some echo),
     register_all [("echo", boom); ("echo", plain); ("other", eager);
                   ("echo", echo); ("echo", plain)] A2ATaskRouter_init)
  ∧ iscoroutinefunction echo = true
  ∧ ∀ s' h' r', iscoroutinefunction h' = false →
                register_handler s' h' r' = (Return tt, r').
Proof.
  apply last_valid_registration_wins.
  - discriminate.
  - vm_compute. reflexivity.
Defined.

(** With no valid registration for [s] in the sequence, the entry of [s]
    is what it was: nothing is stored for a callable that cannot suspend. *)
Lemma no_valid_registration_keeps_entry s regs r :
  last_valid s regs = None →
  _handlers (register_all regs r) !! s = _handlers r !! s.
Proof. intros Hl. by rewrite register_all_lookup, Hl. Qed.

(** The empty string is no skill id: [get_handler] answers it like a
    request without one, with the default handler. *)
Lemma get_handler_empty_id r :
  get_handler (Some "") r = get_handler None r.
Proof. reflexivity. Qed.

(** ** Tool-connection manager *)

Lemma ensure_lock_run s m :
  ensure_lock s m = (Return tt, with_locks (λ l, {[s]} ∪ l) m).
Proof.
  unfold ensure_lock. async_unfold. f_equal.
  case_bool_decide as Hin; [|done].
  destruct m as [c ss cs ls ts]. unfold with_locks. simpl in *. f_equal.
  symmetry. apply subseteq_union_1_L. by apply singleton_subseteq_l.
Qed.

Lemma connect_transport_state world s c m :
  (connect_transport world s c m).2 = m.
Proof.
  unfold connect_transport.
  repeat case_match; try done; unfold raise; simpl; done.
Qed.

(** [_connect] for a server that is not configured and has no session:
    it raises and touches the lock table only. *)
Lemma connect_unconfigured world s m :
  find_config (config m) s = None → _sessions m !! s = None →
  _connect world s m
  = (Raise (Exc ConfigurationError_ ("MCP server config not found: " +:+ s)),
     with_locks (λ l, {[s]} ∪ l) m).
Proof.
  intros Hc Hs. unfold _connect.
  erewrite bind_run; [|apply ensure_lock_run].
  erewrite bind_run; [|done].
  simpl. by rewrite Hs, Hc.
Qed.

(** [_connect] by cases. *)
Lemma connect_cases world s m :
  let m0 := with_locks (λ l, {[s]} ∪ l) m in
  _connect world s m
  = match _sessions m !! s with
    | Some session => (Return session, m0)
    | None =>
        match find_config (config m) s with
        | None =>
            (Raise (Exc ConfigurationError_
                      ("MCP server config not found: " +:+ s)), m0)
        | Some conf =>
            match (connect_transport world s conf m0).1 with
            | Return cs =>
                (Return cs.2,
                 with_connection_tasks (delete s)
                   (with_contexts <[s := cs.1]>
                      (with_sessions <[s := cs.2]> m0)))
            | Raise e =>
                (Raise (ExcFrom ConnectionError_
                          ("MCP connection failed for " +:+ s) e),
                 with_contexts (delete s)
                   (with_sessions (delete s)
                      (with_connection_tasks (delete s) m0)))
            end
        end
    end.
Proof.
  intros m0. unfold _connect.
  erewrite bind_run; [|apply ensure_lock_run].
  erewrite bind_run; [|done].
  fold m0. change (_sessions m0) with (_sessions m).
  change (config m0) with (config m).
  destruct (_sessions m !! s); [done|].
  destruct (find_config (config m) s) as [conf|]; [|done].
  pose proof (connect_transport_state world s conf m0) as Hst.
  unfold try_except. unfold mbind at 1, async_bind at 1.
  destruct (connect_transport world s conf m0) as [[cs|e] m1];
    simpl in Hst; subst m1; reflexivity.
Qed.

(** What [_connect] does to the tables. *)
Lemma connect_tables world s m :
  let m' := (_connect world s m).2 in
  config m' = config m
  ∧ (∀ s', is_Some (_sessions m' !! s') →
           is_Some (_sessions m !! s')
           ∨ (s' = s ∧ is_Some (find_config (config m) s)))
  ∧ (∀ s', is_Some (_contexts m' !! s') →
           is_Some (_contexts m !! s')
           ∨ (s' = s ∧ is_Some (find_config (config m) s)))
  ∧ (∀ s', _connection_tasks m' !! s' = _connection_tasks m !! s'
           ∨ _connection_tasks m' !! s' = None).
Proof.
  rewrite connect_cases.
  destruct (_sessions m !! s) as [session|] eqn:Hs.
  { simpl. repeat split; intros; auto. }
  destruct (find_config (config m) s) as [conf|] eqn:Hc.
  2:{ simpl. repeat split; intros; auto. }
  destruct (connect_transport world s conf _).1 as [cs|e]; simpl.
  - repeat split; [| |].
    + intros s' [x Hx]. destruct (decide (s' = s)) as [->|Hne]; [right; eauto|].
      left. rewrite lookup_insert_ne in Hx by done. eauto.
    + intros s' [x Hx]. destruct (decide (s' = s)) as [->|Hne]; [right; eauto|].
      left. rewrite lookup_insert_ne in Hx by done. eauto.
    + intros s'. destruct (decide (s' = s)) as [->|Hne].
      * right. apply lookup_delete_eq.
      * left. by apply lookup_delete_ne.
  - repeat split; [| |].
    + intros s' [x Hx]. left. apply lookup_delete_Some in Hx as [_ Hx]. eauto.
    + intros s' [x Hx]. left. apply lookup_delete_Some in Hx as [_ Hx]. eauto.
    + intros s'. destruct (decide (s' = s)) as [->|Hne].
      * right. apply lookup_delete_eq.
      * left. by apply lookup_delete_ne.
Qed.

Lemma wrap_session_state s r m : (wrap_session s r m).2 = m.
Proof. by destruct r. Qed.

Lemma run_connect_task_wf world s m :
  mcp_wf m → mcp_wf (run_connect_task world s m).2.
Proof.
  intros (Hs & Hc & Ht). unfold run_connect_task.
  set (m1 := with_connection_tasks <[s:=Pending]> m).
  destruct (connect_tables world s m1) as (Hcfg & Hs2 & Hc2 & Ht2).
  destruct (_connect world s m1) as [r m2]. simpl in Hcfg, Hs2, Hc2, Ht2.
  rewrite wrap_session_state.
  assert (∀ f, config (with_connection_tasks f m2) = config m) as Hcfg'
    by (intros; simpl; by rewrite Hcfg).
  split; [|split].
  - intros s' Hx.
    assert (is_Some (_sessions m2 !! s')) as Hx2 by (by case_bool_decide).
    assert (config (if bool_decide (s ∈ dom (_connection_tasks m2))
                    then with_connection_tasks <[s:=Done r]> m2 else m2)
            = config m) as -> by (by case_bool_decide).
    destruct (Hs2 s' Hx2) as [?|[-> ?]]; [by apply Hs|done].
  - intros s' Hx.
    assert (is_Some (_contexts m2 !! s')) as Hx2 by (by case_bool_decide).
    assert (config (if bool_decide (s ∈ dom (_connection_tasks m2))
                    then with_connection_tasks <[s:=Done r]> m2 else m2)
            = config m) as -> by (by case_bool_decide).
    destruct (Hc2 s' Hx2) as [?|[-> ?]]; [by apply Hc|done].
  - intros s'. destruct (decide (s' = s)) as [->|Hne].
    + case_bool_decide as Hin; simpl.
      * by rewrite lookup_insert_eq.
      * apply not_elem_of_dom in Hin. by rewrite Hin.
    + assert (_connection_tasks
                (if bool_decide (s ∈ dom (_connection_tasks m2))
                 then with_connection_tasks <[s:=Done r]> m2 else m2) !! s'
              = _connection_tasks m2 !! s') as ->.
      { case_bool_decide; simpl; [by rewrite lookup_insert_ne|done]. }
      destruct (Ht2 s') as [->| ->]; [|done].
      unfold m1. simpl. rewrite lookup_insert_ne by done. apply Ht.
Qed.

Lemma get_session_wf world s m :
  mcp_wf m → mcp_wf (get_session world s m).2.
Proof.
  intros Hwf. unfold get_session.
  erewrite bind_run; [|done].
  destruct (_sessions m !! s); [done|].
  erewrite bind_run; [|apply ensure_lock_run].
  erewrite bind_run; [|done].
  set (m0 := with_locks (λ l, {[s]} ∪ l) m).
  assert (mcp_wf m0) as Hwf0 by (by destruct Hwf as (? & ? & ?)).
  destruct (_connection_tasks m0 !! s) as [[|r]|];
    [by rewrite wrap_session_state|by apply run_connect_task_wf..].
Qed.

Lemma call_tool_state world s tool params m :
  (call_tool world s tool params m).2 = (get_session world s m).2.
Proof.
  unfold call_tool, try_except, await_. unfold mbind, async_bind.
  destruct (get_session world s m) as [[session|e] m']; simpl; [|done].
  by destruct (session_call_tool world session tool params).
Qed.

Lemma close_one_tables world s m :
  config (close_one world s m) = config m
  ∧ _connection_tasks (close_one world s m) = _connection_tasks m
  ∧ (∀ s', is_Some (_sessions (close_one world s m) !! s') →
           is_Some (_sessions m !! s'))
  ∧ (∀ s', is_Some (_contexts (close_one world s m) !! s') →
           is_Some (_contexts m !! s')).
Proof.
  assert (∀ (t : gmap string nat) s', is_Some (delete s t !! s') →
                                      is_Some (t !! s')) as Hdel.
  { intros t s' [x Hx]. apply lookup_delete_Some in Hx as [_ Hx]. eauto. }
  unfold close_one.
  destruct (_sessions m !! s) as [session|];
    [destruct (session_close world session)|]; simpl;
    [by auto| |];
    match goal with
    | |- context [_contexts ?m1 !! s] =>
        destruct (_contexts m1 !! s) as [context|];
          [destruct (context_aexit world context)|]
    end; simpl; repeat split; eauto.
Qed.

Lemma close_all_wf world m : mcp_wf m → mcp_wf (close_all world m).2.
Proof.
  intros (Hs & Hc & Ht). unfold close_all. async_unfold. simpl.
  generalize (elements (dom (_sessions m))). intros names.
  set (m0 := with_connection_tasks (λ _, ∅) m).
  assert (mcp_wf m0) as Hwf0 by (by repeat split).
  clearbody m0. clear Hs Hc Ht.
  induction names as [|s names IH]; simpl; [done|].
  destruct IH as (Hs & Hc & Ht).
  destruct (close_one_tables world s (foldr (close_one world) m0 names))
    as (Hcfg & Htk & Hs' & Hc').
  repeat split.
  - intros s' Hx. rewrite Hcfg. by apply Hs, Hs'.
  - intros s' Hx. rewrite Hcfg. by apply Hc, Hc'.
  - intros s'. rewrite Htk. apply Ht.
Qed.

Lemma reachable_wf m : reachable m → mcp_wf m.
Proof.
  induction 1 as [cfg|world s m _ IH|world s tool params m _ IH|world m _ IH].
  - repeat split; simpl; intros s; rewrite lookup_empty;
      [by intros [??]..|done].
  - by apply get_session_wf.
  - rewrite call_tool_state. by apply get_session_wf.
  - by apply close_all_wf.
Qed.

(** C9: a call of a tool on a server that has no entry in the
    configuration raises [ActionFailedError] (the [ConfigurationError] is
    its cause, two links down) and leaves the session table and the context
    table as they were, with nothing under that name. *)
Theorem call_tool_unconfigured (world : MCPEnv) (m : MCPClientManager)
    (server_name tool_name : string) (params : Dict) :
  reachable m →
  find_config (config m) server_name = None →
  ∃ m',
    call_tool world server_name tool_name params m
    = (Raise (ExcFrom ActionFailedError_
                ("MCP tool call " +:+ server_name +:+ "." +:+ tool_name
                 +:+ " failed")
                (ExcFrom ConnectionError_
                   ("Failed to get MCP session for " +:+ server_name)
                   (Exc ConfigurationError_
                      ("MCP server config not found: " +:+ server_name)))),
       m')
    ∧ _sessions m' = _sessions m
    ∧ _contexts m' = _contexts m
    ∧ _sessions m' !! server_name = None
    ∧ _contexts m' !! server_name = None.
Proof.
  intros Hr Hcfg. destruct (reachable_wf m Hr) as (Hs & Hc & Ht).
  assert (_sessions m !! server_name = None) as Hsn.
  { destruct (_sessions m !! server_name) eqn:E; [|done].
    destruct (Hs server_name) as [x Hx]; [by eexists|congruence]. }
  assert (_contexts m !! server_name = None) as Hcn.
  { destruct (_contexts m !! server_name) eqn:E; [|done].
    destruct (Hc server_name) as [x Hx]; [by eexists|congruence]. }
  eexists. split.
  - unfold call_tool. erewrite try_except_raise; [done|].
    erewrite bind_raise; [done|].
    unfold await_, get_session.
    erewrite bind_run; [|done]. rewrite Hsn.
    erewrite bind_run; [|apply ensure_lock_run].
    erewrite bind_run; [|done].
    assert (∀ k, match _connection_tasks (with_locks (λ l, {[server_name]} ∪ l) m)
                         !! server_name with
                 | Some Pending =>
                     wrap_session server_name (inflight_result world server_name)
                 | _ => k
                 end = k) as ->.
    { intros k. simpl. specialize (Ht server_name).
      by destruct (_connection_tasks m !! server_name) as [[|?]|]. }
    unfold run_connect_task.
    rewrite connect_unconfigured by done. simpl.
    rewrite bool_decide_eq_true_2.
    2:{ apply elem_of_dom. rewrite lookup_insert_eq. by eexists. }
    reflexivity.
  - simpl. done.
Qed.

Lemma call_tool_unconfigured_witness :
  ∃ m',
    call_tool
      {| USE_MOCK := true; open_session := λ _, inr (1%nat, 2%nat);
         context_aexit := λ _, None; session_close := λ _, None;
         session_call_tool := λ _ _ _, inr PyNone;
         session_list_tools := λ _, inr PyNone;
         inflight_result := λ _, Return 0%nat |}
      "ghost" "add" ∅
      (MCPClientManager_init
         [{| name := "memory"; connection_type := "stdio";
             command := Some "mcp-memory"; args := None; env := None;
             host := None; port := None |}])
    = (Raise (ExcFrom ActionFailedError_
                ("MCP tool call " +:+ "ghost" +:+ "." +:+ "add" +:+ " failed")
                (ExcFrom ConnectionError_
                   ("Failed to get MCP session for " +:+ "ghost")
                   (Exc ConfigurationError_
                      ("MCP server config not found: " +:+ "ghost")))),
       m')
    ∧ _sessions m' = ∅
    ∧ _contexts m' = ∅
    ∧ _sessions m' !! "ghost" = None
    ∧ _contexts m' !! "ghost" = None.
Proof.
  apply (call_tool_unconfigured _
           (MCPClientManager_init
              [{| name := "memory"; connection_type := "stdio";
                  command := Some "mcp-memory"; args := None; env := None;
                  host := None; port := None |}])).
  - apply reach_init.
  - vm_compute. reflexivity.
Defined.

(** ** Outbound client *)

Lemma call_callback_run cb arg tr :
  cb arg = None → call_callback cb arg tr = (Return tt, tr ++ [act_callback arg]).
Proof. intros Hcb. unfold call_callback, log_action. async_unfold. by rewrite Hcb. Qed.

Lemma last_status_cons ev ls :
  last_status (line_status ev :: ls)
  = match last_status ls with
    | Some st => Some st
    | None => Some (ev_status ev)
    end.
Proof. unfold last_status. simpl. apply last_cons. Qed.




(** The fallback at work: the stream of [mute_peer] has no status event,
    the client asks with [tasks/get] and returns the answer. *)
Example mute_stream_is_fetched :
  send_task mute_peer "agent.example/" (ask "echo") (Some listening) []
  = (Return completed_task,
     [act_stream "http://agent.example" (ask "echo");
      act_rpc "http://agent.example" "tasks/get" (params_get "t1" 0)]).
Proof. vm_compute. reflexivity. Qed.


(** * Further properties *)

(** ** Task manager: the parts of a send *)

Lemma validate_task_params_state params w :
  (_validate_task_params params w).2 = w.
Proof.
  unfold _validate_task_params.
  destruct (truthy_list _); simpl; [|done].
  by destruct (validate_parts _).
Qed.

Lemma validate_task_params_cases params w :
  _validate_task_params params w = (Return tt, w)
  ∨ ∃ e, _validate_task_params params w = (Raise e, w)
         ∧ exc_code e = Some (-32602).
Proof.
  unfold _validate_task_params.
  destruct (truthy_list _); simpl; [|right; by eexists].
  destruct (validate_parts _) as [e|] eqn:Hv; [|by left].
  right. exists e. split; [done|].
  apply validate_parts_code in Hv. unfold exc_code. by rewrite Hv.
Qed.

Lemma on_router_get_handler skill_id w :
  on_router (get_handler skill_id) w
  = ((get_handler skill_id (router (self w))).1, w).
Proof.
  unfold on_router, get_handler. async_unfold.
  destruct w as [[ts ls k r d] qs]. simpl.
  destruct skill_id as [s|]; [destruct (_ && _)|]; reflexivity.
Qed.

Lemma get_handler_returns skill_id r :
  ∃ o, get_handler skill_id r = (Return o, r).
Proof.
  unfold get_handler. async_unfold.
  destruct skill_id as [s|]; [destruct (_ && _)|]; by eexists.
Qed.

(** [_get_handler_for_task] by cases: the handler, or the routing error
    with its dead-letter entry. *)
Lemma get_handler_for_task_cases params w :
  _get_handler_for_task params w
  = match (get_handler (skill_id_of params) (router (self w))).1 with
    | Return (Some h) => (Return h, w)
    | _ =>
        (Raise (A2AError ("No suitable agent handler found for skill '"
                          +:+ str_ostr (skill_id_of params) +:+ "'") (-32601)),
         routing_failed params w)
    end.
Proof.
  unfold _get_handler_for_task. fold (skill_id_of params).
  unfold await_. unfold mbind at 1, async_bind at 1.
  rewrite on_router_get_handler.
  destruct (get_handler_returns (skill_id_of params) (router (self w))) as [o Ho].
  rewrite Ho. simpl. by destruct o.
Qed.

Lemma send_try_except_full handler tid t now w :
  try_except (send_try handler tid t now) (send_except tid now) w
  = (Return tt,
     after_handler tid (call handler {| task := t; _update_queue := None |}) w).
Proof.
  unfold after_handler, dlq_entries_of_send, kb_after_run.
  set (ctx := {| task := t; _update_queue := None |}).
  destruct (ending (call handler ctx)) as [e|result] eqn:Hend.
  - erewrite try_except_raise.
    2:{ unfold send_try. fold ctx. erewrite bind_raise; [done|].
        unfold await_, call_handler.
        erewrite bind_run; [|by apply run_context_calls_no_queue].
        by rewrite Hend. }
    unfold send_except, get_metric, update_metric, _add_to_dlq.
    erewrite bind_run; [|apply get_task_lock_run].
    reflexivity.
  - erewrite try_except_run; [done|].
    unfold send_try. fold ctx. erewrite bind_run.
    2:{ unfold await_, call_handler.
        erewrite bind_run; [|by apply run_context_calls_no_queue].
        by rewrite Hend. }
    erewrite bind_run; [|apply get_task_lock_run].
    erewrite bind_run; [|done].
    unfold get_metric, update_metric, _add_to_dlq. async_unfold.
    destruct (state (final_status result)); simpl;
      rewrite ?app_nil_r; reflexivity.
Qed.

Lemma union_singleton_idem (x : string) (X : gset string) :
  {[x]} ∪ ({[x]} ∪ X) = {[x]} ∪ X.
Proof. by rewrite (assoc_L (∪)), (idemp_L (∪) {[x]}). Qed.

(** An accepted send, in full: what it returns and the world it leaves. *)
Lemma handle_task_send_full now uuid4 params w handler :
  _validate_task_params params w = (Return tt, w) →
  _get_handler_for_task params w = (Return handler, w) →
  accepts w params = true →
  handle_task_send now uuid4 params w
  = (Return (stored_by_send now uuid4 params w),
     after_send now uuid4 params handler w).
Proof.
  intros Hv Hh Ha. unfold handle_task_send.
  erewrite bind_run; [|exact Hv].
  erewrite bind_run; [|exact Hh].
  erewrite bind_run; [|apply get_task_lock_run].
  erewrite bind_run; [|done].
  rewrite lock_added_tasks.
  set (t := stored_by_send now uuid4 params w).
  set (w1 := {| self :=
                  {| _tasks := <[p_id params := t]> (_tasks (self w));
                     _task_locks := {[p_id params]} ∪ _task_locks (self w);
                     kb := match _tasks (self w) !! p_id params with
                           | Some _ => kb (self w)
                           | None => bump "received" (kb (self w))
                           end;
                     router := router (self w);
                     a2a_dlq := a2a_dlq (self w) |};
                queues := queues w |}).
  assert (match _tasks (self w) !! p_id params with
          | Some t0 =>
              if negb (state_in (state (status t0)) reusable_states)
              then raise (A2AError ("Task " +:+ p_id params
                            +:+ " in invalid state "
                            +:+ state_name (state (status t0))) (-32004))
              else reuse_task now (session_id_of params uuid4) params t0
          | None => create_task now (session_id_of params uuid4) params
          end (lock_added (p_id params) w) = (Return t, w1)) as Hstore.
  { subst t w1. unfold stored_by_send. unfold accepts in Ha.
    destruct (_tasks (self w) !! p_id params) as [t0|].
    - rewrite Ha. reflexivity.
    - reflexivity. }
  erewrite bind_run; [|exact Hstore].
  unfold model_copy_deep.
  erewrite bind_run; [|apply send_try_except_full].
  erewrite bind_run; [|apply get_task_lock_run].
  unfold tasks_getitem. async_unfold. simpl.
  rewrite lookup_insert_eq. simpl. f_equal.
  unfold lock_added, after_send, after_handler, with_task_locks, kb_after_send.
  simpl. fold t. by rewrite !union_singleton_idem.
Qed.

(** ** Task manager: the parts of a streamed send *)

Lemma queue_grown_put_all q items w : queue_grown q items w (put_all q items w).
Proof.
  split; [apply queue_items_put_all|].
  intros q' Hne. unfold queue_items, put_all. simpl.
  by rewrite lookup_insert_ne.
Qed.

Lemma queue_grown_trans q xs ys w1 w2 w3 :
  queue_grown q xs w1 w2 → queue_grown q ys w2 w3 →
  queue_grown q (xs ++ ys) w1 w3.
Proof.
  intros [H1 H1'] [H2 H2']. split.
  - by rewrite H2, H1, <- app_assoc.
  - intros q' Hne. by rewrite H2', H1'.
Qed.

Lemma queue_grown_same q items w w1 w' :
  queues w1 = queues w → queue_grown q items w1 w' → queue_grown q items w w'.
Proof.
  intros Hq [H1 H2]. unfold queue_grown, queue_items in *. by rewrite <- Hq.
Qed.

Lemma queue_grown_same_r q items w w1 w' :
  queues w' = queues w1 → queue_grown q items w w1 → queue_grown q items w w'.
Proof.
  intros Hq [H1 H2]. unfold queue_grown, queue_items in *. by rewrite Hq.
Qed.

Lemma run_context_calls_full ctx q now cs w :
  _update_queue ctx = Some q →
  ∃ w', run_context_calls ctx now cs w = (Return tt, w')
        ∧ self w' = self w
        ∧ queue_grown q (map (item_of_call ctx now) cs) w w'.
Proof.
  intros Hq.
  destruct (run_context_calls_run ctx q now cs w Hq) as (w' & Hr & Hs & H1 & H2).
  by exists w'.
Qed.

Lemma subscribe_except_full tid ctx q now fa e w :
  _update_queue ctx = Some q →
  ∃ w', subscribe_except tid ctx now fa e w
        = (Return (Some (failed_status_of now e), fa), w')
        ∧ self w'
          = with_dlq (λ d, d ++ [(tid, "tasks/sendSubscribe",
                                  "Handler exception: " +:+ exc_str e)]) (self w)
        ∧ queue_grown q
            [status_event ctx now failed
               (Some ("Internal error: " +:+ exc_str e)) true] w w'.
Proof.
  intros Hq. unfold subscribe_except. async_unfold.
  rewrite (update_status_run _ q) by done. simpl.
  eexists. split; [reflexivity|]. split; [reflexivity|].
  eapply queue_grown_same_r; [|apply queue_grown_put_all]. done.
Qed.

Lemma with_dlq_nil m : with_dlq (λ d, d ++ []) m = m.
Proof. destruct m. unfold with_dlq. simpl. by rewrite app_nil_r. Qed.

Lemma subscribe_try_full handler tid ctx q now w :
  _update_queue ctx = Some q →
  let run := call handler ctx in
  ∃ w',
    subscribe_try handler tid ctx now w
    = (Return (Some (stream_final_status now run),
               match ending run with
               | inl _ => None
               | inr result => Some (artifacts_of result)
               end), w')
    ∧ self w'
      = with_dlq (λ d, d ++ match stream_verdict run with
                            | inl e => [(tid, "tasks/sendSubscribe",
                                         "Handler exception: " +:+ exc_str e)]
                            | inr _ => []
                            end) (self w)
    ∧ queue_grown q
        (status_event ctx now working (Some "Task submitted for processing...") false
         :: map (item_of_call ctx now) (context_calls run)
         ++ [stream_final_event ctx now run]) w w'.
Proof.
  intros Hq run. unfold subscribe_try.
  set (first := status_event ctx now working
                  (Some "Task submitted for processing...") false).
  set (w1 := put_all q [first] w).
  destruct (run_context_calls_full ctx q now (context_calls run) w1 Hq)
    as (w2 & Hcalls & Hself & Hgrown).
  assert (queue_grown q (first :: map (item_of_call ctx now) (context_calls run))
            w w2) as Hw2.
  { apply (queue_grown_trans q [first] _ w w1 w2); [|done].
    apply queue_grown_put_all. }
  assert (self w2 = self w) as Hs2 by (by rewrite Hself).
  (* the [except] clause, wherever it is entered *)
  assert (∀ fa e, ∃ w',
    subscribe_except tid ctx now fa e w2
    = (Return (Some (failed_status_of now e), fa), w')
    ∧ self w' = with_dlq (λ d, d ++ [(tid, "tasks/sendSubscribe",
                                      "Handler exception: " +:+ exc_str e)]) (self w)
    ∧ queue_grown q
        (first :: map (item_of_call ctx now) (context_calls run)
         ++ [status_event ctx now failed
               (Some ("Internal error: " +:+ exc_str e)) true]) w w') as Hexc.
  { intros fa e.
    destruct (subscribe_except_full tid ctx q now fa e w2 Hq) as (w3 & Hex & Hs3 & Hg3).
    exists w3. split; [done|]. split; [by rewrite Hs3, Hs2|].
    rewrite app_comm_cons. by eapply queue_grown_trans. }
  unfold stream_final_status, stream_final_event, stream_verdict.
  fold run. destruct (ending run) as [e|result] eqn:Hend.
  - destruct (Hexc None e) as (w3 & Hex & Hs3 & Hg3).
    exists w3. split; [|split; [exact Hs3|exact Hg3]].
    erewrite bind_run.
    2:{ erewrite try_except_raise.
        2:{ erewrite bind_run; [|by apply update_status_run].
            fold first w1. unfold await_, call_handler.
            erewrite bind_raise; [done|].
            erewrite bind_run; [|exact Hcalls]. fold run. by rewrite Hend. }
        erewrite fmap_run; [done|exact Hex]. }
    done.
  - erewrite bind_run.
    2:{ erewrite try_except_run; [done|].
        erewrite bind_run; [|by apply update_status_run].
        fold first w1. unfold await_, call_handler.
        erewrite bind_run; [done|].
        erewrite bind_run; [|exact Hcalls]. fold run. by rewrite Hend. }
    cbn match.
    destruct (message (final_status result)) as [m|] eqn:Hm.
    + destruct (first_part_text m) as [e|t] eqn:Hft.
      * destruct (Hexc (Some (artifacts_of result)) e) as (w3 & Hex & Hs3 & Hg3).
        exists w3. split; [|split; [exact Hs3|exact Hg3]].
        erewrite try_except_raise; [exact Hex|]. by erewrite bind_raise.
      * eexists. split.
        { erewrite try_except_run; [done|].
          erewrite bind_run; [|done].
          erewrite bind_run; [done|]. by apply update_status_run. }
        split; [simpl; by rewrite Hs2, with_dlq_nil|].
        rewrite app_comm_cons.
        eapply queue_grown_trans; [exact Hw2|apply queue_grown_put_all].
    + eexists. split.
      { erewrite try_except_run; [done|].
        erewrite bind_run; [|done].
        erewrite bind_run; [done|]. by apply update_status_run. }
      split; [simpl; by rewrite Hs2, with_dlq_nil|].
      rewrite app_comm_cons.
      eapply queue_grown_trans; [exact Hw2|apply queue_grown_put_all].
Qed.

Lemma subscribe_finally_full tid now st fa w :
  subscribe_finally tid now (Some st, fa) w
  = (Return tt,
     {| self :=
          with_kb (bump (if bool_decide (state st = completed)
                         then "completed" else "failed"))
            (with_dlq (λ d, d ++ (if bool_decide (state st = completed) then []
                                  else [(tid, "tasks/sendSubscribe",
                                         "Stream handler failed: "
                                         +:+ str_message (message st))]))
               (self w));
        queues := queues w |}).
Proof.
  unfold subscribe_finally, _add_to_dlq, get_metric, update_metric.
  async_unfold. simpl.
  destruct (bool_decide (state st = completed)); simpl; [|reflexivity].
  by rewrite with_dlq_nil.
Qed.

(** An accepted streamed send, in full. *)
Lemma handle_task_send_subscribe_full now uuid4 params q w handler :
  _validate_task_params params w = (Return tt, w) →
  _get_handler_for_task params w = (Return handler, w) →
  accepts w params = true →
  ∃ w',
    handle_task_send_subscribe now uuid4 params q w = (Return tt, w')
    ∧ self w' = manager_after_stream now uuid4 params q handler w
    ∧ queue_grown q (stream_items now uuid4 params q handler w) w w'.
Proof.
  intros Hv Hh Ha. unfold handle_task_send_subscribe.
  erewrite bind_run; [|exact Hv].
  erewrite bind_run; [|exact Hh].
  erewrite bind_run; [|apply get_task_lock_run].
  erewrite bind_run; [|done].
  rewrite lock_added_tasks.
  set (t := stored_by_send now uuid4 params w).
  set (w1 := {| self :=
                  {| _tasks := <[p_id params := t]> (_tasks (self w));
                     _task_locks := {[p_id params]} ∪ _task_locks (self w);
                     kb := match _tasks (self w) !! p_id params with
                           | Some _ => kb (self w)
                           | None => bump "received" (kb (self w))
                           end;
                     router := router (self w);
                     a2a_dlq := a2a_dlq (self w) |};
                queues := queues w |}).
  assert (match _tasks (self w) !! p_id params with
          | Some t0 =>
              if negb (state_in (state (status t0)) reusable_states)
              then
                _ ← await_ (queue_put q
                              (QueuedError
                                 (A2AError ("Task in invalid state "
                                            +:+ state_name (state (status t0)))
                                    (-32004))));
                mret None
              else Some <$> reuse_task now (session_id_of params uuid4) params t0
          | None => Some <$> create_task now (session_id_of params uuid4) params
          end (lock_added (p_id params) w) = (Return (Some t), w1)) as Hstore.
  { subst t w1. unfold stored_by_send. unfold accepts in Ha.
    destruct (_tasks (self w) !! p_id params) as [t0|].
    - rewrite Ha. reflexivity.
    - reflexivity. }
  erewrite bind_run; [|exact Hstore].
  cbn match. unfold model_copy_deep.
  set (ctx := {| task := t; _update_queue := Some q |}).
  destruct (subscribe_try_full handler (p_id params) ctx q now w1 eq_refl)
    as (w2 & Htry & Hs2 & Hg2).
  erewrite bind_run; [|exact Htry].
  rewrite subscribe_finally_full.
  eexists. split; [reflexivity|]. split.
  - simpl. rewrite Hs2.
    unfold manager_after_stream, dlq_entries_of_stream, with_kb, with_dlq.
    fold t ctx. simpl. by rewrite <- app_assoc.
  - eapply queue_grown_same_r; [|eapply queue_grown_same; [|exact Hg2]]; done.
Qed.

(** ** Task manager: every world a program can build *)

Lemma accepts_false w params :
  accepts w params = false →
  ∃ t, _tasks (self w) !! p_id params = Some t
       ∧ state_in (state (status t)) reusable_states = false.
Proof.
  unfold accepts. destruct (_tasks (self w) !! p_id params) as [t|]; [|done].
  intros Ha. by exists t.
Qed.

(** A send for a stored task that takes no message: the error, and the
    world with nothing but the lock added. *)
Lemma handle_task_send_refused_state now uuid4 params w handler t :
  _validate_task_params params w = (Return tt, w) →
  _get_handler_for_task params w = (Return handler, w) →
  _tasks (self w) !! p_id params = Some t →
  state_in (state (status t)) reusable_states = false →
  handle_task_send now uuid4 params w
  = (Raise (A2AError ("Task " +:+ p_id params +:+ " in invalid state "
                      +:+ state_name (state (status t))) (-32004)),
     lock_added (p_id params) w).
Proof.
  intros Hv Hh Ht Hs. unfold handle_task_send.
  erewrite bind_run; [|exact Hv].
  erewrite bind_run; [|exact Hh].
  erewrite bind_run; [|apply get_task_lock_run].
  erewrite bind_run; [|done].
  rewrite lock_added_tasks, Ht, Hs. reflexivity.
Qed.

Lemma handle_task_send_subscribe_refused_state now uuid4 params q w handler t :
  _validate_task_params params w = (Return tt, w) →
  _get_handler_for_task params w = (Return handler, w) →
  _tasks (self w) !! p_id params = Some t →
  state_in (state (status t)) reusable_states = false →
  handle_task_send_subscribe now uuid4 params q w
  = (Return tt,
     put_all q [QueuedError (A2AError ("Task in invalid state "
                                       +:+ state_name (state (status t)))
                               (-32004))]
       (lock_added (p_id params) w)).
Proof.
  intros Hv Hh Ht Hs. unfold handle_task_send_subscribe.
  erewrite bind_run; [|exact Hv].
  erewrite bind_run; [|exact Hh].
  erewrite bind_run; [|apply get_task_lock_run].
  erewrite bind_run; [|done].
  rewrite lock_added_tasks, Ht, Hs. reflexivity.
Qed.

(** The manager a send leaves, whatever its arguments. *)
Lemma handle_task_send_manager now uuid4 params w :
  let m' := self (handle_task_send now uuid4 params w).2 in
  m' = self w
  ∨ m' = self (routing_failed params w)
  ∨ m' = self (lock_added (p_id params) w)
  ∨ (accepts w params = true
     ∧ ∃ handler, m' = self (after_send now uuid4 params handler w)).
Proof.
  destruct (validate_task_params_cases params w) as [Hv|(e & Hv & _)].
  2:{ left. unfold handle_task_send. by erewrite bind_raise. }
  pose proof (get_handler_for_task_cases params w) as Hh.
  destruct (get_handler (skill_id_of params) (router (self w))).1
    as [[handler|]|e].
  - destruct (accepts w params) eqn:Ha.
    + right; right; right. split; [done|]. exists handler.
      by rewrite (handle_task_send_full _ _ _ _ handler).
    + destruct (accepts_false _ _ Ha) as (t & Ht & Hs).
      right; right; left.
      by rewrite (handle_task_send_refused_state _ _ _ _ handler t).
  - right; left. unfold handle_task_send.
    erewrite bind_run; [|exact Hv]. by erewrite bind_raise.
  - right; left. unfold handle_task_send.
    erewrite bind_run; [|exact Hv]. by erewrite bind_raise.
Qed.

Lemma handle_task_send_subscribe_manager now uuid4 params q w :
  let m' := self (handle_task_send_subscribe now uuid4 params q w).2 in
  m' = self w
  ∨ m' = self (routing_failed params w)
  ∨ m' = self (lock_added (p_id params) w)
  ∨ (accepts w params = true
     ∧ ∃ handler, m' = manager_after_stream now uuid4 params q handler w).
Proof.
  destruct (validate_task_params_cases params w) as [Hv|(e & Hv & _)].
  2:{ left. unfold handle_task_send_subscribe. by erewrite bind_raise. }
  pose proof (get_handler_for_task_cases params w) as Hh.
  destruct (get_handler (skill_id_of params) (router (self w))).1
    as [[handler|]|e].
  - destruct (accepts w params) eqn:Ha.
    + right; right; right. split; [done|]. exists handler.
      destruct (handle_task_send_subscribe_full now uuid4 params q w handler
                  Hv Hh Ha) as (w' & -> & Hs & _).
      done.
    + destruct (accepts_false _ _ Ha) as (t & Ht & Hs).
      right; right; left.
      by rewrite (handle_task_send_subscribe_refused_state _ _ _ _ _ handler t).
  - right; left. unfold handle_task_send_subscribe.
    erewrite bind_run; [|exact Hv]. by erewrite bind_raise.
  - right; left. unfold handle_task_send_subscribe.
    erewrite bind_run; [|exact Hv]. by erewrite bind_raise.
Qed.

Lemma handle_task_get_state task_id n w :
  (handle_task_get task_id n w).2 = lock_added task_id w.
Proof.
  unfold handle_task_get. async_unfold. rewrite get_task_lock_run. simpl.
  destruct (_tasks (self w) !! task_id); [|done].
  by repeat case_match.
Qed.

Lemma handle_task_cancel_store now task_id w :
  _tasks (self (handle_task_cancel now task_id w).2) = _tasks (self w)
  ∧ _task_locks (self (handle_task_cancel now task_id w).2)
    = {[task_id]} ∪ _task_locks (self w)
  ∧ a2a_dlq (self (handle_task_cancel now task_id w).2) = a2a_dlq (self w)
  ∧ queues (handle_task_cancel now task_id w).2 = queues w.
Proof.
  unfold handle_task_cancel.
  erewrite bind_run; [|apply get_task_lock_run].
  erewrite bind_run; [|done].
  rewrite lock_added_tasks.
  destruct (_tasks (self w) !! task_id) as [t|] eqn:Ht; [|done].
  unfold tasks_getitem, get_metric, update_metric. async_unfold.
  destruct (state_in _ _); simpl; by rewrite Ht.
Qed.

Lemma store_invariant_kept m m' :
  _tasks m' = _tasks m → _task_locks m ⊆ _task_locks m' →
  store_invariant m → store_invariant m'.
Proof.
  intros Ht Hl Hinv tid t Hlook. rewrite Ht in Hlook.
  destruct (Hinv tid t Hlook) as (? & ? & ? & ? & ? & Hin).
  repeat split; try done. by apply Hl.
Qed.

Lemma store_invariant_stored now uuid4 params w m' :
  _tasks m' = <[p_id params := stored_by_send now uuid4 params w]> (_tasks (self w)) →
  _task_locks m' = {[p_id params]} ∪ _task_locks (self w) →
  store_invariant (self w) → store_invariant m'.
Proof.
  intros Ht Hl Hinv tid t Hlook. rewrite Ht in Hlook. rewrite Hl.
  destruct (decide (tid = p_id params)) as [->|Hne].
  - rewrite lookup_insert_eq in Hlook. injection Hlook as <-.
    unfold stored_by_send.
    destruct (_tasks (self w) !! p_id params) as [t0|] eqn:Ht0.
    + destruct (Hinv _ _ Ht0) as (Hid & Hst & Ha & Hh & Hs & Hin).
      repeat split; simpl; try done; try (by eexists);
        try (by intros [_ ?]%app_eq_nil);
        try (apply elem_of_union_l; by apply elem_of_singleton).
    + repeat split; simpl; try done; try (by eexists);
        try (apply elem_of_union_l; by apply elem_of_singleton).
  - rewrite lookup_insert_ne in Hlook by done.
    destruct (Hinv _ _ Hlook) as (? & ? & ? & ? & ? & Hin).
    repeat split; try done. by apply elem_of_union_r.
Qed.

Lemma on_router_manager {A} (c : Async A2ATaskRouter A) w :
  _tasks (self (on_router c w).2) = _tasks (self w)
  ∧ _task_locks (self (on_router c w).2) = _task_locks (self w)
  ∧ a2a_dlq (self (on_router c w).2) = a2a_dlq (self w)
  ∧ kb (self (on_router c w).2) = kb (self w)
  ∧ queues (on_router c w).2 = queues w.
Proof. unfold on_router. by destruct (c (router (self w))). Qed.

(** The invariant of the store, by induction on what a program does. *)
Lemma world_reachable_store w : world_reachable w → store_invariant (self w).
Proof.
  induction 1 as [r qs|now uuid4 params w _ IH|now uuid4 params q w _ IH
                  |tid n w _ IH|now tid w _ IH|s h w _ IH|h w _ IH|qs w _ IH].
  - intros tid t Hl. simpl in Hl. by rewrite lookup_empty in Hl.
  - destruct (handle_task_send_manager now uuid4 params w)
      as [->|[->|[->|(_ & h & ->)]]]; try done.
    + eapply store_invariant_kept; [..|exact IH]; simpl; [done|].
      apply union_subseteq_r.
    + eapply store_invariant_stored; [..|exact IH]; done.
  - destruct (handle_task_send_subscribe_manager now uuid4 params q w)
      as [->|[->|[->|(_ & h & ->)]]]; try done.
    + eapply store_invariant_kept; [..|exact IH]; simpl; [done|].
      apply union_subseteq_r.
    + eapply store_invariant_stored; [..|exact IH]; done.
  - rewrite handle_task_get_state.
    eapply store_invariant_kept; [..|exact IH]; simpl; [done|].
    apply union_subseteq_r.
  - destruct (handle_task_cancel_store now tid w) as (Ht & Hl & _).
    eapply store_invariant_kept; [exact Ht| |exact IH].
    rewrite Hl. apply union_subseteq_r.
  - destruct (on_router_manager (register_handler s h) w) as (Ht & Hl & _).
    eapply store_invariant_kept; [exact Ht|by rewrite Hl|exact IH].
  - destruct (on_router_manager (register_default_handler h) w) as (Ht & Hl & _).
    eapply store_invariant_kept; [exact Ht|by rewrite Hl|exact IH].
  - done.
Qed.


(** ** Task manager: the retention sweep *)

Lemma on_base_get_task_lock task_id s :
  on_base (_get_task_lock task_id) s
  = (Return tt, with_base (with_task_locks (λ l, {[task_id]} ∪ l)) s).
Proof. unfold on_base. by rewrite get_task_lock_run. Qed.

Lemma difference_union_singleton (x : string) (X : gset string) :
  ({[x]} ∪ X) ∖ {[x]} = X ∖ {[x]}.
Proof.
  apply set_eq. intros y.
  rewrite !elem_of_difference, elem_of_union, elem_of_singleton. tauto.
Qed.

(** [_remove_task], in full. *)
Lemma remove_task_run task_id s :
  _remove_task task_id s
  = (Return tt,
     {| base := with_task_locks (λ l, l ∖ {[task_id]})
                  (with_tasks (delete task_id) (base s));
        _streaming_queues := delete task_id (_streaming_queues s);
        stream_heap :=
          match _streaming_queues s !! task_id with
          | Some q => <[q := default [] (stream_heap s !! q) ++ [None]]> (stream_heap s)
          | None => stream_heap s
          end;
        _task_max_age_seconds := _task_max_age_seconds s |}).
Proof.
  unfold _remove_task.
  erewrite bind_run; [|apply on_base_get_task_lock].
  unfold close_stream. async_unfold. simpl.
  destruct s as [[ts ls k r d] sq hp mx]. simpl.
  destruct (sq !! task_id) as [q|] eqn:Hq; simpl; f_equal.
  - unfold with_base, with_task_locks, with_tasks. simpl. do 2 f_equal.
    apply difference_union_singleton.
  - unfold with_base, with_task_locks, with_tasks. simpl. f_equal.
    + f_equal. apply difference_union_singleton.
    + symmetry. by apply delete_id.
Qed.

(** X2: [_remove_task] returns and leaves no task, no lock and no
    streaming queue under the id; a queue that was registered for the id
    gets one [None] appended, and the content of every other queue is what
    it was; the tasks, the locks and the registered queues of every other
    id, the metrics, the dead letters, the router and the retention window
    are what they were. *)
Theorem remove_task_effect (task_id : string) (s : Retention) :
  let s' := (_remove_task task_id s).2 in
  (_remove_task task_id s).1 = Return tt
  ∧ _tasks (base s') !! task_id = None
  ∧ (task_id ∉ _task_locks (base s'))
  ∧ _streaming_queues s' !! task_id = None
  ∧ (∀ q, _streaming_queues s !! task_id = Some q →
          stream_heap s' !! q = Some (default [] (stream_heap s !! q) ++ [None]))
  ∧ (∀ q, _streaming_queues s !! task_id ≠ Some q →
          stream_heap s' !! q = stream_heap s !! q)
  ∧ (∀ other, other ≠ task_id →
       _tasks (base s') !! other = _tasks (base s) !! other
       ∧ (other ∈ _task_locks (base s') ↔ other ∈ _task_locks (base s))
       ∧ _streaming_queues s' !! other = _streaming_queues s !! other)
  ∧ kb (base s') = kb (base s)
  ∧ a2a_dlq (base s') = a2a_dlq (base s)
  ∧ router (base s') = router (base s)
  ∧ _task_max_age_seconds s' = _task_max_age_seconds s.
Proof.
  rewrite remove_task_run. simpl.
  split; [done|]. split; [apply lookup_delete_eq|].
  split; [rewrite elem_of_difference, elem_of_singleton; tauto|].
  split; [apply lookup_delete_eq|].
  split; [intros q ->; apply lookup_insert_eq|].
  split.
  { intros q Hq. destruct (_streaming_queues s !! task_id) as [q0|]; [|done].
    apply lookup_insert_ne. by intros ->. }
  split; [|done].
  intros other Hne. split; [by apply lookup_delete_ne|].
  split; [|by apply lookup_delete_ne].
  rewrite elem_of_difference, elem_of_singleton. tauto.
Qed.

Lemma remove_tasks_run ids s :
  ∃ s', remove_tasks ids s = (Return tt, s')
        ∧ (∀ tid, _tasks (base s') !! tid
                  = if bool_decide (tid ∈ ids) then None
                    else _tasks (base s) !! tid)
        ∧ (∀ tid, tid ∈ _task_locks (base s')
                  ↔ tid ∈ _task_locks (base s) ∧ tid ∉ ids)
        ∧ kb (base s') = kb (base s)
        ∧ a2a_dlq (base s') = a2a_dlq (base s)
        ∧ router (base s') = router (base s)
        ∧ _task_max_age_seconds s' = _task_max_age_seconds s.
Proof.
  revert s. induction ids as [|tid0 ids IH]; intros s.
  - exists s. split; [done|].
    split; [intros tid; by rewrite bool_decide_eq_false_2 by apply not_elem_of_nil|].
    split; [|done]. intros tid.
    split; [intros ?; split; [done|apply not_elem_of_nil]|by intros [? _]].
  - simpl. erewrite bind_run.
    2:{ erewrite try_except_run; [done|]. apply remove_task_run. }
    destruct (IH {| base := with_task_locks (λ l, l ∖ {[tid0]})
                              (with_tasks (delete tid0) (base s));
                    _streaming_queues := delete tid0 (_streaming_queues s);
                    stream_heap :=
                      match _streaming_queues s !! tid0 with
                      | Some q => <[q := default [] (stream_heap s !! q) ++ [None]]>
                                    (stream_heap s)
                      | None => stream_heap s
                      end;
                    _task_max_age_seconds := _task_max_age_seconds s |})
      as (s' & Hrun & Ht & Hl & Hk & Hd & Hr & Hm).
    exists s'. split; [exact Hrun|]. simpl in *.
    split; [|split; [|done]].
    + intros tid. rewrite Ht.
      destruct (decide (tid = tid0)) as [->|Hne].
      * rewrite (bool_decide_eq_true_2 (tid0 ∈ tid0 :: ids))
          by (apply elem_of_cons; by left).
        case_bool_decide; [done|]. apply lookup_delete_eq.
      * rewrite lookup_delete_ne by done.
        case_bool_decide as Hin.
        -- rewrite bool_decide_eq_true_2; [done|]. apply elem_of_cons; by right.
        -- rewrite bool_decide_eq_false_2; [done|].
           intros [?|?]%elem_of_cons; done.
    + intros tid. rewrite Hl, elem_of_difference, elem_of_singleton, elem_of_cons.
      tauto.
Qed.

Lemma elem_of_tasks_to_remove now s tid :
  tid ∈ tasks_to_remove now s
  ↔ ∃ t, _tasks (base s) !! tid = Some t
         ∧ expired (_task_max_age_seconds s) now t = true.
Proof.
  unfold tasks_to_remove. rewrite list_elem_of_fmap. split.
  - intros ([tid' t] & -> & Hin). apply list_elem_of_filter in Hin as [He Hin].
    apply elem_of_map_to_list in Hin. by exists t.
  - intros (t & Hl & He). exists (tid, t). split; [done|].
    apply list_elem_of_filter. split; [done|]. by apply elem_of_map_to_list.
Qed.

(** X3: the sweep at time [now] returns and removes exactly the tasks that
    pass the test of its first pass ([expired]: the state is [completed],
    [failed] or [canceled], and the age in seconds, the float
    [(now - timestamp).total_seconds()], is greater than the retention
    window), with their locks; every other task, and every other lock,
    stays. *)
Theorem cleanup_removes_exactly (now : Z) (s : Retention) (task_id : string) :
  let s' := (_cleanup_old_tasks now s).2 in
  (_cleanup_old_tasks now s).1 = Return tt
  ∧ _tasks (base s') !! task_id
    = match _tasks (base s) !! task_id with
      | Some t => if expired (_task_max_age_seconds s) now t then None else Some t
      | None => None
      end
  ∧ (task_id ∈ _task_locks (base s')
     ↔ task_id ∈ _task_locks (base s)
       ∧ ¬ ∃ t, _tasks (base s) !! task_id = Some t
                ∧ expired (_task_max_age_seconds s) now t = true).
Proof.
  unfold _cleanup_old_tasks. erewrite bind_run; [|done].
  destruct (remove_tasks_run (tasks_to_remove now s) s)
    as (s' & -> & Ht & Hl & _).
  simpl. split; [done|]. split.
  - rewrite Ht. case_bool_decide as Hin.
    + apply elem_of_tasks_to_remove in Hin as (t & -> & ->). done.
    + destruct (_tasks (base s) !! task_id) as [t|] eqn:Hlook; [|done].
      destruct (expired _ now t) eqn:He; [|done].
      exfalso. apply Hin. apply elem_of_tasks_to_remove. by exists t.
  - rewrite Hl. by rewrite elem_of_tasks_to_remove.
Qed.

Lemma store_invariant_not_expired m max_age now tid t :
  store_invariant m → _tasks m !! tid = Some t → expired max_age now t = false.
Proof.
  intros Hinv Hl. destruct (Hinv tid t Hl) as (_ & Hst & _).
  unfold expired. by rewrite Hst.
Qed.

(** X4: on the manager of any world a program can build (with handlers
    that act on the manager through the calls of their context only), the
    sweep removes nothing, however old the tasks are and whatever the
    retention window is: the stored tasks are never terminal. *)
Theorem cleanup_removes_nothing (now : Z) (w : World) (s : Retention) :
  world_reachable w →
  base s = self w →
  _cleanup_old_tasks now s = (Return tt, s).
Proof.
  intros Hr Hb. apply world_reachable_store in Hr. rewrite <- Hb in Hr.
  unfold _cleanup_old_tasks. erewrite bind_run; [|done].
  assert (tasks_to_remove now s = []) as ->; [|done].
  unfold tasks_to_remove.
  assert (filter (λ it : string * A2ATask,
                    expired (_task_max_age_seconds s) now it.2 = true)
                 (map_to_list (_tasks (base s))) = []) as ->; [|done].
  apply elem_of_nil_inv.
  intros [tid t] [He Hin]%list_elem_of_filter.
  apply elem_of_map_to_list in Hin. simpl in He.
  by rewrite (store_invariant_not_expired _ _ _ _ _ Hr Hin) in He.
Qed.

Lemma cleanup_removes_nothing_witness :
  _cleanup_old_tasks 999999999999
    (Retention_init (self (handle_task_send 5 "u-1" (ask "echo") fresh_world).2))
  = (Return tt,
     Retention_init (self (handle_task_send 5 "u-1" (ask "echo") fresh_world).2)).
Proof.
  apply (cleanup_removes_nothing _
           (handle_task_send 5 "u-1" (ask "echo") fresh_world).2).
  - apply wr_send. apply wr_init.
  - reflexivity.
Defined.

(** The sweep at work on a store that holds a [failed] task stamped 3,
    with the window of [__init__], 86400 seconds: the task stays while its
    age is at most the window, and goes one microsecond later. *)
Example cleanup_boundary :
  let s := Retention_init (self world_with_failed) in
  _tasks (base (_cleanup_old_tasks (3 + 86400 * 1000000) s).2) !! "t1"
    = _tasks (base s) !! "t1"
  ∧ _tasks (base (_cleanup_old_tasks (3 + 86400 * 1000000 + 1) s).2) !! "t1"
    = None.
Proof. split; vm_compute; reflexivity. Qed.

(** The age is a float: with a window of 10^11 seconds an age of up to 7
    microseconds more is rounded to the window and the task is kept; an age
    of 8 microseconds more is rounded to the next float and the task goes.
    With the window of [__init__] one microsecond decides. *)
Example age_is_rounded :
  older_than 100000000000 100000000000000001 0 = false
  ∧ older_than 100000000000 100000000000000007 0 = false
  ∧ older_than 100000000000 100000000000000008 0 = true
  ∧ older_than 86400 86400000000 0 = false
  ∧ older_than 86400 86400000001 0 = true.
Proof. repeat split; vm_compute; reflexivity. Qed.

(** ** Task manager: routing failures and refused tasks *)

Lemma get_handler_none skill_id r :
  _default_handler r = None →
  (∀ s, skill_id = Some s → s ≠ "" → _handlers r !! s = None) →
  get_handler skill_id r = (Return None, r).
Proof.
  intros Hd Hs. unfold get_handler. async_unfold.
  destruct skill_id as [s|]; [|by rewrite Hd].
  destruct s as [|c s'] eqn:Es; [by rewrite Hd|].
  rewrite bool_decide_eq_false_2; [by rewrite Hd|].
  intros [x Hx]%elem_of_dom. by rewrite Hs in Hx.
Qed.

(** X5: a send, plain or streamed, whose parameters validate and whose
    [skill_id] is a string or absent (the metadata of the embedding), but
    for which the router has neither a handler for the skill nor a default
    handler, raises [A2AError] -32601 and adds one dead-letter entry, with
    the method "tasks/send" in both cases; the store, the locks, the
    counters and the queues stay as they were. *)
Theorem no_handler_is_dead_lettered (now : Z) (uuid4 : string)
    (params : A2ATaskSendParams) (q : nat) (w : World) :
  _validate_task_params params w = (Return tt, w) →
  _default_handler (router (self w)) = None →
  (∀ s, skill_id_of params = Some s → s ≠ "" →
        _handlers (router (self w)) !! s = None) →
  let e := A2AError ("No suitable agent handler found for skill '"
                     +:+ str_ostr (skill_id_of params) +:+ "'") (-32601) in
  handle_task_send now uuid4 params w = (Raise e, routing_failed params w)
  ∧ handle_task_send_subscribe now uuid4 params q w
    = (Raise e, routing_failed params w).
Proof.
  intros Hv Hd Hs e.
  assert (_get_handler_for_task params w = (Raise e, routing_failed params w))
    as Hh.
  { rewrite get_handler_for_task_cases. by rewrite get_handler_none. }
  split.
  - unfold handle_task_send. erewrite bind_run; [|exact Hv].
    by erewrite bind_raise.
  - unfold handle_task_send_subscribe. erewrite bind_run; [|exact Hv].
    by erewrite bind_raise.
Qed.

Lemma no_handler_is_dead_lettered_witness :
  let e := A2AError ("No suitable agent handler found for skill '"
                     +:+ str_ostr (skill_id_of (ask "nobody")) +:+ "'") (-32601) in
  handle_task_send 5 "u-1" (ask "nobody") fresh_world
  = (Raise e, routing_failed (ask "nobody") fresh_world)
  ∧ handle_task_send_subscribe 5 "u-1" (ask "nobody") 0 fresh_world
    = (Raise e, routing_failed (ask "nobody") fresh_world).
Proof.
  apply (no_handler_is_dead_lettered 5 "u-1" (ask "nobody") 0%nat fresh_world).
  - vm_compute. reflexivity.
  - vm_compute. reflexivity.
  - intros s Hs _. vm_compute in Hs. injection Hs as <-. vm_compute. reflexivity.
Defined.

(** X6: a send for a stored task in state [failed] or [unknown], with
    valid parameters and a handler, never runs the handler.  The plain send
    raises [A2AError] -32004; the streamed send returns and puts one
    [A2AError] -32004 on the queue and no status event.  Apart from the
    lock of the task (and that queue item) the world stays as it was. *)
Theorem refused_task_untouched (now : Z) (uuid4 : string)
    (params : A2ATaskSendParams) (q : nat) (w : World) (handler : Callable)
    (t : A2ATask) :
  _validate_task_params params w = (Return tt, w) →
  _get_handler_for_task params w = (Return handler, w) →
  _tasks (self w) !! p_id params = Some t →
  state (status t) = failed ∨ state (status t) = unknown →
  handle_task_send now uuid4 params w
  = (Raise (A2AError ("Task " +:+ p_id params +:+ " in invalid state "
                      +:+ state_name (state (status t))) (-32004)),
     lock_added (p_id params) w)
  ∧ handle_task_send_subscribe now uuid4 params q w
    = (Return tt,
       put_all q [QueuedError (A2AError ("Task in invalid state "
                                         +:+ state_name (state (status t)))
                                 (-32004))]
         (lock_added (p_id params) w)).
Proof.
  intros Hv Hh Ht Hst.
  assert (state_in (state (status t)) reusable_states = false) as Hs
    by (by destruct Hst as [-> | ->]).
  split.
  - by eapply handle_task_send_refused_state.
  - by eapply handle_task_send_subscribe_refused_state.
Qed.

Lemma refused_task_untouched_witness :
  handle_task_send 5 "u-1" (ask "echo") world_with_failed
  = (Raise (A2AError ("Task " +:+ p_id (ask "echo") +:+ " in invalid state "
                      +:+ state_name failed) (-32004)),
     lock_added (p_id (ask "echo")) world_with_failed)
  ∧ handle_task_send_subscribe 5 "u-1" (ask "echo") 0 world_with_failed
    = (Return tt,
       put_all 0 [QueuedError (A2AError ("Task in invalid state "
                                         +:+ state_name failed) (-32004))]
         (lock_added (p_id (ask "echo")) world_with_failed)).
Proof.
  apply (refused_task_untouched 5 "u-1" (ask "echo") 0%nat world_with_failed echo
           (set_status {| state := failed; message := None; timestamp := 3 |}
              (t1_working "echo"))).
  - vm_compute. reflexivity.
  - vm_compute. reflexivity.
  - vm_compute. reflexivity.
  - left. reflexivity.
Defined.

(** ** Task manager: accepted sends *)

(** X7: an accepted send appends its message to the history of the task,
    after the messages already there (a new task starts with that message
    alone), keeps the artifacts, leaves every other task as it is, and a
    read with a positive [history_length] then returns the stored record
    with the last messages of that history. *)
Theorem send_appends_to_history (now : Z) (uuid4 : string)
    (params : A2ATaskSendParams) (w : World) (handler : Callable) (n : Z) :
  _validate_task_params params w = (Return tt, w) →
  _get_handler_for_task params w = (Return handler, w) →
  accepts w params = true →
  0 < n →
  ∃ t w',
    handle_task_send now uuid4 params w = (Return t, w')
    ∧ history t
      = default [] (history <$> _tasks (self w) !! p_id params)
        ++ [p_message params]
    ∧ artifacts t = default [] (artifacts <$> _tasks (self w) !! p_id params)
    ∧ _tasks (self w') !! p_id params = Some t
    ∧ (∀ other, other ≠ p_id params →
                _tasks (self w') !! other = _tasks (self w) !! other)
    ∧ (handle_task_get (p_id params) n w').1
      = Return (set_history (last_n (Z.to_nat n) (history t)) t).
Proof.
  intros Hv Hh Ha Hn. eexists _, _.
  split; [by apply handle_task_send_full|].
  assert (_tasks (self (after_send now uuid4 params handler w)) !! p_id params
          = Some (stored_by_send now uuid4 params w)) as Hl
    by apply lookup_insert_eq.
  repeat split.
  - unfold stored_by_send. by destruct (_tasks (self w) !! p_id params).
  - unfold stored_by_send. by destruct (_tasks (self w) !! p_id params).
  - exact Hl.
  - intros other Hne. simpl. by rewrite lookup_insert_ne.
  - by rewrite (handle_task_get_positive _ _ _ _ Hl Hn).
Qed.

Lemma send_appends_to_history_witness :
  ∃ t w',
    handle_task_send 6 "u-2" (ask "echo")
      (handle_task_send 5 "u-1" (ask "boom") fresh_world).2 = (Return t, w')
    ∧ history t
      = default [] (history <$> _tasks (self
            (handle_task_send 5 "u-1" (ask "boom") fresh_world).2)
                                  !! p_id (ask "echo"))
        ++ [p_message (ask "echo")]
    ∧ artifacts t
      = default [] (artifacts <$> _tasks (self
            (handle_task_send 5 "u-1" (ask "boom") fresh_world).2)
                                    !! p_id (ask "echo"))
    ∧ _tasks (self w') !! p_id (ask "echo") = Some t
    ∧ (∀ other, other ≠ p_id (ask "echo") →
                _tasks (self w') !! other
                = _tasks (self (handle_task_send 5 "u-1" (ask "boom")
                                  fresh_world).2) !! other)
    ∧ (handle_task_get (p_id (ask "echo")) 1 w').1
      = Return (set_history (last_n (Z.to_nat 1) (history t)) t).
Proof.
  apply (send_appends_to_history 6 "u-2" (ask "echo")
           (handle_task_send 5 "u-1" (ask "boom") fresh_world).2 echo 1).
  - vm_compute. reflexivity.
  - vm_compute. reflexivity.
  - vm_compute. reflexivity.
  - lia.
Defined.

Lemma lookup_bump name name' k :
  default 0 (bump name' k !! ("a2a_tasks", name))
  = default 0 (k !! ("a2a_tasks", name))
    + (if bool_decide (name = name') then 1 else 0).
Proof.
  unfold bump. case_bool_decide as Hn.
  - subst. by rewrite lookup_insert_eq.
  - rewrite lookup_insert_ne; [lia|]. congruence.
Qed.

(** X8: the counters after an accepted plain send.  [received] grows by
    one exactly when the task is new; [completed] grows by one exactly when
    the handler returns [completed]; [failed] grows by one exactly when the
    handler raises or returns [failed]; a handler that returns any other
    state moves neither of the two. *)
Theorem send_counters (now : Z) (uuid4 : string)
    (params : A2ATaskSendParams) (w : World) (handler : Callable) :
  _validate_task_params params w = (Return tt, w) →
  _get_handler_for_task params w = (Return handler, w) →
  accepts w params = true →
  let run := call handler {| task := stored_by_send now uuid4 params w;
                             _update_queue := None |} in
  let m' := self (handle_task_send now uuid4 params w).2 in
  counter "received" m'
  = counter "received" (self w)
    + (if bool_decide (_tasks (self w) !! p_id params = None) then 1 else 0)
  ∧ counter "completed" m'
    = counter "completed" (self w) + (if ended_completed run then 1 else 0)
  ∧ counter "failed" m'
    = counter "failed" (self w) + (if ended_failed run then 1 else 0).
Proof.
  intros Hv Hh Ha run m'. subst m'.
  rewrite (handle_task_send_full _ _ _ _ handler) by done.
  unfold after_send, counter. simpl. fold run.
  unfold kb_after_send, kb_after_run, ended_completed, ended_failed.
  fold run.
  destruct (_tasks (self w) !! p_id params) as [t0|];
    destruct (ending run) as [e|result];
    try destruct (state (final_status result));
    rewrite ?lookup_bump; cbn; repeat split;
    repeat case_bool_decide; try done; lia.
Qed.

Lemma send_counters_witness :
  let run := call boom {| task := stored_by_send 5 "u-1" (ask "boom") fresh_world;
                          _update_queue := None |} in
  let m' := self (handle_task_send 5 "u-1" (ask "boom") fresh_world).2 in
  counter "received" m'
  = counter "received" (self fresh_world)
    + (if bool_decide (_tasks (self fresh_world) !! p_id (ask "boom") = None)
       then 1 else 0)
  ∧ counter "completed" m'
    = counter "completed" (self fresh_world)
      + (if ended_completed run then 1 else 0)
  ∧ counter "failed" m'
    = counter "failed" (self fresh_world) + (if ended_failed run then 1 else 0).
Proof.
  apply (send_counters 5 "u-1" (ask "boom") fresh_world boom).
  - vm_compute. reflexivity.
  - vm_compute. reflexivity.
  - vm_compute. reflexivity.
Defined.

(** X9: a plain send never touches a queue, whatever its arguments and
    whatever its handler calls on the context: outside a stream
    [update_status] and [yield_artifact] do nothing. *)
Theorem plain_send_touches_no_queue (now : Z) (uuid4 : string)
    (params : A2ATaskSendParams) (w : World) :
  queues (handle_task_send now uuid4 params w).2 = queues w.
Proof.
  destruct (validate_task_params_cases params w) as [Hv|(e & Hv & _)].
  2:{ unfold handle_task_send. erewrite bind_raise; [|exact Hv]. done. }
  pose proof (get_handler_for_task_cases params w) as Hh.
  destruct (get_handler (skill_id_of params) (router (self w))).1
    as [[handler|]|e].
  - destruct (accepts w params) eqn:Ha.
    + by rewrite (handle_task_send_full _ _ _ _ handler).
    + destruct (accepts_false _ _ Ha) as (t & Ht & Hs).
      by rewrite (handle_task_send_refused_state _ _ _ _ handler t).
  - unfold handle_task_send.
    erewrite bind_run; [|exact Hv].
    erewrite bind_raise; [|exact Hh]. done.
  - unfold handle_task_send.
    erewrite bind_run; [|exact Hv].
    erewrite bind_raise; [|exact Hh]. done.
Qed.

(** ** Task manager: accepted streamed sends *)

(** X10: what an accepted streamed send puts on its queue and stores.  The
    queue gets, in this order, the manager's [working] event, one item for
    every context call of the handler, and one final event; no other queue
    changes; the store holds the record of the task in state [working]. *)
Theorem streamed_send_items (now : Z) (uuid4 : string)
    (params : A2ATaskSendParams) (q : nat) (w : World) (handler : Callable) :
  _validate_task_params params w = (Return tt, w) →
  _get_handler_for_task params w = (Return handler, w) →
  accepts w params = true →
  let ctx := {| task := stored_by_send now uuid4 params w;
                _update_queue := Some q |} in
  ∃ w',
    handle_task_send_subscribe now uuid4 params q w = (Return tt, w')
    ∧ queue_items w' q
      = queue_items w q
        ++ status_event ctx now working
             (Some "Task submitted for processing...") false
        :: map (item_of_call ctx now) (context_calls (call handler ctx))
        ++ [stream_final_event ctx now (call handler ctx)]
    ∧ (∀ q', q' ≠ q → queue_items w' q' = queue_items w q')
    ∧ _tasks (self w')
      = <[p_id params := stored_by_send now uuid4 params w]> (_tasks (self w)).
Proof.
  intros Hv Hh Ha ctx.
  destruct (handle_task_send_subscribe_full now uuid4 params q w handler Hv Hh Ha)
    as (w' & Hrun & Hs & Hg1 & Hg2).
  exists w'. split; [exact Hrun|]. split; [exact Hg1|]. split; [exact Hg2|].
  by rewrite Hs.
Qed.

Lemma streamed_send_items_witness :
  let ctx := {| task := stored_by_send 5 "u-1" (ask "asking") wide_world;
                _update_queue := Some 0%nat |} in
  ∃ w',
    handle_task_send_subscribe 5 "u-1" (ask "asking") 0 wide_world
    = (Return tt, w')
    ∧ queue_items w' 0
      = queue_items wide_world 0
        ++ status_event ctx 5 working
             (Some "Task submitted for processing...") false
        :: map (item_of_call ctx 5) (context_calls (call asking ctx))
        ++ [stream_final_event ctx 5 (call asking ctx)]
    ∧ (∀ q', q' ≠ 0%nat → queue_items w' q' = queue_items wide_world q')
    ∧ _tasks (self w')
      = <[p_id (ask "asking") := stored_by_send 5 "u-1" (ask "asking") wide_world]>
          (_tasks (self wide_world)).
Proof.
  apply (streamed_send_items 5 "u-1" (ask "asking") 0%nat wide_world asking).
  - vm_compute. reflexivity.
  - vm_compute. reflexivity.
  - vm_compute. reflexivity.
Defined.

(** X11: an accepted streamed send whose handler raises leaves two
    dead-letter entries for the task, both with the method
    "tasks/sendSubscribe": one of the [except] clause, with the text of the
    exception, and one of the [finally] clause, whose reason starts with
    "Stream handler failed: "; it counts one failure and no completion. *)
Theorem streamed_raise_two_entries (now : Z) (uuid4 : string)
    (params : A2ATaskSendParams) (q : nat) (w : World) (handler : Callable)
    (e : PyExc) :
  _validate_task_params params w = (Return tt, w) →
  _get_handler_for_task params w = (Return handler, w) →
  accepts w params = true →
  ending (call handler {| task := stored_by_send now uuid4 params w;
                          _update_queue := Some q |}) = inl e →
  let m' := self (handle_task_send_subscribe now uuid4 params q w).2 in
  (∃ printed,
     a2a_dlq m'
     = a2a_dlq (self w)
       ++ [(p_id params, "tasks/sendSubscribe",
            "Handler exception: " +:+ exc_str e);
           (p_id params, "tasks/sendSubscribe",
            "Stream handler failed: " +:+ printed)])
  ∧ counter "failed" m' = counter "failed" (self w) + 1
  ∧ counter "completed" m' = counter "completed" (self w).
Proof.
  intros Hv Hh Ha He m'. subst m'.
  destruct (handle_task_send_subscribe_full now uuid4 params q w handler Hv Hh Ha)
    as (w' & Hrun & Hs & _).
  rewrite Hrun. simpl. rewrite Hs.
  unfold manager_after_stream, dlq_entries_of_stream, stream_final_status,
    stream_verdict, counter. simpl. rewrite He. simpl.
  split; [by eexists|].
  destruct (_tasks (self w) !! p_id params);
    rewrite ?lookup_bump; split; repeat case_bool_decide; try done; lia.
Qed.

Lemma streamed_raise_two_entries_witness :
  let m' := self (handle_task_send_subscribe 5 "u-1" (ask "boom") 0 fresh_world).2 in
  (∃ printed,
     a2a_dlq m'
     = a2a_dlq (self fresh_world)
       ++ [(p_id (ask "boom"), "tasks/sendSubscribe",
            "Handler exception: "
            +:+ exc_str (Exc (Exception_ "RuntimeError") "boom"));
           (p_id (ask "boom"), "tasks/sendSubscribe",
            "Stream handler failed: " +:+ printed)])
  ∧ counter "failed" m' = counter "failed" (self fresh_world) + 1
  ∧ counter "completed" m' = counter "completed" (self fresh_world).
Proof.
  apply (streamed_raise_two_entries 5 "u-1" (ask "boom") 0%nat fresh_world boom).
  - vm_compute. reflexivity.
  - vm_compute. reflexivity.
  - vm_compute. reflexivity.
  - vm_compute. reflexivity.
Defined.

(** X12: a handler that returns a state other than [completed] and
    [failed] (say [input-required]), with no status message.  The plain
    send counts nothing and dead-letters nothing for it; the streamed send
    counts a failure and adds a dead-letter entry. *)
Theorem other_state_plain_and_streamed (now : Z) (uuid4 : string)
    (params : A2ATaskSendParams) (q : nat) (w : World) (handler : Callable)
    (result : A2ATaskResult) :
  _validate_task_params params w = (Return tt, w) →
  _get_handler_for_task params w = (Return handler, w) →
  accepts w params = true →
  ending (call handler {| task := stored_by_send now uuid4 params w;
                          _update_queue := None |}) = inr result →
  ending (call handler {| task := stored_by_send now uuid4 params w;
                          _update_queue := Some q |}) = inr result →
  message (final_status result) = None →
  state (final_status result) ≠ completed →
  state (final_status result) ≠ failed →
  let plain := self (handle_task_send now uuid4 params w).2 in
  let streamed := self (handle_task_send_subscribe now uuid4 params q w).2 in
  a2a_dlq plain = a2a_dlq (self w)
  ∧ counter "failed" plain = counter "failed" (self w)
  ∧ counter "completed" plain = counter "completed" (self w)
  ∧ a2a_dlq streamed
    = a2a_dlq (self w)
      ++ [(p_id params, "tasks/sendSubscribe", "Stream handler failed: None")]
  ∧ counter "failed" streamed = counter "failed" (self w) + 1
  ∧ counter "completed" streamed = counter "completed" (self w).
Proof.
  intros Hv Hh Ha Hp Hs Hm Hc Hf plain streamed. subst plain streamed.
  rewrite (handle_task_send_full _ _ _ _ handler) by done.
  destruct (handle_task_send_subscribe_full now uuid4 params q w handler Hv Hh Ha)
    as (w' & Hrun & Hself & _).
  rewrite Hrun. simpl. rewrite Hself.
  unfold manager_after_stream, dlq_entries_of_stream, stream_final_status,
    stream_verdict, dlq_entries_of_send, kb_after_send, kb_after_run, counter.
  simpl. rewrite Hp, Hs, Hm. simpl. rewrite Hm.
  rewrite (bool_decide_eq_false_2 _ Hc). simpl.
  destruct (state (final_status result)); try done;
    (split; [by rewrite app_nil_r|]);
    destruct (_tasks (self w) !! p_id params);
    rewrite ?lookup_bump; repeat split; repeat case_bool_decide; try done; lia.
Qed.

Lemma other_state_plain_and_streamed_witness :
  let plain := self (handle_task_send 5 "u-1" (ask "asking") wide_world).2 in
  let streamed :=
    self (handle_task_send_subscribe 5 "u-1" (ask "asking") 0 wide_world).2 in
  a2a_dlq plain = a2a_dlq (self wide_world)
  ∧ counter "failed" plain = counter "failed" (self wide_world)
  ∧ counter "completed" plain = counter "completed" (self wide_world)
  ∧ a2a_dlq streamed
    = a2a_dlq (self wide_world)
      ++ [(p_id (ask "asking"), "tasks/sendSubscribe",
           "Stream handler failed: None")]
  ∧ counter "failed" streamed = counter "failed" (self wide_world) + 1
  ∧ counter "completed" streamed = counter "completed" (self wide_world).
Proof.
  apply (other_state_plain_and_streamed 5 "u-1" (ask "asking") 0%nat wide_world
           asking
           {| final_status := {| state := input_required; message := None;
                                 timestamp := 7 |};
              artifacts_of := [] |}).
  - vm_compute. reflexivity.
  - vm_compute. reflexivity.
  - vm_compute. reflexivity.
  - reflexivity.
  - reflexivity.
  - reflexivity.
  - discriminate.
  - discriminate.
Defined.

Lemma first_part_text_not_text m :
  (∀ t rest, msg_parts m ≠ A2ATextPart t :: rest) →
  ∃ e, first_part_text m = inl e.
Proof.
  intros Hm. unfold first_part_text.
  destruct (msg_parts m) as [|[t|f|d] rest]; try by eexists.
  by destruct (Hm t rest).
Qed.

(** X13: a handler that returns, with a status message whose first part is
    not a text part (or that has no part), ends an accepted streamed send
    like a handler that raises: the last item on the queue is a final
    status event in state [failed], a failure is counted and no completion,
    even when the handler returned [completed]. *)
Theorem streamed_message_without_text (now : Z) (uuid4 : string)
    (params : A2ATaskSendParams) (q : nat) (w : World) (handler : Callable)
    (result : A2ATaskResult) (m : A2AMessage) :
  _validate_task_params params w = (Return tt, w) →
  _get_handler_for_task params w = (Return handler, w) →
  accepts w params = true →
  ending (call handler {| task := stored_by_send now uuid4 params w;
                          _update_queue := Some q |}) = inr result →
  message (final_status result) = Some m →
  (∀ t rest, msg_parts m ≠ A2ATextPart t :: rest) →
  let w' := (handle_task_send_subscribe now uuid4 params q w).2 in
  (∃ ev, last (queue_items w' q) = Some (StatusUpdate ev)
         ∧ final ev = true ∧ state (ev_status ev) = failed)
  ∧ counter "failed" (self w') = counter "failed" (self w) + 1
  ∧ counter "completed" (self w') = counter "completed" (self w).
Proof.
  intros Hv Hh Ha He Hm Hnt w'. subst w'.
  destruct (first_part_text_not_text m Hnt) as [e Hft].
  destruct (handle_task_send_subscribe_full now uuid4 params q w handler Hv Hh Ha)
    as (w' & Hrun & Hself & Hg & _).
  rewrite Hrun. simpl. split.
  - rewrite Hg. unfold stream_items, stream_final_event, stream_verdict.
    rewrite He, Hm, Hft. rewrite app_comm_cons, (assoc_L (++)), last_snoc.
    unfold status_event. eexists. split; [reflexivity|]. done.
  - rewrite Hself.
    unfold manager_after_stream, stream_final_status, stream_verdict, counter.
    simpl. rewrite He, Hm, Hft. simpl.
    destruct (_tasks (self w) !! p_id params);
      rewrite ?lookup_bump; split; repeat case_bool_decide; try done; lia.
Qed.

Lemma streamed_message_without_text_witness :
  let w' := (handle_task_send_subscribe 5 "u-1" (ask "reporting") 0 wide_world).2 in
  (∃ ev, last (queue_items w' 0) = Some (StatusUpdate ev)
         ∧ final ev = true ∧ state (ev_status ev) = failed)
  ∧ counter "failed" (self w') = counter "failed" (self wide_world) + 1
  ∧ counter "completed" (self w') = counter "completed" (self wide_world).
Proof.
  apply (streamed_message_without_text 5 "u-1" (ask "reporting") 0%nat wide_world
           reporting
           {| final_status :=
                {| state := completed;
                   message := Some {| msg_role := agent;
                                      msg_parts := [A2ADataPart {[ "k" := "v" ]};
                                                    A2ATextPart "done"];
                                      msg_metadata := None |};
                   timestamp := 7 |};
              artifacts_of := [] |}
           {| msg_role := agent;
              msg_parts := [A2ADataPart {[ "k" := "v" ]}; A2ATextPart "done"];
              msg_metadata := None |}).
  - vm_compute. reflexivity.
  - vm_compute. reflexivity.
  - vm_compute. reflexivity.
  - reflexivity.
  - reflexivity.
  - intros t rest. simpl. discriminate.
Defined.

(** ** Task manager: reads *)

Lemma handle_task_get_result task_id n w :
  (handle_task_get task_id n w).1
  = match _tasks (self w) !! task_id with
    | None => Raise (A2AError ("Task " +:+ task_id +:+ " not found") (-32001))
    | Some t =>
        Return (if (0 <=? n) && truthy_list (history t)
                then set_history (py_slice_from (- n) (history t)) t
                else if n =? 0 then set_history [] t else t)
    end.
Proof.
  unfold handle_task_get. async_unfold. rewrite get_task_lock_run. simpl.
  destruct (_tasks (self w) !! task_id) as [t|]; [|done].
  unfold model_copy_deep. by repeat case_match.
Qed.

(** X1: whatever a program does with the manager and its router, with
    handlers that act on the manager through the calls of their context
    only, every task in the store is in state [working] with no status
    message, has no artifact, has at least one message in its history,
    carries its key as its id, has a session id and has a lock: no
    operation ever stores a terminal status or an artifact.  So no read
    ever returns a task that is completed, failed or canceled, or a task
    with an artifact. *)
Theorem reachable_store_invariant (w : World) :
  world_reachable w →
  store_invariant (self w)
  ∧ ∀ task_id n t,
      (handle_task_get task_id n w).1 = Return t →
      id t = task_id ∧ state (status t) = working
      ∧ message (status t) = None ∧ artifacts t = [].
Proof.
  intros Hr. pose proof (world_reachable_store w Hr) as Hinv.
  split; [done|]. intros task_id n t. rewrite handle_task_get_result.
  destruct (_tasks (self w) !! task_id) as [t0|] eqn:Ht0; [|done].
  destruct (Hinv task_id t0 Ht0) as (Hid & Hst & Ha & _).
  intros [= <-].
  assert (∀ h, id (set_history h t0) = task_id
               ∧ state (status (set_history h t0)) = working
               ∧ message (status (set_history h t0)) = None
               ∧ artifacts (set_history h t0) = []) as Hset.
  { intros h. simpl. by rewrite Hst. }
  repeat case_match; try apply Hset.
  rewrite Hst. simpl. done.
Qed.

Lemma reachable_store_invariant_witness :
  store_invariant (self (handle_task_send 5 "u-1" (ask "echo") fresh_world).2)
  ∧ ∀ task_id n t,
      (handle_task_get task_id n
         (handle_task_send 5 "u-1" (ask "echo") fresh_world).2).1 = Return t →
      id t = task_id ∧ state (status t) = working
      ∧ message (status t) = None ∧ artifacts t = [].
Proof.
  apply reachable_store_invariant. apply wr_send. apply wr_init.
Defined.

(** X14: reads do not disturb one another: whatever was read before, of
    this task or of another, a read returns what it would have returned
    without it; in particular two reads in a row return the same. *)
Theorem reads_do_not_interfere (w : World) (task_id task_id' : string)
    (n n' : Z) :
  (handle_task_get task_id n (handle_task_get task_id' n' w).2).1
  = (handle_task_get task_id n w).1.
Proof. by rewrite !handle_task_get_result, handle_task_get_state. Qed.

Lemma last_n_all {A} (n : nat) (l : list A) :
  (length l ≤ n)%nat → last_n n l = l.
Proof.
  intros Hn. unfold last_n.
  replace (length l - n)%nat with 0%nat by lia. done.
Qed.

(** X15: the window of a read of a stored task.  A negative
    [history_length] returns the whole history; a positive one returns the
    last [history_length] messages, which is the whole history when it has
    no more than that; the rest of the record is returned as stored. *)
Theorem handle_task_get_window (w : World) (task_id : string) (t : A2ATask)
    (n : Z) :
  _tasks (self w) !! task_id = Some t →
  n ≠ 0 →
  (handle_task_get task_id n w).1
  = Return (set_history (if n <? 0 then history t
                         else last_n (Z.to_nat n) (history t)) t)
  ∧ (n < 0 ∨ Z.of_nat (length (history t)) ≤ n →
     (handle_task_get task_id n w).1 = Return t).
Proof.
  intros Ht Hn. rewrite handle_task_get_result, Ht. clear Ht.
  destruct t as [i s st h a md]. unfold set_history. simpl.
  destruct (Z.ltb_spec n 0) as [Hneg|Hpos].
  - destruct (Z.leb_spec 0 n) as [?|_]; [lia|].
    destruct (Z.eqb_spec n 0) as [?|_]; [lia|]. simpl. split; done.
  - destruct (Z.leb_spec 0 n) as [_|?]; [|lia]. simpl.
    assert (0 < n) as Hn' by lia.
    destruct h as [|m h]; simpl.
    + destruct (Z.eqb_spec n 0) as [?|_]; [lia|].
      unfold last_n. rewrite drop_nil. split; done.
    + rewrite py_slice_from_neg by done. split; [done|].
      intros [?|Hlen]; [lia|].
      by rewrite last_n_all by (simpl in *; lia).
Qed.

Lemma handle_task_get_window_witness :
  (handle_task_get "t1" 7 (handle_task_send 5 "u-1" (ask "echo") fresh_world).2).1
  = Return (set_history (if 7 <? 0 then history (t1_working "echo")
                         else last_n (Z.to_nat 7) (history (t1_working "echo")))
              (t1_working "echo"))
  ∧ (7 < 0 ∨ Z.of_nat (length (history (t1_working "echo"))) ≤ 7 →
     (handle_task_get "t1" 7
        (handle_task_send 5 "u-1" (ask "echo") fresh_world).2).1
     = Return (t1_working "echo")).
Proof.
  apply (handle_task_get_window
           (handle_task_send 5 "u-1" (ask "echo") fresh_world).2 "t1"
           (t1_working "echo") 7).
  - vm_compute. reflexivity.
  - lia.
Defined.

(** ** Task context *)

Lemma parts_partition (ps : list A2APart) :
  ps ≡ₚ (A2ATextPart <$> omap (λ part, match part with
                                       | A2ATextPart t => Some t | _ => None
                                       end) ps)
        ++ (A2AFilePart <$> omap (λ part, match part with
                                          | A2AFilePart f => Some f | _ => None
                                          end) ps)
        ++ (A2ADataPart <$> omap (λ part, match part with
                                          | A2ADataPart d => Some d | _ => None
                                          end) ps).
Proof.
  induction ps as [|[t|f|d] ps IH]; [done| | |]; simpl.
  - by apply Permutation_skip.
  - rewrite IH at 1. apply Permutation_middle.
  - rewrite IH at 1. rewrite !(assoc_L (++)). apply Permutation_middle.
Qed.

(** X16: the three part accessors of a context split the parts of the
    incoming message, the last of the history: every part is in exactly one
    of the three results, and nothing else is. *)
Theorem context_parts_partition (ctx : A2ATaskContext) (h : list A2AMessage)
    (m : A2AMessage) :
  history (task ctx) = h ++ [m] →
  msg_parts m
  ≡ₚ (A2ATextPart <$> get_text_parts ctx)
     ++ (A2AFilePart <$> get_file_parts ctx)
     ++ (A2ADataPart <$> get_data_parts ctx).
Proof.
  intros Hh. unfold get_text_parts, get_file_parts, get_data_parts,
    incoming_message. rewrite Hh, last_snoc. apply parts_partition.
Qed.

Lemma context_parts_partition_witness :
  msg_parts {| msg_role := user;
               msg_parts :=
                 [A2ADataPart {[ "k" := "v" ]}; A2ATextPart "a";
                  A2AFilePart {| file_name := Some "f"; file_mimeType := None;
                                 file_bytes := None;
                                 file_uri := Some "https://x/f" |};
                  A2ATextPart "b"];
               msg_metadata := None |}
  ≡ₚ (A2ATextPart <$> get_text_parts mixed_context)
     ++ (A2AFilePart <$> get_file_parts mixed_context)
     ++ (A2ADataPart <$> get_data_parts mixed_context).
Proof.
  apply (context_parts_partition mixed_context [p_message (ask "echo")]).
  reflexivity.
Defined.

(** X17: a file without inline bytes is never turned into bytes.
    [process_file_part] raises for it whatever [b64decode] does, and for a
    file part that passed [_validate_task_params] the exception is
    [NotImplementedError]: a URI passes validation and cannot be
    processed. *)
Theorem file_without_bytes_not_processed (b64decode : string → PyExc + list Z)
    (str_int : Z → string) (file : A2AFile) (max_size_bytes : Z) :
  truthy_ostr (file_bytes file) = false →
  ∃ e, process_file_part b64decode str_int file max_size_bytes = inl e
       ∧ (validate_part (A2AFilePart file) = None →
          exc_class e = Exception_ "NotImplementedError").
Proof.
  intros Hb. unfold process_file_part, validate_part. rewrite Hb.
  remember (startswith_any ["http://"; "https://"] (default "" (file_uri file)))
    as sw.
  destruct (truthy_ostr (file_uri file)), sw; simpl;
    eexists; (split; [reflexivity|]); done.
Qed.

Lemma file_without_bytes_not_processed_witness :
  ∃ e, process_file_part toy_b64decode toy_str_int
         {| file_name := Some "f"; file_mimeType := None; file_bytes := None;
            file_uri := Some "https://x/f" |} 100 = inl e
       ∧ (validate_part (A2AFilePart
            {| file_name := Some "f"; file_mimeType := None; file_bytes := None;
               file_uri := Some "https://x/f" |}) = None →
          exc_class e = Exception_ "NotImplementedError").
Proof.
  apply file_without_bytes_not_processed. reflexivity.
Defined.

(** X18: when [process_file_part] returns bytes.  It returns them exactly
    when the file has a non-empty [bytes] string whose length is a multiple
    of 4 and whose characters are all in the base64 alphabet, [b64decode]
    decodes it, and the result is no longer than [max_size_bytes]; the
    bytes are then those of [b64decode].  Every failure is a [ValueError]
    or the [NotImplementedError] of the URI branch; an exception of
    [b64decode] is never passed on as it is. *)
Theorem process_file_part_result (b64decode : string → PyExc + list Z)
    (str_int : Z → string) (file : A2AFile) (max_size_bytes : Z) :
  (∀ bs, process_file_part b64decode str_int file max_size_bytes = inr bs
         ↔ ∃ s, file_bytes file = Some s ∧ s ≠ ""
                ∧ (String.length s `mod` 4 = 0)%nat
                ∧ all_chars_in base64_alphabet s = true
                ∧ b64decode s = inr bs
                ∧ Z.of_nat (length bs) ≤ max_size_bytes)
  ∧ (∀ e, process_file_part b64decode str_int file max_size_bytes = inl e →
          exc_class e = Exception_ "ValueError"
          ∨ exc_class e = Exception_ "NotImplementedError").
Proof.
  unfold process_file_part.
  remember (startswith_any ["http://"; "https://"] (default "" (file_uri file)))
    as sw.
  assert (∀ r : PyExc + list Z,
    r = (if truthy_ostr (file_uri file)
         then if negb sw
              then inl (ValueError
                          ("URI must start with http:// or https://, got: "
                           +:+ default "" (file_uri file)))
              else inl (Exc (Exception_ "NotImplementedError")
                          "Secure URI fetching for file parts is not implemented.")
         else inl (ValueError "File part has neither bytes nor URI.")) →
    (∀ bs, r ≠ inr bs)
    ∧ (∀ e, r = inl e →
            exc_class e = Exception_ "ValueError"
            ∨ exc_class e = Exception_ "NotImplementedError")) as Hother.
  { intros r ->. destruct (truthy_ostr (file_uri file)), sw; simpl;
      (split; [done|]); intros e He; injection He as <-; simpl; auto. }
  destruct (file_bytes file) as [s|] eqn:Hs;
    cbn [truthy_ostr default from_option Datatypes.id].
  2:{ destruct (Hother _ eq_refl) as [Hno Herr]. split; [|exact Herr].
      intros bs. split; [by intros ?%Hno|by intros (s & ? & _)]. }
  destruct (decide (s = "")) as [->|Hne].
  { cbn [truthy_str]. destruct (Hother _ eq_refl) as [Hno Herr].
    split; [|exact Herr].
    intros bs. split; [by intros ?%Hno|].
    by intros (s0 & [= <-] & ? & _). }
  clear Hother.
  assert (truthy_str s = true) as -> by (by destruct s).
  cbn match.
  destruct (Nat.eqb_spec (String.length s `mod` 4) 0) as [Hlen|Hlen];
    cbn [negb orb].
  2:{ split; [|intros e He; injection He as <-; simpl; auto].
      intros bs. split; [done|]. by intros (s0 & [= <-] & _ & ? & _). }
  destruct (all_chars_in base64_alphabet s) eqn:Hchars; cbn [negb].
  2:{ split; [|intros e He; injection He as <-; simpl; auto].
      intros bs. split; [done|].
      intros (s0 & [= <-] & _ & _ & Hc & _). congruence. }
  destruct (b64decode s) as [e0|bs0] eqn:Hdec.
  { split; [|intros e He; injection He as <-; simpl; auto].
    intros bs. split; [done|].
    intros (s0 & [= <-] & _ & _ & _ & Hd & _). congruence. }
  destruct (Z.ltb_spec max_size_bytes (Z.of_nat (length bs0))) as [Hbig|Hfit].
  { split; [|intros e He; injection He as <-; simpl; auto].
    intros bs. split; [done|].
    intros (s0 & [= <-] & _ & _ & _ & Hd & Hsz).
    rewrite Hdec in Hd. injection Hd as <-. lia. }
  split; [|done].
  intros bs. split.
  - intros [= <-]. by exists s.
  - intros (s0 & [= <-] & _ & _ & _ & Hd & _). congruence.
Qed.

(** ** Tool-connection manager: sessions *)

Lemma connect_transport_result world s conf m :
  (connect_transport world s conf m).1 = transport_result world s conf.
Proof.
  unfold transport_result, connect_transport.
  repeat case_match; done.
Qed.

Lemma get_session_hit world s m sess :
  _sessions m !! s = Some sess → get_session world s m = (Return sess, m).
Proof.
  intros Hs. unfold get_session. erewrite bind_run; [|done]. by rewrite Hs.
Qed.

(** [get_session] for a server with no session and no attempt in flight. *)
Lemma get_session_miss world s m :
  _sessions m !! s = None → _connection_tasks m !! s ≠ Some Pending →
  get_session world s m = after_connect world s m.
Proof.
  intros Hs Ht. unfold get_session.
  erewrite bind_run; [|done]. rewrite Hs.
  erewrite bind_run; [|apply ensure_lock_run].
  erewrite bind_run; [|done].
  set (m0 := with_locks (λ l, {[s]} ∪ l) m).
  assert (∀ k, match _connection_tasks m0 !! s with
               | Some Pending => wrap_session s (inflight_result world s)
               | _ => k
               end = k) as ->.
  { intros k. simpl. by destruct (_connection_tasks m !! s) as [[|?]|]. }
  unfold run_connect_task, after_connect. rewrite connect_cases.
  cbn [_sessions with_connection_tasks with_locks m0 config].
  rewrite Hs.
  destruct (find_config (config m) s) as [conf|].
  - rewrite connect_transport_result.
    destruct (transport_result world s conf) as [cs|e]; simpl.
    + rewrite bool_decide_eq_false_2.
      2:{ rewrite elem_of_dom, lookup_delete_eq. by intros [??]. }
      subst m0.
      unfold with_connection_tasks, with_contexts, with_sessions, with_locks.
      cbn. by rewrite union_singleton_idem, delete_insert_eq.
    + rewrite bool_decide_eq_false_2.
      2:{ rewrite elem_of_dom, lookup_delete_eq. by intros [??]. }
      subst m0.
      unfold with_connection_tasks, with_contexts, with_sessions, with_locks.
      cbn. by rewrite union_singleton_idem, delete_insert_eq.
  - simpl. rewrite bool_decide_eq_true_2.
    2:{ rewrite elem_of_dom, lookup_insert_eq. by eexists. }
    subst m0.
    unfold with_connection_tasks, with_contexts, with_sessions, with_locks.
    cbn. by rewrite union_singleton_idem, insert_insert_eq.
Qed.

Lemma wf_no_session m s :
  mcp_wf m → find_config (config m) s = None →
  _sessions m !! s = None ∧ _contexts m !! s = None.
Proof.
  intros (Hs & Hc & _) Hcfg. split.
  - destruct (_sessions m !! s) eqn:E; [|done].
    destruct (Hs s) as [x Hx]; [by eexists|congruence].
  - destruct (_contexts m !! s) eqn:E; [|done].
    destruct (Hc s) as [x Hx]; [by eexists|congruence].
Qed.

(** X19: sessions are pooled.  Once [get_session] has returned a session
    for a server, the next [get_session] for that server returns the same
    session and changes nothing, in whatever state the outside is by then:
    no second connection is attempted. *)
Theorem get_session_pooled (world world' : MCPEnv) (server_name : string)
    (m m1 : MCPClientManager) (session : nat) :
  reachable m →
  get_session world server_name m = (Return session, m1) →
  get_session world' server_name m1 = (Return session, m1).
Proof.
  intros Hr Hrun. destruct (reachable_wf m Hr) as (_ & _ & Ht).
  destruct (_sessions m !! server_name) as [sess|] eqn:Hs.
  - rewrite (get_session_hit _ _ _ _ Hs) in Hrun.
    injection Hrun as <- <-. by apply get_session_hit.
  - rewrite get_session_miss in Hrun by done.
    unfold after_connect in Hrun.
    destruct (find_config (config m) server_name) as [conf|]; [|done].
    destruct (transport_result world server_name conf) as [cs|e]; [|done].
    injection Hrun as <- <-. apply get_session_hit. simpl.
    apply lookup_insert_eq.
Qed.

Lemma get_session_pooled_witness :
  get_session down_world "memory" (get_session good_world "memory" two_servers).2
  = (Return 2%nat, (get_session good_world "memory" two_servers).2).
Proof.
  apply (get_session_pooled good_world down_world "memory" two_servers).
  - apply reach_init.
  - vm_compute. reflexivity.
Defined.

(** X20: a failed [get_session] leaves nothing half-connected.  It raises
    [ConnectionError], and afterwards the server has neither a session nor
    a context and no attempt is left in flight; the sessions and contexts
    of the other servers and the configuration are as before. *)
Theorem failed_get_session_is_clean (world : MCPEnv) (server_name : string)
    (m : MCPClientManager) (e : PyExc) :
  reachable m →
  (get_session world server_name m).1 = Raise e →
  let m' := (get_session world server_name m).2 in
  exc_class e = ConnectionError_
  ∧ _sessions m' !! server_name = None
  ∧ _contexts m' !! server_name = None
  ∧ _connection_tasks m' !! server_name ≠ Some Pending
  ∧ config m' = config m
  ∧ ∀ other, other ≠ server_name →
             _sessions m' !! other = _sessions m !! other
             ∧ _contexts m' !! other = _contexts m !! other.
Proof.
  intros Hr Hrun m'. subst m'.
  pose proof (reachable_wf m Hr) as Hwf. pose proof Hwf as (_ & _ & Ht).
  destruct (_sessions m !! server_name) as [sess|] eqn:Hs.
  { by rewrite (get_session_hit _ _ _ _ Hs) in Hrun. }
  rewrite get_session_miss in Hrun |- * by done.
  unfold after_connect in *.
  destruct (find_config (config m) server_name) as [conf|] eqn:Hcfg.
  - destruct (transport_result world server_name conf) as [cs|e0]; [done|].
    injection Hrun as <-. simpl.
    rewrite !lookup_delete_eq. repeat split; try done.
    all: intros; by rewrite lookup_delete_ne.
  - injection Hrun as <-. simpl.
    destruct (wf_no_session m server_name Hwf Hcfg) as [_ Hc].
    rewrite lookup_insert_eq. repeat split; done.
Qed.

Lemma failed_get_session_is_clean_witness :
  let m' := (get_session down_world "memory" two_servers).2 in
  exc_class (session_failed "memory"
               (connection_failed "memory"
                  (Exc (Exception_ "OSError") "spawn failed")))
  = ConnectionError_
  ∧ _sessions m' !! "memory" = None
  ∧ _contexts m' !! "memory" = None
  ∧ _connection_tasks m' !! "memory" ≠ Some Pending
  ∧ config m' = config two_servers
  ∧ ∀ other, other ≠ "memory" →
             _sessions m' !! other = _sessions two_servers !! other
             ∧ _contexts m' !! other = _contexts two_servers !! other.
Proof.
  apply (failed_get_session_is_clean down_world "memory" two_servers).
  - apply reach_init.
  - vm_compute. reflexivity.
Defined.

(** X21: a failed attempt does not poison the pool.  After a
    [get_session] that raised, a new [get_session] for the same stdio
    server opens the transport again and, when that succeeds, returns the
    new session and registers it with its context. *)
Theorem get_session_retry (world1 world2 : MCPEnv) (server_name : string)
    (m : MCPClientManager) (conf : MCPServerConfig) (e : PyExc)
    (context session : nat) :
  reachable m →
  (get_session world1 server_name m).1 = Raise e →
  find_config (config m) server_name = Some conf →
  connection_type conf = "stdio" →
  open_session world2 conf = inr (context, session) →
  let m1 := (get_session world1 server_name m).2 in
  (get_session world2 server_name m1).1 = Return session
  ∧ _sessions (get_session world2 server_name m1).2 !! server_name
    = Some session
  ∧ _contexts (get_session world2 server_name m1).2 !! server_name
    = Some context
  ∧ _connection_tasks (get_session world2 server_name m1).2 !! server_name
    = None.
Proof.
  intros Hr Hrun Hcfg Hty Hopen m1.
  assert (reachable m1) as Hr1 by apply reach_get_session, Hr.
  pose proof (reachable_wf m Hr) as (_ & _ & Ht).
  pose proof (reachable_wf m1 Hr1) as (_ & _ & Ht1).
  assert (_sessions m1 !! server_name = None ∧ config m1 = config m)
    as [Hs1 Hc1].
  { subst m1.
    destruct (_sessions m !! server_name) as [sess|] eqn:Hs.
    { by rewrite (get_session_hit _ _ _ _ Hs) in Hrun. }
    rewrite get_session_miss in Hrun |- * by done.
    unfold after_connect in *. rewrite Hcfg in *.
    destruct (transport_result world1 server_name conf); [done|].
    simpl. by rewrite lookup_delete_eq. }
  rewrite get_session_miss by done.
  unfold after_connect. rewrite Hc1, Hcfg.
  assert (transport_result world2 server_name conf
          = Return (context, session)) as ->.
  { unfold transport_result, connect_transport.
    rewrite Hty, Hopen. by rewrite bool_decide_eq_true_2. }
  simpl. by rewrite !lookup_insert_eq, lookup_delete_eq.
Qed.

Lemma get_session_retry_witness :
  let m1 := (get_session down_world "memory" two_servers).2 in
  (get_session good_world "memory" m1).1 = Return 2%nat
  ∧ _sessions (get_session good_world "memory" m1).2 !! "memory" = Some 2%nat
  ∧ _contexts (get_session good_world "memory" m1).2 !! "memory" = Some 1%nat
  ∧ _connection_tasks (get_session good_world "memory" m1).2 !! "memory"
    = None.
Proof.
  apply (get_session_retry down_world good_world "memory" two_servers
           memory_conf
           (session_failed "memory"
              (connection_failed "memory"
                 (Exc (Exception_ "OSError") "spawn failed")))).
  - apply reach_init.
  - vm_compute. reflexivity.
  - vm_compute. reflexivity.
  - reflexivity.
  - reflexivity.
Defined.

(** X22: outside mock mode a TCP server needs a host and a port.  With
    the host missing or empty, or the port missing or zero, [get_session]
    raises without opening a transport: a [ConnectionError] caused by a
    [ConnectionError] caused by the [ConfigurationError] that names the
    server. *)
Theorem tcp_requires_host_and_port (world : MCPEnv) (server_name : string)
    (m : MCPClientManager) (conf : MCPServerConfig) :
  reachable m →
  _sessions m !! server_name = None →
  find_config (config m) server_name = Some conf →
  connection_type conf = "tcp" →
  USE_MOCK world = false →
  host conf = None ∨ host conf = Some "" ∨ port conf = None
  ∨ port conf = Some 0 →
  (get_session world server_name m).1
  = Raise (session_failed server_name
             (connection_failed server_name
                (Exc ConfigurationError_
                   ("TCP connection requires host and port for "
                    +:+ server_name)))).
Proof.
  intros Hr Hs Hcfg Hty Hmock Hbad.
  pose proof (reachable_wf m Hr) as (_ & _ & Ht).
  rewrite get_session_miss by done.
  unfold after_connect. rewrite Hcfg.
  assert (transport_result world server_name conf
          = Raise (Exc ConfigurationError_
                     ("TCP connection requires host and port for "
                      +:+ server_name))) as ->; [|done].
  unfold transport_result, connect_transport.
  rewrite Hty, Hmock.
  rewrite bool_decide_eq_false_2 by done.
  rewrite bool_decide_eq_true_2 by done.
  assert (negb (truthy_ostr (host conf))
          || negb (bool_decide (is_Some (port conf) ∧ port conf ≠ Some 0))
          = true) as ->; [|done].
  destruct Hbad as [Hh | [Hh | [Hp | Hp]]]; [by rewrite Hh..| |].
  - rewrite bool_decide_eq_false_2; [by rewrite orb_true_r|].
    rewrite Hp. by intros [[??] _].
  - rewrite bool_decide_eq_false_2; [by rewrite orb_true_r|].
    by intros [_ ?].
Qed.

Lemma tcp_requires_host_and_port_witness :
  (get_session good_world "remote" two_servers).1
  = Raise (session_failed "remote"
             (connection_failed "remote"
                (Exc ConfigurationError_
                   ("TCP connection requires host and port for "
                    +:+ "remote")))).
Proof.
  apply (tcp_requires_host_and_port good_world "remote" two_servers
           remote_conf).
  - apply reach_init.
  - reflexivity.
  - vm_compute. reflexivity.
  - reflexivity.
  - reflexivity.
  - left. reflexivity.
Defined.

(** ** Tool-connection manager: shutdown and tool calls *)

Lemma close_one_fields world s m :
  config (close_one world s m) = config m
  ∧ _locks (close_one world s m) = _locks m
  ∧ _connection_tasks (close_one world s m) = _connection_tasks m.
Proof.
  unfold close_one.
  destruct (_sessions m !! s) as [session|];
    [destruct (session_close world session)|]; simpl; [done| |];
    match goal with
    | |- context [_contexts ?m1 !! s] =>
        destruct (_contexts m1 !! s) as [context|];
          [destruct (context_aexit world context)|]
    end; done.
Qed.

Lemma close_one_lookup world s m s' :
  is_Some (_sessions m !! s) →
  _sessions (close_one world s m) !! s'
  = (if decide (s' = s) then closed_session world (_sessions m !! s)
     else _sessions m !! s')
  ∧ _contexts (close_one world s m) !! s'
    = (if decide (s' = s)
       then closed_context world (_sessions m !! s) (_contexts m !! s)
       else _contexts m !! s').
Proof.
  intros [session Hs].
  unfold close_one, closed_session, closed_context. rewrite Hs.
  destruct (session_close world session); simpl.
  - destruct (decide (s' = s)) as [->|]; done.
  - destruct (_contexts m !! s) as [context|] eqn:Hc;
      [destruct (context_aexit world context)|]; simpl;
      destruct (decide (s' = s)) as [->|Hne];
      rewrite ?lookup_delete_eq, ?lookup_delete_ne by done; done.
Qed.

(** The shutdown loop over a list of distinct names that have a session. *)
Lemma close_each_lookup world names m0 s :
  NoDup names →
  (∀ x, x ∈ names → is_Some (_sessions m0 !! x)) →
  let m' := foldr (close_one world) m0 names in
  _sessions m' !! s
  = (if decide (s ∈ names) then closed_session world (_sessions m0 !! s)
     else _sessions m0 !! s)
  ∧ _contexts m' !! s
    = (if decide (s ∈ names)
       then closed_context world (_sessions m0 !! s) (_contexts m0 !! s)
       else _contexts m0 !! s).
Proof.
  intros Hnd. revert s.
  induction Hnd as [|x names Hx _ IH]; intros s Hall; simpl.
  { done. }
  assert (∀ y, y ∈ names → is_Some (_sessions m0 !! y)) as Hall'.
  { intros y Hy. apply Hall, elem_of_cons. auto. }
  destruct (IH x Hall') as [IHs IHc]. destruct (IH s Hall') as [IHs' IHc'].
  rewrite decide_False in IHs, IHc by done.
  destruct (close_one_lookup world x (foldr (close_one world) m0 names) s)
    as [-> ->].
  { rewrite IHs. apply Hall, elem_of_cons. auto. }
  destruct (decide (s = x)) as [->|Hne].
  - rewrite !decide_True by (apply elem_of_cons; auto).
    by rewrite IHs, IHc.
  - rewrite IHs', IHc'.
    destruct (decide (s ∈ names)) as [Hin|Hnin].
    + rewrite !decide_True by (apply elem_of_cons; auto). done.
    + rewrite !decide_False; [done|..];
        rewrite elem_of_cons; tauto.
Qed.

Lemma close_each_fields world names m0 :
  let m' := foldr (close_one world) m0 names in
  config m' = config m0 ∧ _locks m' = _locks m0
  ∧ _connection_tasks m' = _connection_tasks m0.
Proof.
  induction names as [|x names IH]; simpl; [done|].
  destruct (close_one_fields world x (foldr (close_one world) m0 names))
    as (-> & -> & ->).
  exact IH.
Qed.

(** X23: what [close_all] leaves.  It returns, whatever the teardown of a
    server does.  The table of connection tasks is empty, the configuration
    and the locks are kept.  Server by server: the session entry goes
    exactly when [close()] returned; the context entry goes exactly when
    the session closed and [__aexit__] returned; a server whose [close()]
    raised keeps both, and the context of a server with no session is not
    touched. *)
Theorem close_all_effect (world : MCPEnv) (m : MCPClientManager) :
  let m' := (close_all world m).2 in
  (close_all world m).1 = Return tt
  ∧ config m' = config m
  ∧ _locks m' = _locks m
  ∧ _connection_tasks m' = ∅
  ∧ ∀ s, _sessions m' !! s = closed_session world (_sessions m !! s)
         ∧ _contexts m' !! s
           = closed_context world (_sessions m !! s) (_contexts m !! s).
Proof.
  unfold close_all. async_unfold. cbn [fst snd].
  set (m0 := with_connection_tasks (λ _, ∅) m).
  set (names := elements (dom (_sessions m0))).
  destruct (close_each_fields world names m0) as (Hc & Hl & Ht).
  repeat split; [by rewrite Hc|by rewrite Hl|by rewrite Ht|..].
  - destruct (close_each_lookup world names m0 s) as [-> _];
      [apply NoDup_elements|by intros x ?%elem_of_elements%elem_of_dom|].
    change (_sessions m0) with (_sessions m).
    destruct (decide (s ∈ names)) as [Hin|Hnin]; [done|].
    assert (_sessions m !! s = None) as ->; [|done].
    apply not_elem_of_dom. intros Hd. apply Hnin. by apply elem_of_elements.
  - destruct (close_each_lookup world names m0 s) as [_ ->];
      [apply NoDup_elements|by intros x ?%elem_of_elements%elem_of_dom|].
    change (_sessions m0) with (_sessions m).
    change (_contexts m0) with (_contexts m).
    destruct (decide (s ∈ names)) as [Hin|Hnin]; [done|].
    assert (_sessions m !! s = None) as ->; [|done].
    apply not_elem_of_dom. intros Hd. apply Hnin. by apply elem_of_elements.
Qed.

(** A closed pool reconnects: after a clean [close_all] the next
    [get_session] opens the transport again. *)
Example close_all_then_reconnect :
  let m1 := (get_session good_world "memory" two_servers).2 in
  let m2 := (close_all good_world m1).2 in
  _sessions m2 = ∅ ∧ _contexts m2 = ∅
  ∧ (get_session good_world "memory" m2).1 = Return 2%nat.
Proof. vm_compute. done. Qed.

(** X24: the two outcomes of [call_tool].  When it returns, the session
    it used is registered for the server and the value is the [content]
    member of a dict result (or the result itself when it is no dict).
    When it raises, the exception is an [ActionFailedError] with a cause:
    either a [ConnectionError], when no session could be had, or the
    exception the tool call raised on a session that stays registered. *)
Theorem call_tool_outcome (world : MCPEnv) (server_name tool_name : string)
    (params : Dict) (m : MCPClientManager) :
  reachable m →
  let m' := (call_tool world server_name tool_name params m).2 in
  match (call_tool world server_name tool_name params m).1 with
  | Return v =>
      ∃ session result,
        _sessions m' !! server_name = Some session
        ∧ session_call_tool world session tool_name params = inr result
        ∧ v = dict_get_or_self "content" result
  | Raise e =>
      exc_class e = ActionFailedError_
      ∧ ∃ cause,
          exc_cause e = Some cause
          ∧ (exc_class cause = ConnectionError_
             ∨ ∃ session,
                 _sessions m' !! server_name = Some session
                 ∧ session_call_tool world session tool_name params
                   = inl cause)
  end.
Proof.
  intros Hr m'. subst m'. rewrite call_tool_state.
  pose proof (reachable_wf m Hr) as (_ & _ & Ht).
  assert (match (get_session world server_name m).1 with
          | Return session =>
              _sessions (get_session world server_name m).2 !! server_name
              = Some session
          | Raise e => exc_class e = ConnectionError_
          end) as Hget.
  { destruct (_sessions m !! server_name) as [sess|] eqn:Hs.
    - by rewrite (get_session_hit _ _ _ _ Hs).
    - rewrite get_session_miss by done. unfold after_connect.
      destruct (find_config (config m) server_name) as [conf|]; [|done].
      destruct (transport_result world server_name conf) as [cs|e]; [|done].
      simpl. apply lookup_insert_eq. }
  unfold call_tool, try_except, await_. unfold mbind, async_bind.
  destruct (get_session world server_name m) as [[session|e] m1];
    simpl in Hget |- *.
  - destruct (session_call_tool world session tool_name params)
      as [e|result] eqn:Hcall; simpl.
    + split; [done|]. exists e. split; [done|]. right. by exists session.
    + by exists session, result.
  - split; [done|]. exists e. split; [done|]. by left.
Qed.

Lemma call_tool_outcome_witness :
  let m' := (call_tool good_world "memory" "add" ∅ two_servers).2 in
  match (call_tool good_world "memory" "add" ∅ two_servers).1 with
  | Return v =>
      ∃ session result,
        _sessions m' !! "memory" = Some session
        ∧ session_call_tool good_world session "add" ∅ = inr result
        ∧ v = dict_get_or_self "content" result
  | Raise e =>
      exc_class e = ActionFailedError_
      ∧ ∃ cause,
          exc_cause e = Some cause
          ∧ (exc_class cause = ConnectionError_
             ∨ ∃ session,
                 _sessions m' !! "memory" = Some session
                 ∧ session_call_tool good_world session "add" ∅ = inl cause)
  end.
Proof.
  apply (call_tool_outcome good_world "memory" "add" ∅ two_servers).
  apply reach_init.
Defined.

(** ** Outbound client: how a stream ends *)

Lemma last_status_app_status pre ev :
  last_status (pre ++ [line_status ev]) = Some (ev_status ev).
Proof.
  unfold last_status. rewrite omap_app. simpl. by rewrite last_snoc.
Qed.

Lemma callbacks_app ls1 ls2 : callbacks (ls1 ++ ls2) = callbacks ls1 ++ callbacks ls2.
Proof. unfold callbacks. apply omap_app. Qed.

(** The read loop over a run of calm lines followed by other lines: the
    calm lines are used up, the callback hears of their events, and the loop
    goes on with the rest. *)
Lemma read_lines_calm_prefix cb pre rest loc tr :
  Forall (calm cb) pre →
  read_lines cb (pre ++ rest) loc tr
  = read_lines cb rest (status_after pre loc) (tr ++ callbacks pre).
Proof.
  intros Hcalm. revert loc tr.
  induction Hcalm as [|line ls Hline _ IH]; intros loc tr.
  - simpl. rewrite app_nil_r. by destruct loc.
  - destruct line as [| | |err|ev|ev| | | |e]; simpl in Hline; try done;
      try (simpl; rewrite IH; reflexivity).
    + destruct Hline as [Hfin Hcb]. simpl.
      erewrite bind_run.
      2:{ erewrite try_except_run; [done|].
          erewrite bind_run; [done|]. by apply call_callback_run. }
      rewrite Hfin, IH. cbn match. rewrite <- app_assoc. f_equal.
      unfold status_after. simpl. rewrite last_status_cons.
      by destruct (last_status ls).
    + simpl. erewrite bind_run.
      2:{ erewrite try_except_run; [done|].
          erewrite bind_run; [done|]. by apply call_callback_run. }
      cbn match. rewrite IH. by rewrite <- app_assoc.
Qed.

Lemma send_task_streaming peer url params cb tr :
  discover_agent peer (normalize_url url) = inr true →
  send_task peer url params (Some cb) tr
  = (loc ← consume_stream peer cb (normalize_url url) params;
     after_stream peer url params loc) tr.
Proof.
  intros Hd. unfold send_task.
  erewrite bind_run; [|unfold of_sum; by rewrite Hd]. done.
Qed.

(** The streaming branch up to the read loop, for a body that arrived
    whole. *)
Lemma consume_stream_unbroken peer cb url params tr :
  broken (http_stream peer url params) = None →
  consume_stream peer cb url params tr
  = try_except
      (read_lines cb (lines (http_stream peer url params))
         {| last_known_task_state := None; stream_exc := None |})
      (λ e, raise (wrap_stream_failure url e))
      (tr ++ [act_stream url params]).
Proof.
  intros Hb. unfold consume_stream, try_except, log_action. async_unfold.
  by rewrite Hb.
Qed.

(** X25: the final event ends the stream.  When the body of the response
    arrived whole, the lines up to the first final status event are calm
    and the callback takes that event, the client returns a task with the
    status of that event; it has told the callback of every event up to and
    including it, looks at no line that follows (not even an error event)
    and issues no [tasks/get]. *)
Theorem send_task_final_event (peer : Peer) (url : string)
    (params : A2ATaskSendParams) (cb : Callback) (pre post : list SSELine)
    (ev : A2ATaskStatusUpdateEventResult) (tr : list ClientAction) :
  discover_agent peer (normalize_url url) = inr true →
  broken (http_stream peer (normalize_url url) params) = None →
  lines (http_stream peer (normalize_url url) params)
  = pre ++ line_status ev :: post →
  Forall (calm cb) pre →
  final ev = true →
  cb (cb_status ev) = None →
  send_task peer url params (Some cb) tr
  = (Return (task_of_status params (ev_status ev)),
     tr ++ act_stream (normalize_url url) params
        :: callbacks pre ++ [act_callback (cb_status ev)]).
Proof.
  intros Hd Hb Hl Hcalm Hfin Hcb. rewrite send_task_streaming by done.
  erewrite bind_run.
  2:{ rewrite consume_stream_unbroken by done.
      erewrite try_except_run; [done|].
      rewrite Hl, read_lines_calm_prefix by done. simpl.
      erewrite bind_run.
      2:{ erewrite try_except_run; [done|].
          erewrite bind_run; [done|]. by apply call_callback_run. }
      rewrite Hfin. reflexivity. }
  unfold after_stream. simpl. unfold task_of_status.
  by rewrite <- !app_assoc.
Qed.

Lemma send_task_final_event_witness :
  send_task chatty_peer "agent.example/" (ask "echo") (Some listening) []
  = (Return (task_of_status (ask "echo") (ev_status completed_event)),
     [] ++ act_stream (normalize_url "agent.example/") (ask "echo")
        :: callbacks [line_status working_event]
        ++ [act_callback (cb_status completed_event)]).
Proof.
  apply (send_task_final_event chatty_peer "agent.example/" (ask "echo")
           listening [line_status working_event]
           [line_error quota_error; line_status working_event]).
  - reflexivity.
  - reflexivity.
  - reflexivity.
  - repeat constructor.
  - reflexivity.
  - reflexivity.
Defined.



(** X27: a request or a transfer that fails.  The response hook reads the
    whole body before the client sees the response, so the failure comes
    before the first line: the client raises (a [ConnectionError] for an
    [httpx.RequestError] or one of its subclasses, an [APIAException] for
    anything else, the failure as the cause), the callback is not called
    once, whatever events the body carried, and there is no fall back to
    [tasks/get]. *)
Theorem send_task_broken_stream (peer : Peer) (url : string)
    (params : A2ATaskSendParams) (cb : Callback) (e : PyExc)
    (tr : list ClientAction) :
  discover_agent peer (normalize_url url) = inr true →
  broken (http_stream peer (normalize_url url) params) = Some e →
  send_task peer url params (Some cb) tr
  = (Raise (ExcFrom (if is_request_error e then ConnectionError_
                     else APIAException_)
              ((if is_request_error e
                then "Network error during A2A stream request to "
                else "Error during A2A stream request to ")
               +:+ normalize_url url) e),
     tr ++ [act_stream (normalize_url url) params]).
Proof.
  intros Hd Hb. rewrite send_task_streaming by done.
  erewrite bind_raise; [done|].
  unfold consume_stream. erewrite try_except_raise.
  2:{ erewrite bind_run; [|done]. rewrite Hb. reflexivity. }
  unfold raise, wrap_stream_failure.
  by destruct (is_request_error e).
Qed.

Lemma send_task_broken_stream_witness :
  send_task flaky_peer "agent.example/" (ask "echo") (Some listening) []
  = (Raise (ExcFrom (if is_request_error
                          (Exc (Exception_ "httpx.ReadError") "reset")
                     then ConnectionError_ else APIAException_)
              ((if is_request_error
                     (Exc (Exception_ "httpx.ReadError") "reset")
                then "Network error during A2A stream request to "
                else "Error during A2A stream request to ")
               +:+ normalize_url "agent.example/")
              (Exc (Exception_ "httpx.ReadError") "reset")),
     [] ++ [act_stream (normalize_url "agent.example/") (ask "echo")]).
Proof.
  apply (send_task_broken_stream flaky_peer "agent.example/" (ask "echo")
           listening).
  - reflexivity.
  - reflexivity.
Defined.

(** The drop of [flaky_peer] is an [httpx.ReadError], a subclass of
    [httpx.RequestError]: the client raises [ConnectionError] and the two
    events of the body reach no callback. *)
Example flaky_stream_is_connection_error :
  send_task flaky_peer "agent.example/" (ask "echo") (Some listening) []
  = (Raise (ExcFrom ConnectionError_
              "Network error during A2A stream request to http://agent.example"
              (Exc (Exception_ "httpx.ReadError") "reset")),
     [act_stream "http://agent.example" (ask "echo")]).
Proof. vm_compute. reflexivity. Qed.



